(** * Learning orchestrator: indicators, confluence scoring, feature
    extraction, histogram model and backtest-learn loop.

    A shallow embedding of the TypeScript sources.

    Number model.  A JavaScript [number] is modelled without rounding:
    a finite number is an exact rational ([Q]), and the three
    non-finite values that IEEE arithmetic produces are kept apart in
    the type [num].  Candle data and configuration constants are finite
    and carry type [Q]; a value that the code derives through a
    division whose divisor can be zero carries type [num].  The sign of
    zero is not modelled.  Loop periods ([period], [lookback],
    [swingPeriod]) are positive integers, as at every call in the
    sources. *)

From Stdlib Require Import Bool String.
From Stdlib Require Import List Arith ZArith QArith Qminmax Qabs Qround.
From Stdlib Require Import Permutation Sorted Lqa Lia.
Import ListNotations.

Local Open Scope Q_scope.

(* ================================================================== *)
(** ** JavaScript numbers *)

Module JS.

Inductive num : Type :=
| Fin (q : Q)
| PInf
| NInf
| NaN.

Definition opp (x : num) : num :=
  match x with
  | Fin q => Fin (- q)
  | PInf => NInf
  | NInf => PInf
  | NaN => NaN
  end.

Definition add (x y : num) : num :=
  match x, y with
  | NaN, _ | _, NaN => NaN
  | Fin a, Fin b => Fin (a + b)
  | PInf, NInf | NInf, PInf => NaN
  | PInf, _ | _, PInf => PInf
  | NInf, _ | _, NInf => NInf
  end.

Definition sub (x y : num) : num := add x (opp y).

(** An infinity scaled by a finite factor. *)
Definition scale_inf (inf : num) (a : Q) : num :=
  match a ?= 0 with
  | Eq => NaN
  | Gt => inf
  | Lt => opp inf
  end.

Definition mul (x y : num) : num :=
  match x, y with
  | NaN, _ | _, NaN => NaN
  | Fin a, Fin b => Fin (a * b)
  | Fin a, inf | inf, Fin a => scale_inf inf a
  | PInf, PInf | NInf, NInf => PInf
  | PInf, NInf | NInf, PInf => NInf
  end.

Definition div (x y : num) : num :=
  match x, y with
  | NaN, _ | _, NaN => NaN
  | Fin a, Fin b =>
      if Qeq_bool b 0
      then match a ?= 0 with Eq => NaN | Gt => PInf | Lt => NInf end
      else Fin (a / b)
  | Fin _, _ => Fin 0
  | inf, Fin b => match b ?= 0 with Lt => opp inf | _ => inf end
  | _, _ => NaN
  end.

Definition Qlt_bool (a b : Q) : bool := negb (Qle_bool b a).

(** [x < y], [x <= y], [x > y], [x >= y]: false whenever a NaN is
    involved. *)
Definition lt (x y : num) : bool :=
  match x, y with
  | NaN, _ | _, NaN => false
  | Fin a, Fin b => Qlt_bool a b
  | NInf, NInf | PInf, _ | _, NInf => false
  | NInf, _ | _, PInf => true
  end.

Definition le (x y : num) : bool :=
  match x, y with
  | NaN, _ | _, NaN => false
  | Fin a, Fin b => Qle_bool a b
  | NInf, _ | _, PInf => true
  | PInf, _ | _, NInf => false
  end.

Definition gt (x y : num) : bool := lt y x.
Definition ge (x y : num) : bool := le y x.

(** Strict equality [===] on numbers. *)
Definition eq (x y : num) : bool :=
  match x, y with
  | Fin a, Fin b => Qeq_bool a b
  | PInf, PInf | NInf, NInf => true
  | _, _ => false
  end.

Definition abs (x : num) : num :=
  match x with
  | Fin q => Fin (Qabs q)
  | PInf | NInf => PInf
  | NaN => NaN
  end.

(** [Math.min(a, b)] and [Math.max(a, b)]. *)
Definition min2 (x y : num) : num :=
  match x, y with
  | NaN, _ | _, NaN => NaN
  | Fin a, Fin b => Fin (Qmin a b)
  | NInf, _ | _, NInf => NInf
  | PInf, z | z, PInf => z
  end.

Definition max2 (x y : num) : num :=
  match x, y with
  | NaN, _ | _, NaN => NaN
  | Fin a, Fin b => Fin (Qmax a b)
  | PInf, _ | _, PInf => PInf
  | NInf, z | z, NInf => z
  end.

(** [Math.min(...xs)] and [Math.max(...xs)]; on no argument they are
    [Infinity] and [-Infinity]. *)
Definition min_list (xs : list num) : num := fold_left min2 xs PInf.
Definition max_list (xs : list num) : num := fold_left max2 xs NInf.

(** Truthiness of a number: [0] and [NaN] are falsy. *)
Definition truthy (x : num) : bool :=
  match x with
  | Fin q => negb (Qeq_bool q 0)
  | PInf | NInf => true
  | NaN => false
  end.

(** [arr[arr.length - 1] || null] : the last element, with [undefined],
    [0] and [NaN] coerced to [null]. *)
Definition last_or_null (arr : list num) : option num :=
  match rev arr with
  | [] => None
  | x :: _ => if truthy x then Some x else None
  end.

(** [arr[arr.length - k]] for [k >= 1]; [undefined] when the array is
    shorter than [k]. *)
Definition from_end {A : Type} (arr : list A) (k : nat) : option A :=
  nth_error (rev arr) (k - 1).

(** [x || d] for [x : number | null]. *)
Definition or_else (x : option num) (d : num) : num :=
  match x with
  | Some v => if truthy v then v else d
  | None => d
  end.

(** Truthiness of [x : number | null]. *)
Definition truthy_opt (x : option num) : bool :=
  match x with
  | Some v => truthy v
  | None => false
  end.

(** [arr.slice(s, e)] for [0 <= s]. *)
Definition slice {A : Type} (arr : list A) (s e : nat) : list A :=
  firstn (e - s) (skipn s arr).

(** [arr.slice(-n)] for [n > 0]: the last [n] elements. *)
Definition slice_last {A : Type} (arr : list A) (n : nat) : list A :=
  skipn (length arr - n) arr.

(** The index that [slice] makes of a relative integer argument. *)
Definition relativeIndex (len : nat) (k : Z) : nat :=
  if (k <? 0)%Z then Z.to_nat (Z.max (Z.of_nat len + k) 0)
  else Nat.min (Z.to_nat k) len.

(** [arr.slice(s, e)] and [arr.slice(s)] for integers of either sign. *)
Definition sliceZ {A : Type} (arr : list A) (s e : Z) : list A :=
  slice arr (relativeIndex (length arr) s) (relativeIndex (length arr) e).

Definition sliceFromZ {A : Type} (arr : list A) (s : Z) : list A :=
  skipn (relativeIndex (length arr) s) arr.

(** [arr.reduce((a, b) => a + b, 0)]. *)
Definition sum (xs : list Q) : Q := fold_left Qplus xs 0.

(** A thrown exception, or a returned value. *)
Inductive result (A : Type) : Type :=
| Ok (a : A)
| Throw (msg : string).

Arguments Ok {A} a.
Arguments Throw {A} msg.

End JS.

Import JS.

Definition Qpos (p : positive) : Q := inject_Z (Zpos p).

(* ================================================================== *)
(** ** Candles and the indicator engine (smc-indicators) *)

Module Candle.
Record t : Type := mk {
  timestamp : Z;
  open : Q;
  high : Q;
  low : Q;
  close : Q;
  volume : Q
}.
End Candle.

Module OrderBlock.
Inductive kind : Type := bull | bear.
Record t : Type := mk {
  index : nat;
  timestamp : Z;
  open : Q;
  high : Q;
  low : Q;
  close : Q;
  type : kind;
  strength : num
}.
End OrderBlock.

Module FVG.
Record t : Type := mk {
  index : nat;
  from : Q;
  to : Q;
  type : OrderBlock.kind;
  size : Q
}.
End FVG.

Module Zone.
Record t : Type := mk {
  price : Q;
  touches : nat;
  lastTouch : nat
}.
End Zone.

Module LiquidityZones.
Record t : Type := mk {
  highs : list Zone.t;
  lows : list Zone.t
}.
End LiquidityZones.

Inductive Dir : Type := up | down.

Definition Dir_eqb (a b : Dir) : bool :=
  match a, b with
  | up, up | down, down => true
  | _, _ => false
  end.

Module SMCAnalysis.
Record t : Type := mk {
  trend : option Dir;
  bos : option Dir;
  ema50 : option num;
  ema200 : option num;
  rsi : option num;
  orderBlocks : list OrderBlock.t;
  fvg : list FVG.t;
  liquidityZones : LiquidityZones.t;
  atr : option num;
  vwap : option num
}.
End SMCAnalysis.

Module SMCIndicators.

Definition closes (candles : list Candle.t) : list Q :=
  map Candle.close candles.

(** The indices [i] of [for (let i = start; i < stop; i++)]. *)
Definition range (start stop : nat) : list nat := seq start (stop - start).

Definition sma (data : list Q) (period : positive) : list Q :=
  let p := Pos.to_nat period in
  map (fun i => sum (slice data (i + 1 - p) (i + 1)) / Qpos period)
      (range (p - 1) (length data)).

Fixpoint ema_loop (multiplier ema : Q) (rest : list Q) : list Q :=
  match rest with
  | [] => []
  | d :: rest' =>
      let ema' := (d - ema) * multiplier + ema in
      ema' :: ema_loop multiplier ema' rest'
  end.

Definition ema (data : list Q) (period : positive) : list Q :=
  let p := Pos.to_nat period in
  let multiplier := 2 / (Qpos period + 1) in
  let ema0 := sum (slice data 0 p) / Qpos period in
  ema0 :: ema_loop multiplier ema0 (skipn p data).

(** The differences [slice[j] - slice[j - 1]] for [j = 1 .. length - 1]. *)
Fixpoint diffs (slice : list Q) : list Q :=
  match slice with
  | a :: (b :: _) as rest => (b - a) :: diffs rest
  | _ => []
  end.

Definition gain (diff : Q) : Q := if Qle_bool 0 diff then diff else 0.
Definition loss (diff : Q) : Q := if Qle_bool 0 diff then 0 else Qabs diff.

Definition avgGain (slice : list Q) (period : positive) : Q :=
  sum (map gain (diffs slice)) / Qpos period.

Definition avgLoss (slice : list Q) (period : positive) : Q :=
  sum (map loss (diffs slice)) / Qpos period.

(** The body of the outer loop of [rsi]: the value pushed for one
    window [closes.slice(i - period, i)]. *)
Definition rsi_window (slice : list Q) (period : positive) : num :=
  if Qeq_bool (avgLoss slice period) 0 then Fin 100
  else
    let rs := div (Fin (avgGain slice period)) (Fin (avgLoss slice period)) in
    sub (Fin 100) (div (Fin 100) (add (Fin 1) rs)).

Definition rsi (candles : list Candle.t) (period : positive) : list num :=
  let p := Pos.to_nat period in
  let cl := closes candles in
  map (fun i => rsi_window (slice cl (i - p) i) period)
      (range p (length cl)).

(** The range of one candle as [atr] computes it. *)
Definition tr (c : Candle.t) : Q :=
  Qmax (Candle.high c - Candle.low c)
       (Qmax (Qabs (Candle.high c - Candle.close c))
             (Qabs (Candle.low c - Candle.close c))).

Definition atr (candles : list Candle.t) (period : positive) : list Q :=
  let p := Pos.to_nat period in
  map (fun i => sum (map tr (slice candles (i + 1 - p) (i + 1))) / Qpos period)
      (range (p - 1) (length candles)).

Fixpoint vwap_loop (cumVolPrice cumVol : Q) (candles : list Candle.t)
  : list num :=
  match candles with
  | [] => []
  | c :: rest =>
      let typicalPrice :=
        (Candle.high c + Candle.low c + Candle.close c) / 3 in
      let cumVolPrice' := cumVolPrice + typicalPrice * Candle.volume c in
      let cumVol' := cumVol + Candle.volume c in
      div (Fin cumVolPrice') (Fin cumVol')
        :: vwap_loop cumVolPrice' cumVol' rest
  end.

Definition vwap (candles : list Candle.t) : list num :=
  vwap_loop 0 0 candles.

Definition body (c : Candle.t) : Q := Qabs (Candle.close c - Candle.open c).

Definition bullish_candle (c : Candle.t) : bool :=
  Qlt_bool (Candle.open c) (Candle.close c).

Definition bearish_candle (c : Candle.t) : bool :=
  Qlt_bool (Candle.close c) (Candle.open c).

Definition mkOrderBlock (i : nat) (candle : Candle.t)
    (type : OrderBlock.kind) (strength : num) : OrderBlock.t :=
  OrderBlock.mk i (Candle.timestamp candle) (Candle.open candle)
    (Candle.high candle) (Candle.low candle) (Candle.close candle)
    type strength.

(** The body of the loop of [detectOrderBlocks] at index [i]. *)
Definition orderBlocksAt (candles : list Candle.t) (lookback : positive)
    (i : nat) : list OrderBlock.t :=
  match nth_error candles i, nth_error candles (i + 1),
        nth_error candles (i + 2) with
  | Some candle, Some nextCandle, Some nextNextCandle =>
      let bodySize := body candle in
      let avgBody :=
        sum (map body (slice candles (i - Pos.to_nat lookback) i))
          / Qpos lookback in
      let strong := Qlt_bool (avgBody * (3 # 2)) bodySize in
      (if bearish_candle candle && strong
          && (bullish_candle nextCandle && bullish_candle nextNextCandle)
       then [mkOrderBlock i candle OrderBlock.bull
               (div (Fin bodySize) (Fin avgBody))]
       else [])
      ++
      (if bullish_candle candle && strong
          && (bearish_candle nextCandle && bearish_candle nextNextCandle)
       then [mkOrderBlock i candle OrderBlock.bear
               (div (Fin bodySize) (Fin avgBody))]
       else [])
  | _, _, _ => []
  end.

Definition detectOrderBlocks (candles : list Candle.t) (lookback : positive)
  : list OrderBlock.t :=
  flat_map (orderBlocksAt candles lookback)
    (range (Pos.to_nat lookback) (length candles - 2)).

(** The body of the loop of [detectFVG] at index [i]. *)
Definition fvgAt (candles : list Candle.t) (i : nat) : list FVG.t :=
  match nth_error candles (i - 1), nth_error candles (i + 1) with
  | Some prev, Some next =>
      (if Qlt_bool (Candle.high prev) (Candle.low next)
       then [FVG.mk i (Candle.high prev) (Candle.low next) OrderBlock.bull
               (Candle.low next - Candle.high prev)]
       else [])
      ++
      (if Qlt_bool (Candle.high next) (Candle.low prev)
       then [FVG.mk i (Candle.high next) (Candle.low prev) OrderBlock.bear
               (Candle.low prev - Candle.high next)]
       else [])
  | _, _ => []
  end.

Definition detectFVG (candles : list Candle.t) : list FVG.t :=
  flat_map (fvgAt candles) (range 1 (length candles - 1)).

Definition swingWindow (candles : list Candle.t) (swingPeriod i : nat)
  : list Candle.t :=
  slice candles (i - swingPeriod) (i + swingPeriod + 1).

Definition swingHighAt (candles : list Candle.t) (swingPeriod i : nat)
  : list Zone.t :=
  match nth_error candles i with
  | Some ci =>
      if forallb (fun c => Qle_bool (Candle.high c) (Candle.high ci))
                 (swingWindow candles swingPeriod i)
      then [Zone.mk (Candle.high ci) 0 i] else []
  | None => []
  end.

Definition swingLowAt (candles : list Candle.t) (swingPeriod i : nat)
  : list Zone.t :=
  match nth_error candles i with
  | Some ci =>
      if forallb (fun c => Qle_bool (Candle.low ci) (Candle.low c))
                 (swingWindow candles swingPeriod i)
      then [Zone.mk (Candle.low ci) 0 i] else []
  | None => []
  end.

Definition detectLiquidity (candles : list Candle.t) (swingPeriod : positive)
  : LiquidityZones.t :=
  let sp := Pos.to_nat swingPeriod in
  let idx := range sp (length candles - sp) in
  LiquidityZones.mk (flat_map (swingHighAt candles sp) idx)
                    (flat_map (swingLowAt candles sp) idx).

(** [a > b ? 'up' : a < b ? 'down' : null], where a missing operand
    ([undefined]) makes both comparisons false. *)
Definition compareDir (a b : option Q) : option Dir :=
  match a, b with
  | Some x, Some y =>
      if Qlt_bool y x then Some up
      else if Qlt_bool x y then Some down
      else None
  | _, _ => None
  end.

Definition getTrend (candles : list Candle.t) : option Dir :=
  if (length candles <? 200)%nat then None
  else
    let sma50 := sma (closes candles) 50 in
    let sma200 := sma (closes candles) 200 in
    compareDir (from_end sma50 1) (from_end sma200 1).

Definition getBOS (candles : list Candle.t) : option Dir :=
  if (length candles <? 50)%nat then None
  else
    let sma50 := sma (closes candles) 50 in
    compareDir (from_end sma50 1) (from_end sma50 2).

Definition analyze (candles : list Candle.t) : SMCAnalysis.t :=
  let ema50Arr := ema (closes candles) 50 in
  let ema200Arr := ema (closes candles) 200 in
  let rsiArr := rsi candles 14 in
  let atrArr := atr candles 14 in
  let vwapArr := vwap candles in
  SMCAnalysis.mk
    (getTrend candles)
    (getBOS candles)
    (last_or_null (map Fin ema50Arr))
    (last_or_null (map Fin ema200Arr))
    (last_or_null rsiArr)
    (detectOrderBlocks candles 10)
    (detectFVG candles)
    (detectLiquidity candles 5)
    (last_or_null (map Fin atrArr))
    (last_or_null vwapArr).

End SMCIndicators.

(* ================================================================== *)
(** ** The confluence scorer (unified-scoring) *)

Module SMCWeights.
(** Modelled from the spec: the type [SMCWeights] of [types.ts] is not
    among the sources; the weight configuration has the seven named
    numeric slots that [calculateConfluence] reads. *)
Record t : Type := mk {
  trend_structure : Q;
  order_blocks : Q;
  fvgs : Q;
  ema_alignment : Q;
  liquidity : Q;
  mtf_bonus : Q;
  rsi_penalty : Q
}.
End SMCWeights.

Inductive Bias : Type := bullish | bearish | neutral.

Definition Bias_eqb (a b : Bias) : bool :=
  match a, b with
  | bullish, bullish | bearish, bearish | neutral, neutral => true
  | _, _ => false
  end.

Module UnifiedScore.
(** [breakdown] has one entry per weight slot and is kept in a record
    of the same shape.  The [confluence] messages are display text and
    are left out. *)
Record t : Type := mk {
  score : Q;
  breakdown : SMCWeights.t;
  bias : Bias;
  macroScore : Q
}.
End UnifiedScore.

Module UnifiedScoring.

(** [x === d] for [x : 'up' | 'down' | null]. *)
Definition isDir (d : Dir) (x : option Dir) : bool :=
  match x with
  | Some d' => Dir_eqb d d'
  | None => false
  end.

(** [x === y] for [x, y : 'up' | 'down' | null]. *)
Definition sameDir (x y : option Dir) : bool :=
  match x, y with
  | Some a, Some b => Dir_eqb a b
  | None, None => true
  | _, _ => false
  end.

(** Truthiness of [x : 'up' | 'down' | null]. *)
Definition known (x : option Dir) : bool :=
  match x with
  | Some _ => true
  | None => false
  end.

Definition resolveBias (trend bos : option Dir) : Bias :=
  if isDir up trend && isDir up bos then bullish
  else if isDir down trend && isDir down bos then bearish
  else if isDir up trend || isDir up bos then bullish
  else if isDir down trend || isDir down bos then bearish
  else neutral.

(** [breakdown.trend_structure], lines 598-611. *)
Definition trendStructure (trend bos : option Dir) (weights : SMCWeights.t)
  : Q :=
  if known trend && known bos && sameDir trend bos
  then SMCWeights.trend_structure weights
  else if known trend then SMCWeights.trend_structure weights * (1 # 2)
  else if known bos then SMCWeights.trend_structure weights * (3 # 10)
  else 0.

Definition obHigh (ob : OrderBlock.t) : Q :=
  Qmax (OrderBlock.open ob) (OrderBlock.close ob).

Definition obLow (ob : OrderBlock.t) : Q :=
  Qmin (OrderBlock.open ob) (OrderBlock.close ob).

Definition isKind (k : OrderBlock.kind) (k' : OrderBlock.kind) : bool :=
  match k, k' with
  | OrderBlock.bull, OrderBlock.bull | OrderBlock.bear, OrderBlock.bear => true
  | _, _ => false
  end.

(** [Math.abs(currentPrice - level) / currentPrice < bound]. *)
Definition within (currentPrice level bound : Q) : bool :=
  lt (div (Fin (Qabs (currentPrice - level))) (Fin currentPrice)) (Fin bound).

Definition orderBlocksScore (a : SMCAnalysis.t) (currentPrice : Q)
    (weights : SMCWeights.t) (bias : Bias) : Q :=
  let relevantOBs :=
    filter (fun ob => Qle_bool (obLow ob * (95 # 100)) currentPrice
                      && Qle_bool currentPrice (obHigh ob * (105 # 100)))
           (SMCAnalysis.orderBlocks a) in
  let bullOBs := filter (fun ob => isKind (OrderBlock.type ob) OrderBlock.bull)
                        relevantOBs in
  let bearOBs := filter (fun ob => isKind (OrderBlock.type ob) OrderBlock.bear)
                        relevantOBs in
  if Bias_eqb bias bullish && (0 <? length bullOBs)%nat then
    let nearOB :=
      existsb (fun ob => within currentPrice (obLow ob) (5 # 100)) bullOBs in
    if nearOB then SMCWeights.order_blocks weights
    else SMCWeights.order_blocks weights * (6 # 10)
  else if Bias_eqb bias bearish && (0 <? length bearOBs)%nat then
    let nearOB :=
      existsb (fun ob => within currentPrice (obHigh ob) (5 # 100)) bearOBs in
    if nearOB then SMCWeights.order_blocks weights
    else SMCWeights.order_blocks weights * (6 # 10)
  else if (0 <? length relevantOBs)%nat then
    SMCWeights.order_blocks weights * (3 # 10)
  else 0.

Definition fvgsScore (a : SMCAnalysis.t) (currentPrice : Q)
    (weights : SMCWeights.t) (bias : Bias) : Q :=
  let relevantFVGs :=
    filter (fun g => Qle_bool (FVG.from g * (98 # 100)) currentPrice
                     && Qle_bool currentPrice (FVG.to g * (102 # 100)))
           (SMCAnalysis.fvg a) in
  let bullFVGs := filter (fun g => isKind (FVG.type g) OrderBlock.bull)
                         relevantFVGs in
  let bearFVGs := filter (fun g => isKind (FVG.type g) OrderBlock.bear)
                         relevantFVGs in
  if Bias_eqb bias bullish && (0 <? length bullFVGs)%nat then
    let nearFVG :=
      existsb (fun g => within currentPrice (FVG.from g) (3 # 100)) bullFVGs in
    if nearFVG then SMCWeights.fvgs weights
    else SMCWeights.fvgs weights * (1 # 2)
  else if Bias_eqb bias bearish && (0 <? length bearFVGs)%nat then
    let nearFVG :=
      existsb (fun g => within currentPrice (FVG.to g) (3 # 100)) bearFVGs in
    if nearFVG then SMCWeights.fvgs weights
    else SMCWeights.fvgs weights * (1 # 2)
  else if (0 <? length relevantFVGs)%nat then SMCWeights.fvgs weights
  else 0.

Definition emaAlignmentScore (a : SMCAnalysis.t) (weights : SMCWeights.t)
    (bias : Bias) : Q :=
  match SMCAnalysis.ema50 a, SMCAnalysis.ema200 a with
  | Some e50, Some e200 =>
      if truthy e50 && truthy e200 then
        let emaTrend := if gt e50 e200 then bullish else bearish in
        if (Bias_eqb bias bullish && Bias_eqb emaTrend bullish)
           || (Bias_eqb bias bearish && Bias_eqb emaTrend bearish)
        then SMCWeights.ema_alignment weights
        else - (5)
      else 0
  | _, _ => 0
  end.

Definition liquidityScore (a : SMCAnalysis.t) (weights : SMCWeights.t) : Q :=
  let z := SMCAnalysis.liquidityZones a in
  if (0 <? length (LiquidityZones.highs z))%nat
     || (0 <? length (LiquidityZones.lows z))%nat
  then SMCWeights.liquidity weights
  else 0.

Definition rsiScore (a : SMCAnalysis.t) (weights : SMCWeights.t)
    (bias : Bias) : Q :=
  match SMCAnalysis.rsi a with
  | Some r =>
      if truthy r then
        if gt r (Fin 70) then SMCWeights.rsi_penalty weights
        else if lt r (Fin 30) then
          if Bias_eqb bias bullish
          then SMCWeights.rsi_penalty weights * (1 # 2)
          else SMCWeights.rsi_penalty weights
        else if ge r (Fin 40) && le r (Fin 60) then 5
        else 0
      else 0
  | None => 0
  end.

Definition calculateConfluence (analysis : SMCAnalysis.t) (currentPrice : Q)
    (weights : SMCWeights.t) : UnifiedScore.t :=
  let bias :=
    resolveBias (SMCAnalysis.trend analysis) (SMCAnalysis.bos analysis) in
  let breakdown :=
    SMCWeights.mk
      (trendStructure (SMCAnalysis.trend analysis) (SMCAnalysis.bos analysis)
         weights)
      (orderBlocksScore analysis currentPrice weights bias)
      (fvgsScore analysis currentPrice weights bias)
      (emaAlignmentScore analysis weights bias)
      (liquidityScore analysis weights)
      (SMCWeights.mtf_bonus weights)
      (rsiScore analysis weights bias) in
  let totalScore :=
    SMCWeights.trend_structure breakdown
    + SMCWeights.order_blocks breakdown
    + SMCWeights.fvgs breakdown
    + SMCWeights.ema_alignment breakdown
    + SMCWeights.liquidity breakdown
    + SMCWeights.mtf_bonus breakdown
    + SMCWeights.rsi_penalty breakdown in
  UnifiedScore.mk (Qmax 0 totalScore) breakdown bias 0.

End UnifiedScoring.

(* ================================================================== *)
(** ** Feature records (trade-features) *)

Module Direction.
Inductive t : Type := long | short.
Definition toString (d : t) : string :=
  match d with long => "long" | short => "short" end.
End Direction.

Module Trend.
Inductive t : Type := up | down | neutral.
Definition toString (d : t) : string :=
  match d with up => "up" | down => "down" | neutral => "neutral" end.
End Trend.

(** [analysis.trend || 'neutral']. *)
Definition trendOrNeutral (d : option Dir) : Trend.t :=
  match d with
  | Some up => Trend.up
  | Some down => Trend.down
  | None => Trend.neutral
  end.

Module ObType.
Inductive t : Type := bull | bear | none.
Definition toString (d : t) : string :=
  match d with bull => "bull" | bear => "bear" | none => "none" end.
End ObType.

Module FvgType.
Inductive t : Type := bull | bear | mixed.
Definition toString (d : t) : string :=
  match d with bull => "bull" | bear => "bear" | mixed => "mixed" end.
End FvgType.

Module RsiState.
Inductive t : Type := overbought | oversold | neutral.
Definition toString (d : t) : string :=
  match d with
  | overbought => "overbought"
  | oversold => "oversold"
  | neutral => "neutral"
  end.
End RsiState.

Module Session.
Inductive t : Type := asian | london | newyork | overlap | off_hours.
Definition toString (d : t) : string :=
  match d with
  | asian => "asian"
  | london => "london"
  | newyork => "newyork"
  | overlap => "overlap"
  | off_hours => "off-hours"
  end.
End Session.

Module Streak.
Inductive t : Type := win | loss | none.
Definition toString (d : t) : string :=
  match d with win => "win" | loss => "loss" | none => "none" end.
End Streak.

Module Outcome.
Inductive t : Type := WIN | LOSS.
Definition toString (d : t) : string :=
  match d with WIN => "WIN" | LOSS => "LOSS" end.
Definition isWin (d : t) : bool :=
  match d with WIN => true | LOSS => false end.
End Outcome.

Module BacktestTrade.
Record t : Type := mk {
  outcome : Outcome.t;
  pnl : num;
  pnl_percent : num;
  exit_reason : string;
  holding_periods : num
}.
End BacktestTrade.

Module TradeFeatures.

Record t : Type := mk {
  entry_price : num;
  entry_time : num;
  direction : Direction.t;
  trend_direction : Trend.t;
  trend_strength : num;
  trend_bos_aligned : bool;
  ob_near : bool;
  ob_distance : num;
  ob_type : ObType.t;
  ob_size : num;
  ob_age : num;
  fvg_near : bool;
  fvg_count : num;
  fvg_nearest_distance : num;
  fvg_size : num;
  fvg_type : FvgType.t;
  ema_aligned : bool;
  ema_trend : Trend.t;
  rsi_value : num;
  rsi_state : RsiState.t;
  liquidity_near : bool;
  liquidity_count : num;
  mtf_aligned : bool;
  volatility : num;
  atr_value : num;
  price_position : num;
  distance_to_high : num;
  distance_to_low : num;
  volume_spike : bool;
  volume_ratio : num;
  confluence_score : num;
  confluence_count : num;
  session : Session.t;
  days_since_loss : num;
  streak_type : Streak.t;
  potential_rr : num;
  outcome : Outcome.t;
  pnl : num;
  pnl_percent : num;
  exit_reason : string;
  holding_periods : num
}.

(** [keyof TradeFeatures]. *)
Inductive key : Type :=
| k_entry_price | k_entry_time | k_direction
| k_trend_direction | k_trend_strength | k_trend_bos_aligned
| k_ob_near | k_ob_distance | k_ob_type | k_ob_size | k_ob_age
| k_fvg_near | k_fvg_count | k_fvg_nearest_distance | k_fvg_size
| k_fvg_type
| k_ema_aligned | k_ema_trend
| k_rsi_value | k_rsi_state
| k_liquidity_near | k_liquidity_count
| k_mtf_aligned
| k_volatility | k_atr_value
| k_price_position | k_distance_to_high | k_distance_to_low
| k_volume_spike | k_volume_ratio
| k_confluence_score | k_confluence_count
| k_session
| k_days_since_loss | k_streak_type
| k_potential_rr
| k_outcome | k_pnl | k_pnl_percent | k_exit_reason | k_holding_periods.

(** The value of a field as the generic code sees it; [typeof] tells
    the three cases apart. *)
Inductive value : Type :=
| VNum (n : num)
| VBool (b : bool)
| VStr (s : string).

(** [t[k]]. *)
Definition get (k : key) (x : t) : value :=
  match k with
  | k_entry_price => VNum (entry_price x)
  | k_entry_time => VNum (entry_time x)
  | k_direction => VStr (Direction.toString (direction x))
  | k_trend_direction => VStr (Trend.toString (trend_direction x))
  | k_trend_strength => VNum (trend_strength x)
  | k_trend_bos_aligned => VBool (trend_bos_aligned x)
  | k_ob_near => VBool (ob_near x)
  | k_ob_distance => VNum (ob_distance x)
  | k_ob_type => VStr (ObType.toString (ob_type x))
  | k_ob_size => VNum (ob_size x)
  | k_ob_age => VNum (ob_age x)
  | k_fvg_near => VBool (fvg_near x)
  | k_fvg_count => VNum (fvg_count x)
  | k_fvg_nearest_distance => VNum (fvg_nearest_distance x)
  | k_fvg_size => VNum (fvg_size x)
  | k_fvg_type => VStr (FvgType.toString (fvg_type x))
  | k_ema_aligned => VBool (ema_aligned x)
  | k_ema_trend => VStr (Trend.toString (ema_trend x))
  | k_rsi_value => VNum (rsi_value x)
  | k_rsi_state => VStr (RsiState.toString (rsi_state x))
  | k_liquidity_near => VBool (liquidity_near x)
  | k_liquidity_count => VNum (liquidity_count x)
  | k_mtf_aligned => VBool (mtf_aligned x)
  | k_volatility => VNum (volatility x)
  | k_atr_value => VNum (atr_value x)
  | k_price_position => VNum (price_position x)
  | k_distance_to_high => VNum (distance_to_high x)
  | k_distance_to_low => VNum (distance_to_low x)
  | k_volume_spike => VBool (volume_spike x)
  | k_volume_ratio => VNum (volume_ratio x)
  | k_confluence_score => VNum (confluence_score x)
  | k_confluence_count => VNum (confluence_count x)
  | k_session => VStr (Session.toString (session x))
  | k_days_since_loss => VNum (days_since_loss x)
  | k_streak_type => VStr (Streak.toString (streak_type x))
  | k_potential_rr => VNum (potential_rr x)
  | k_outcome => VStr (Outcome.toString (outcome x))
  | k_pnl => VNum (pnl x)
  | k_pnl_percent => VNum (pnl_percent x)
  | k_exit_reason => VStr (exit_reason x)
  | k_holding_periods => VNum (holding_periods x)
  end.

(** [t[k] as number]: the cast does not convert, and the generic code
    applies it to numeric fields only. *)
Definition getNumber (k : key) (x : t) : num :=
  match get k x with
  | VNum n => n
  | _ => NaN
  end.

(** Strict equality [===] on field values.  [NaN] differs from itself. *)
Definition value_eq (a b : value) : bool :=
  match a, b with
  | VNum x, VNum y => JS.eq x y
  | VBool x, VBool y => Bool.eqb x y
  | VStr x, VStr y => String.eqb x y
  | _, _ => false
  end.

(** Equality of the members of a [Set] (SameValueZero): like [===],
    except that [NaN] equals itself. *)
Definition value_same (a b : value) : bool :=
  match a, b with
  | VNum NaN, VNum NaN => true
  | _, _ => value_eq a b
  end.

End TradeFeatures.

(* ================================================================== *)
(** ** The feature extractor: multi-timeframe alignment *)

Module FeatureExtractor.

(** [getTrendForPeriod]: the window [candles.slice(-period)] holds
    [period] candles when the length test passes; reading the close of
    a missing candle throws. *)
Definition getTrendForPeriod (candles : list Candle.t) (period : positive)
  : result Trend.t :=
  if (length candles <? Pos.to_nat period)%nat then Ok Trend.neutral
  else
    let recentCandles := slice_last candles (Pos.to_nat period) in
    match nth_error recentCandles 0, from_end recentCandles 1 with
    | Some first, Some last =>
        let firstPrice := Candle.close first in
        let lastPrice := Candle.close last in
        let percentChange :=
          mul (div (Fin (lastPrice - firstPrice)) (Fin firstPrice))
              (Fin 100) in
        if gt percentChange (Fin (1 # 2)) then Ok Trend.up
        else if lt percentChange (Fin (- (1 # 2))) then Ok Trend.down
        else Ok Trend.neutral
    | _, _ => Throw "TypeError"
    end.

Definition isTrend (a b : Trend.t) : bool :=
  match a, b with
  | Trend.up, Trend.up | Trend.down, Trend.down
  | Trend.neutral, Trend.neutral => true
  | _, _ => false
  end.

(** [[a, b, c].filter(Boolean).length]. *)
Definition countTrue (bs : list bool) : nat :=
  length (filter (fun b => b) bs).

Definition checkMTFAlignment (trend_direction : Trend.t)
    (direction : Direction.t) (currentCandle : Candle.t)
    (historicalCandles : list Candle.t) : result bool :=
  if (length historicalCandles <? 50)%nat then Ok true
  else
    match getTrendForPeriod historicalCandles 20,
          getTrendForPeriod historicalCandles 50,
          getTrendForPeriod historicalCandles 100 with
    | Ok shortTermTrend, Ok mediumTermTrend, Ok longTermTrend =>
        match direction with
        | Direction.long =>
            let shortAligned := isTrend shortTermTrend Trend.up
                                || isTrend shortTermTrend Trend.neutral in
            let mediumAligned := isTrend mediumTermTrend Trend.up
                                 || isTrend mediumTermTrend Trend.neutral in
            let longAligned := isTrend longTermTrend Trend.up
                               || isTrend longTermTrend Trend.neutral in
            Ok (2 <=? countTrue [shortAligned; mediumAligned; longAligned])%nat
        | Direction.short =>
            let shortAligned := isTrend shortTermTrend Trend.down
                                || isTrend shortTermTrend Trend.neutral in
            let mediumAligned := isTrend mediumTermTrend Trend.down
                                 || isTrend mediumTermTrend Trend.neutral in
            let longAligned := isTrend longTermTrend Trend.down
                               || isTrend longTermTrend Trend.neutral in
            Ok (2 <=? countTrue [shortAligned; mediumAligned; longAligned])%nat
        end
    | Throw e, _, _ | Ok _, Throw e, _ | Ok _, Ok _, Throw e => Throw e
    end.

(** The [mtf_aligned] field as [extractFeatures] computes it (lines
    131-137 and 224-230): the window
    [candles.slice(Math.max(0, index - lookback), index + 1)] and the
    call of [checkMTFAlignment].  Without a candle at [index],
    [extractFeatures] throws on reading [currentCandle.close] and
    returns no record. *)
Definition mtf_aligned (lookback : nat) (candles : list Candle.t)
    (index : nat) (analysis : SMCAnalysis.t) (direction : Direction.t)
  : result bool :=
  match nth_error candles index with
  | Some currentCandle =>
      let historicalCandles := slice candles (index - lookback) (index + 1) in
      let trend_direction := trendOrNeutral (SMCAnalysis.trend analysis) in
      checkMTFAlignment trend_direction direction currentCandle
        historicalCandles
  | None => Throw "TypeError"
  end.

End FeatureExtractor.

(* ================================================================== *)
(** ** The histogram prediction model (ml-model) *)

Module FeatureBin.
Record t : Type := mk {
  min : num;
  max : num;
  count : nat;
  wins : nat;
  winRate : Q;
  value : option TradeFeatures.value
}.
End FeatureBin.

Module ModelFeature.
Record t : Type := mk {
  name : TradeFeatures.key;
  bins : list FeatureBin.t;
  importance : Q
}.
End ModelFeature.

Module Prediction.
(** The [reason] text is display output and is left out. *)
Record t : Type := mk {
  winProbability : Q;
  confidence : num;
  keyFeatures : list TradeFeatures.key
}.
End Prediction.

Module WeightedScore.
Record t : Type := mk {
  feature : TradeFeatures.key;
  score : Q;
  winRate : Q
}.
End WeightedScore.

Module TradingMLModel.

Import TradeFeatures.

Scheme Equality for key.

(** The state of a model object: the [features] map in insertion
    order, and the [trained] flag. *)
Record t : Type := mk {
  features : list (key * ModelFeature.t);
  trained : bool
}.

Definition minSampleSize : nat := 30.

(** [new TradingMLModel()]. *)
Definition new : t := mk [] false.

Definition Qnat (n : nat) : Q := inject_Z (Z.of_nat n).

(** [Map.prototype.set]: a present key keeps its place. *)
Fixpoint map_set (k : key) (v : ModelFeature.t)
    (m : list (key * ModelFeature.t)) : list (key * ModelFeature.t) :=
  match m with
  | [] => [(k, v)]
  | (k', v') :: rest =>
      if key_beq k k' then (k, v) :: rest
      else (k', v') :: map_set k v rest
  end.

Definition isWin (x : TradeFeatures.t) : bool :=
  Outcome.isWin (TradeFeatures.outcome x).

(** [n > 0 ? wins / n : 0]. *)
Definition rate (wins n : nat) : Q :=
  if (0 <? n)%nat then Qnat wins / Qnat n else 0.

(** [val >= bin.min && val < bin.max]. *)
Definition inRange (val lo hi : num) : bool := ge val lo && lt val hi.

(** The bin pushed by [binFeature] for index [i]. *)
Definition numericBin (featureName : key) (trades : list TradeFeatures.t)
    (minVal binSize : num) (i : nat) : FeatureBin.t :=
  let binMin := add minVal (mul (Fin (Qnat i)) binSize) in
  let binMax := add minVal (mul (Fin (Qnat (i + 1))) binSize) in
  let tradesInBin :=
    filter (fun x => inRange (getNumber featureName x) binMin binMax)
           trades in
  let wins := length (filter isWin tradesInBin) in
  FeatureBin.mk binMin binMax (length tradesInBin) wins
    (rate wins (length tradesInBin)) None.

Definition numericBins (featureName : key) (trades : list TradeFeatures.t)
    (numBins : positive) : list FeatureBin.t :=
  let values := map (getNumber featureName) trades in
  let minVal := min_list values in
  let maxVal := max_list values in
  let binSize := div (sub maxVal minVal) (Fin (Qpos numBins)) in
  map (numericBin featureName trades minVal binSize)
      (SMCIndicators.range 0 (Pos.to_nat numBins)).

Definition binFeature (featureName : key) (trades : list TradeFeatures.t)
    (numBins : positive) (m : t) : t :=
  mk (map_set featureName
        (ModelFeature.mk featureName (numericBins featureName trades numBins)
           0)
        (features m))
     (trained m).

(** [new Set(values)]: the distinct values in order of first
    occurrence. *)
Fixpoint uniqueFrom (seen : list value) (values : list value) : list value :=
  match values with
  | [] => []
  | v :: rest =>
      if existsb (value_same v) seen then uniqueFrom seen rest
      else v :: uniqueFrom (v :: seen) rest
  end.

Definition unique (values : list value) : list value := uniqueFrom [] values.

Definition categoricalBin (featureName : key)
    (trades : list TradeFeatures.t) (v : value) : FeatureBin.t :=
  let tradesWithValue :=
    filter (fun x => value_eq (get featureName x) v) trades in
  let wins := length (filter isWin tradesWithValue) in
  FeatureBin.mk (Fin 0) (Fin 0) (length tradesWithValue) wins
    (rate wins (length tradesWithValue)) (Some v).

Definition binCategorical (featureName : key)
    (trades : list TradeFeatures.t) (m : t) : t :=
  let uniqueValues := unique (map (get featureName) trades) in
  mk (map_set featureName
        (ModelFeature.mk featureName
           (map (categoricalBin featureName trades) uniqueValues) 0)
        (features m))
     (trained m).

Definition sq (x : Q) : Q := x * x.

(** The importance that [calculateFeatureImportance] assigns to one
    feature. *)
Definition importanceOf (feature : ModelFeature.t) : Q :=
  let winRates :=
    map FeatureBin.winRate
        (filter (fun b => (minSampleSize <=? FeatureBin.count b)%nat)
                (ModelFeature.bins feature)) in
  if (length winRates <? 2)%nat then 0
  else
    let mean := sum winRates / Qnat (length winRates) in
    let variance :=
      fold_left (fun s r => s + sq (r - mean)) winRates 0
        / Qnat (length winRates) in
    Qmin (variance * 10) 1.

Definition calculateFeatureImportance (m : t) : t :=
  mk (map (fun e : key * ModelFeature.t =>
             let (name, feature) := e in
             (name,
              ModelFeature.mk (ModelFeature.name feature)
                (ModelFeature.bins feature) (importanceOf feature)))
          (features m))
     (trained m).

Definition numericFeatures : list key :=
  [k_trend_strength; k_ob_distance; k_ob_size; k_ob_age;
   k_fvg_nearest_distance; k_fvg_size; k_fvg_count; k_volatility;
   k_rsi_value; k_atr_value;
   k_price_position; k_distance_to_high; k_distance_to_low;
   k_volume_ratio; k_confluence_score; k_potential_rr].

Definition categoricalFeatures : list key :=
  [k_trend_direction; k_trend_bos_aligned; k_ob_near; k_ob_type;
   k_fvg_near; k_fvg_type; k_ema_aligned; k_ema_trend; k_rsi_state;
   k_liquidity_near; k_mtf_aligned; k_direction; k_volume_spike;
   k_session; k_days_since_loss; k_streak_type].

(** [train]: the map is cleared, the sixteen numeric and the sixteen
    categorical features are binned in the order of the source, the
    importances are computed and the flag is set. *)
Definition train (trades : list TradeFeatures.t) (m : t) : t :=
  let m0 := mk [] (trained m) in
  let m1 := fold_left (fun acc k => binFeature k trades 10 acc)
                      numericFeatures m0 in
  let m2 := fold_left (fun acc k => binCategorical k trades acc)
                      categoricalFeatures m1 in
  let m3 := calculateFeatureImportance m2 in
  mk (features m3) true.

(** [bin.value === featureValue], where a numeric bin has no [value]. *)
Definition binValueIs (b : FeatureBin.t) (v : value) : bool :=
  match FeatureBin.value b with
  | Some bv => value_eq bv v
  | None => false
  end.

(** The test that selects a bin for a feature value. *)
Definition binMatches (featureValue : value) (b : FeatureBin.t) : bool :=
  match featureValue with
  | VNum x => inRange x (FeatureBin.min b) (FeatureBin.max b)
  | _ => (0 <? FeatureBin.count b)%nat && binValueIs b featureValue
  end.

(** The inner loop of [predict]: win rate and count of the first bin
    that matches, [0.5] and [0] when none does. *)
Fixpoint findBin (featureValue : value) (bins : list FeatureBin.t)
  : Q * nat :=
  match bins with
  | [] => (1 # 2, 0%nat)
  | b :: rest =>
      if binMatches featureValue b
      then (FeatureBin.winRate b, FeatureBin.count b)
      else findBin featureValue rest
  end.

Definition scoreFeature (x : TradeFeatures.t) (e : key * ModelFeature.t)
  : WeightedScore.t :=
  let (name, modelFeature) := e in
  let featureValue := get name x in
  let (binWinRate, binCount) :=
    findBin featureValue (ModelFeature.bins modelFeature) in
  let sampleWeight := Qmin (Qnat binCount / Qnat minSampleSize) 1 in
  let score :=
    binWinRate * ModelFeature.importance modelFeature * sampleWeight in
  WeightedScore.mk name score binWinRate.

(** [weightedScores.sort((a, b) => b.score - a.score)]: a stable sort
    by descending score. *)
Fixpoint insertByScore (a : WeightedScore.t) (sorted : list WeightedScore.t)
  : list WeightedScore.t :=
  match sorted with
  | [] => [a]
  | b :: rest =>
      if Qlt_bool (WeightedScore.score a) (WeightedScore.score b)
      then b :: insertByScore a rest
      else a :: b :: rest
  end.

Definition sortByScore (l : list WeightedScore.t) : list WeightedScore.t :=
  fold_right insertByScore [] l.

Definition topFeatures (m : t) (x : TradeFeatures.t) : list WeightedScore.t :=
  firstn 10 (sortByScore (map (scoreFeature x) (features m))).

(** [Math.min(f.score / f.winRate, 100)]. *)
Definition effectiveSamples (f : WeightedScore.t) : num :=
  min2 (div (Fin (WeightedScore.score f)) (Fin (WeightedScore.winRate f)))
       (Fin 100).

Definition predict (m : t) (x : TradeFeatures.t) : result Prediction.t :=
  if negb (trained m) then Throw "Model not trained. Call train() first."
  else
    let top := topFeatures m x in
    let totalWeight := sum (map WeightedScore.score top) in
    let weightedSum :=
      fold_left
        (fun s f => s + WeightedScore.score f * WeightedScore.winRate f)
        top 0 in
    let winProbability :=
      if Qlt_bool 0 totalWeight then weightedSum / totalWeight else 1 # 2 in
    let totalSamples :=
      fold_left (fun s f => add s (effectiveSamples f)) top (Fin 0) in
    let confidence := min2 (div totalSamples (Fin 1000)) (Fin 1) in
    let keyFeatures := map WeightedScore.feature (firstn 5 top) in
    Ok (Prediction.mk winProbability confidence keyFeatures).

Module Stats.
Record t : Type := mk {
  trained : bool;
  numFeatures : nat;
  minSampleSize : nat
}.
End Stats.

Definition getStats (m : t) : Stats.t :=
  Stats.mk (trained m) (length (features m)) minSampleSize.

End TradingMLModel.

(* ================================================================== *)
(** ** The backtest-learn loop (backtest-learn-loop) *)

Module CONFIG.
(** The settings of [CONFIG] that the loop reads; symbols, paths and
    the worker count belong to the extraction phase. *)
Record t : Type := mk {
  minScore : Q;
  maxIterations : nat;
  minAccuracyImprovement : Q;
  trainTestSplit : Q;
  errorEmphasisMultiplier : nat
}.

Definition default : t := mk 25 10 (5 # 1000) (7 # 10) 3.
End CONFIG.

Module LoopIteration.
Record t : Type := mk {
  iteration : nat;
  tradesExtracted : nat;
  trainAccuracy : num;
  testAccuracy : num;
  predictionErrors : nat;
  improvementFromLast : num
}.
End LoopIteration.

Module BacktestLearnLoop.

(** The exit price that the scan of [simulateTrade] leaves: the first
    touch of the stop or of the target, else the price it started
    with. *)
Fixpoint scanExit (isLong : bool) (stopLoss tp2 exitPrice : num)
    (scanned : list Candle.t) : num :=
  match scanned with
  | [] => exitPrice
  | candle :: rest =>
      if isLong && le (Fin (Candle.low candle)) stopLoss then stopLoss
      else if negb isLong && ge (Fin (Candle.high candle)) stopLoss
      then stopLoss
      else if isLong && ge (Fin (Candle.high candle)) tp2 then tp2
      else if negb isLong && le (Fin (Candle.low candle)) tp2 then tp2
      else scanExit isLong stopLoss tp2 exitPrice rest
  end.

Definition isLong (direction : Direction.t) : bool :=
  match direction with
  | Direction.long => true
  | Direction.short => false
  end.

Definition atrOf (c0 : Candle.t) (analysis : SMCAnalysis.t) : num :=
  or_else (SMCAnalysis.atr analysis)
          (Fin (Candle.high c0 - Candle.low c0)).

Definition stopLossOf (entryPrice : Q) (direction : Direction.t) (atr : num)
  : num :=
  if isLong direction then sub (Fin entryPrice) (mul atr (Fin 2))
  else add (Fin entryPrice) (mul atr (Fin 2)).

Definition tp2Of (entryPrice : Q) (direction : Direction.t) (stopLoss : num)
  : num :=
  let riskDistance := abs (sub (Fin entryPrice) stopLoss) in
  if isLong direction then add (Fin entryPrice) (mul riskDistance (Fin 3))
  else sub (Fin entryPrice) (mul riskDistance (Fin 3)).

(** The candles that the loop of [simulateTrade] visits. *)
Definition scannedCandles (candles : list Candle.t) (startIndex : nat)
  : list Candle.t :=
  slice candles (startIndex + 1) (Nat.min (startIndex + 100) (length candles)).

(** The value of [exitPrice] after the loop. *)
Definition exitPriceOf (candles : list Candle.t) (startIndex : nat)
    (entryPrice : Q) (direction : Direction.t) (analysis : SMCAnalysis.t)
  : result num :=
  match nth_error candles startIndex with
  | None => Throw "TypeError"
  | Some c0 =>
      let atr := atrOf c0 analysis in
      let stopLoss := stopLossOf entryPrice direction atr in
      let tp2 := tp2Of entryPrice direction stopLoss in
      Ok (scanExit (isLong direction) stopLoss tp2 (Fin (Candle.close c0))
            (scannedCandles candles startIndex))
  end.

(** The trade that [simulateTrade] returns for a given exit price. *)
Definition tradeOf (entryPrice : Q) (direction : Direction.t)
    (stopLoss exitPrice : num) : BacktestTrade.t :=
  let priceDiff :=
    if isLong direction then sub exitPrice (Fin entryPrice)
    else sub (Fin entryPrice) exitPrice in
  let pnl := mul (Fin 1000) (div priceDiff (Fin entryPrice)) in
  BacktestTrade.mk
    (if gt pnl (Fin 0) then Outcome.WIN else Outcome.LOSS)
    pnl
    (mul (div priceDiff (Fin entryPrice)) (Fin 100))
    (if JS.eq exitPrice stopLoss then "SL" else "TP")
    (Fin 0).

Definition simulateTrade (candles : list Candle.t) (startIndex : nat)
    (entryPrice : Q) (direction : Direction.t) (analysis : SMCAnalysis.t)
  : result BacktestTrade.t :=
  match nth_error candles startIndex,
        exitPriceOf candles startIndex entryPrice direction analysis with
  | Some c0, Ok exitPrice =>
      let stopLoss := stopLossOf entryPrice direction (atrOf c0 analysis) in
      Ok (tradeOf entryPrice direction stopLoss exitPrice)
  | _, Throw e => Throw e
  | None, _ => Throw "TypeError"
  end.

(** The loop of [evaluateModel]. *)
Fixpoint evaluateLoop (model : TradingMLModel.t)
    (trades : list TradeFeatures.t) (correct : nat)
    (errors : list TradeFeatures.t)
  : result (nat * list TradeFeatures.t) :=
  match trades with
  | [] => Ok (correct, errors)
  | trade :: rest =>
      match TradingMLModel.predict model trade with
      | Throw e => Throw e
      | Ok prediction =>
          let predictedWin :=
            Qle_bool (1 # 2) (Prediction.winProbability prediction) in
          let actualWin := TradingMLModel.isWin trade in
          if Bool.eqb predictedWin actualWin
          then evaluateLoop model rest (S correct) errors
          else evaluateLoop model rest correct (errors ++ [trade])
      end
  end.

Definition evaluateModel (model : TradingMLModel.t)
    (trades : list TradeFeatures.t) : result (num * list TradeFeatures.t) :=
  match evaluateLoop model trades 0 [] with
  | Throw e => Throw e
  | Ok (correct, errors) =>
      Ok (div (Fin (TradingMLModel.Qnat correct))
              (Fin (TradingMLModel.Qnat (length trades))),
          errors)
  end.

(** The variables that the learning loop carries from one iteration to
    the next. *)
Record state : Type := mkState {
  model : TradingMLModel.t;
  iterations : list LoopIteration.t;
  lastAccuracy : num;
  trainingData : list TradeFeatures.t
}.

Inductive outcome : Type :=
| NotEnoughTrades
| Completed (st : state).

Section Loop.

Variable config : CONFIG.t.

(** The permutation that [sort(() => Math.random() - 0.5)] produces at
    iteration [i]. *)
Variable shuffle : nat -> list TradeFeatures.t -> list TradeFeatures.t.

(** [trainingData.push(...errors)], [errorEmphasisMultiplier - 1]
    times. *)
Definition emphasize (trainingData errors : list TradeFeatures.t)
  : list TradeFeatures.t :=
  trainingData
    ++ concat (repeat errors (CONFIG.errorEmphasisMultiplier config - 1)).

(** The test that breaks out of the loop. *)
Definition converged (i : nat) (improvement : num) : bool :=
  (1 <? i)%nat && lt improvement (Fin (CONFIG.minAccuracyImprovement config)).

(** The train and test split of iteration [i]. *)
Definition splitIdx (i : nat) (st : state) : Z :=
  Qfloor (TradingMLModel.Qnat (length (shuffle i (trainingData st)))
          * CONFIG.trainTestSplit config).

Definition trainSet (i : nat) (st : state) : list TradeFeatures.t :=
  sliceZ (shuffle i (trainingData st)) 0 (splitIdx i st).

Definition testSet (i : nat) (st : state) : list TradeFeatures.t :=
  sliceFromZ (shuffle i (trainingData st)) (splitIdx i st).

(** The first half of the body of the loop: the model is trained and
    evaluated, and the record of the iteration is made.  The result is
    the trained model, the record and the misclassified test records. *)
Definition evaluateIteration (i : nat) (st : state)
  : result (TradingMLModel.t * LoopIteration.t * list TradeFeatures.t) :=
  let model' := TradingMLModel.train (trainSet i st) (model st) in
  match evaluateModel model' (testSet i st),
        evaluateModel model' (trainSet i st) with
  | Ok (testAccuracy, errors), Ok (trainAccuracy, _) =>
      let improvement := sub testAccuracy (lastAccuracy st) in
      Ok (model',
          LoopIteration.mk i (length (trainingData st))
            trainAccuracy testAccuracy (length errors) improvement,
          errors)
  | Throw e, _ | Ok _, Throw e => Throw e
  end.

(** The iterations [i, i + 1, ...] of the loop, [remaining] of them at
    most. *)
Fixpoint iterate (remaining i : nat) (st : state) : result state :=
  match remaining with
  | O => Ok st
  | S remaining' =>
      match evaluateIteration i st with
      | Throw e => Throw e
      | Ok (model', record, errors) =>
          let iterations' := iterations st ++ [record] in
          if converged i (LoopIteration.improvementFromLast record)
          then Ok (mkState model' iterations' (lastAccuracy st)
                     (trainingData st))
          else
            let trainingData' :=
              if (i <? CONFIG.maxIterations config)%nat
              then emphasize (trainingData st) errors
              else trainingData st in
            iterate remaining' (S i)
              (mkState model' iterations'
                 (LoopIteration.testAccuracy record) trainingData')
      end
  end.

(** Phase 2 of [run]. *)
Definition learn (allTrades : list TradeFeatures.t) : result state :=
  iterate (CONFIG.maxIterations config) 1
    (mkState TradingMLModel.new [] (Fin 0) allTrades).

(** [run], from the extracted trades on. *)
Definition run (allTrades : list TradeFeatures.t) : result outcome :=
  if (length allTrades <? 200)%nat then Ok NotEnoughTrades
  else
    match learn allTrades with
    | Ok st => Ok (Completed st)
    | Throw e => Throw e
    end.

End Loop.

End BacktestLearnLoop.

(* ================================================================== *)
(** ** Notions that the properties below are stated with *)

Module Props.

(** ATR as the specification words it: the true range of the candle
    at index [j] takes the close of the candle before it. *)
Definition specTrueRange (prevClose : Q) (c : Candle.t) : Q :=
  Qmax (Candle.high c - Candle.low c)
       (Qmax (Qabs (Candle.high c - prevClose))
             (Qabs (Candle.low c - prevClose))).

Definition specTrueRangeAt (candles : list Candle.t) (j : nat) : option Q :=
  match j with
  | O => None
  | S j' =>
      match nth_error candles j', nth_error candles j with
      | Some prev, Some c => Some (specTrueRange (Candle.close prev) c)
      | _, _ => None
      end
  end.

Fixpoint sumOptions (xs : list (option Q)) : option Q :=
  match xs with
  | [] => Some 0
  | Some x :: rest => option_map (Qplus x) (sumOptions rest)
  | None :: _ => None
  end.

(** The mean of the true range over the fourteen bars that end at
    index [i]; undefined where a bar of the window has no predecessor. *)
Definition specATR14 (candles : list Candle.t) (i : nat) : option Q :=
  option_map (fun s => s / 14)
    (sumOptions (map (specTrueRangeAt candles) (seq (i - 13) 14))).

(** A candle touches the stop-loss or the take-profit level. *)
Definition touches (isLong : bool) (stopLoss tp2 : num) (candle : Candle.t)
  : bool :=
  (isLong && le (Fin (Candle.low candle)) stopLoss)
  || (negb isLong && ge (Fin (Candle.high candle)) stopLoss)
  || (isLong && ge (Fin (Candle.high candle)) tp2)
  || (negb isLong && le (Fin (Candle.low candle)) tp2).

(** Windows of closes in which every bar-to-bar change is a gain, or
    every one a loss. *)
Definition allGains (window : list Q) : Prop :=
  Forall (fun d => 0 <= d) (SMCIndicators.diffs window).

Definition allLosses (window : list Q) : Prop :=
  Forall (fun d => d < 0) (SMCIndicators.diffs window).

(** The window of closes behind the [k]-th value of [rsi candles 14]. *)
Definition rsiWindow (candles : list Candle.t) (k : nat) : list Q :=
  slice (SMCIndicators.closes candles) k (k + 14).

(** An indicator series that is empty, or whose latest value is zero. *)
Definition emptyOrEndsInZero (series : list num) : Prop :=
  series = [] \/ exists q, from_end series 1 = Some (Fin q) /\ q == 0.

(** Calls on a model object, and the state they leave. *)
Inductive call : Type :=
| CallTrain (trades : list TradeFeatures.t)
| CallPredict (x : TradeFeatures.t)
| CallGetStats.

Definition isTrain (c : call) : bool :=
  match c with
  | CallTrain _ => true
  | _ => false
  end.

Definition apply (m : TradingMLModel.t) (c : call) : TradingMLModel.t :=
  match c with
  | CallTrain trades => TradingMLModel.train trades m
  | CallPredict _ | CallGetStats => m
  end.

Definition after (history : list call) : TradingMLModel.t :=
  fold_left apply history TradingMLModel.new.

(** The order that the comparator [(a, b) => b.score - a.score] asks
    for. *)
Definition descending (a b : WeightedScore.t) : Prop :=
  WeightedScore.score b <= WeightedScore.score a.

(** The record of a loop iteration meets the convergence test. *)
Definition stops (config : CONFIG.t) (r : LoopIteration.t) : bool :=
  BacktestLearnLoop.converged config (LoopIteration.iteration r)
    (LoopIteration.improvementFromLast r).

End Props.

(* ================================================================== *)
(** ** Concrete inputs *)

Module Examples.

Definition flat (price : Q) : Candle.t :=
  Candle.mk 0 price price price price 1.

(** Fourteen flat candles at 10, then a candle that opens with a gap. *)
Definition gapCandles : list Candle.t :=
  repeat (flat 10) 14 ++ [Candle.mk 0 12 13 12 (25 # 2) 1].

(** Fifteen candles whose closes fall by one each bar. *)
Definition fallingCandles : list Candle.t :=
  map (fun k => flat (inject_Z (Z.of_nat (30 - k)))) (seq 0 15).

(** Fifteen candles whose closes rise by one each bar. *)
Definition risingCandles : list Candle.t :=
  map (fun k => flat (inject_Z (Z.of_nat (10 + k)))) (seq 0 15).

(** An entry candle closing at 100 and one later candle closing at
    101 that stays between stop and target. *)
Definition quietCandles : list Candle.t :=
  [Candle.mk 0 100 101 99 100 1; Candle.mk 0 100 102 100 101 1].

Definition noOrderFlow : LiquidityZones.t := LiquidityZones.mk [] [].

Definition quietAnalysis : SMCAnalysis.t :=
  SMCAnalysis.mk None None None None None [] [] noOrderFlow
    (Some (Fin 10)) None.

(** Trend up, break of structure down. *)
Definition splitAnalysis : SMCAnalysis.t :=
  SMCAnalysis.mk (Some up) (Some down) None None None [] [] noOrderFlow
    None None.

Definition weights : SMCWeights.t := SMCWeights.mk 40 30 20 15 10 35 15.

(** A feature record with the given trend strength and outcome. *)
Definition trade (trend_strength : Q) (outcome : Outcome.t)
  : TradeFeatures.t :=
  TradeFeatures.mk
    (Fin 100) (Fin 0) Direction.long
    Trend.up (Fin trend_strength) true
    false (Fin 1) ObType.none (Fin 0) (Fin 0)
    false (Fin 0) (Fin 1) (Fin 0) FvgType.mixed
    true Trend.up
    (Fin 50) RsiState.neutral
    true (Fin 2)
    true
    (Fin (1 # 100)) (Fin 1)
    (Fin (1 # 2)) (Fin (1 # 100)) (Fin (1 # 100))
    false (Fin 1)
    (Fin (1 # 2)) (Fin 3)
    Session.asian
    (Fin 0) Streak.none
    (Fin 2)
    outcome (Fin 0) (Fin 0) "TP" (Fin 0).

(** A corpus of two records, trend strengths 0 and 1. *)
Definition twoTrades : list TradeFeatures.t :=
  [trade 0 Outcome.LOSS; trade 1 Outcome.WIN].

(** A corpus of four winning records. *)
Definition winners : list TradeFeatures.t :=
  repeat (trade (1 # 2) Outcome.WIN) 4.

(** The loop about to run an iteration on the four winners, the
    iteration before having reached test accuracy 1. *)
Definition afterPerfectIteration : BacktestLearnLoop.state :=
  BacktestLearnLoop.mkState TradingMLModel.new [] (Fin 1) winners.

(** The shuffle that leaves the order alone. *)
Definition keepOrder (i : nat) (l : list TradeFeatures.t)
  : list TradeFeatures.t := l.

End Examples.

(* ================================================================== *)
(** ** Further operations of the sources *)

Module MTFBonus.

(** [a && a.trend] for [a : SMCAnalysis | null]. *)
Definition trendOf (a : option SMCAnalysis.t) : option Dir :=
  match a with
  | Some x => SMCAnalysis.trend x
  | None => None
  end.

(** [calculateMTFBonus] of unified-scoring: the [bonus]; the [factors]
    messages are display text and are left out. *)
Definition calculateMTFBonus (daily : SMCAnalysis.t)
    (hourly fiveMin : option SMCAnalysis.t) : Q :=
  let d := SMCAnalysis.trend daily in
  let h := trendOf hourly in
  let f := trendOf fiveMin in
  let bonus1 :=
    if UnifiedScoring.known d && UnifiedScoring.known h
    then if UnifiedScoring.sameDir d h then 0 + 20 else 0 - 10
    else 0 in
  let bonus2 :=
    if UnifiedScoring.known d && UnifiedScoring.known h
       && UnifiedScoring.known f
    then if UnifiedScoring.sameDir d h && UnifiedScoring.sameDir h f
         then bonus1 + 15 else bonus1
    else bonus1 in
  Qmax (- (15)) bonus2.

End MTFBonus.

Module SetupScore.
(** The result of [scoreSetup]; the [confluence] messages are left
    out. *)
Record t : Type := mk {
  score : Q;
  breakdown : SMCWeights.t
}.
End SetupScore.

Module SetupScoring.

(** [scoreSetup] of smc-indicators.  Its weights are a
    [Record<string, number>] read at the seven slots of [SMCWeights]. *)
Definition trendStructure (trend bos : option Dir) (weights : SMCWeights.t)
  : Q :=
  if UnifiedScoring.known trend && UnifiedScoring.known bos
     && UnifiedScoring.sameDir trend bos
  then SMCWeights.trend_structure weights
  else if UnifiedScoring.known trend
  then SMCWeights.trend_structure weights * (1 # 2)
  else 0.

Definition orderBlocksScore (a : SMCAnalysis.t) (currentPrice : Q)
    (weights : SMCWeights.t) : Q :=
  let relevantOBs :=
    filter (fun ob =>
              Qle_bool (UnifiedScoring.obLow ob * (95 # 100)) currentPrice
              && Qle_bool currentPrice (UnifiedScoring.obHigh ob * (105 # 100)))
           (SMCAnalysis.orderBlocks a) in
  if (0 <? length relevantOBs)%nat then
    let bullOBs :=
      filter (fun ob => UnifiedScoring.isKind (OrderBlock.type ob)
                          OrderBlock.bull) relevantOBs in
    let bearOBs :=
      filter (fun ob => UnifiedScoring.isKind (OrderBlock.type ob)
                          OrderBlock.bear) relevantOBs in
    if UnifiedScoring.isDir up (SMCAnalysis.trend a)
       && (0 <? length bullOBs)%nat
    then SMCWeights.order_blocks weights
    else if UnifiedScoring.isDir down (SMCAnalysis.trend a)
            && (0 <? length bearOBs)%nat
    then SMCWeights.order_blocks weights
    else SMCWeights.order_blocks weights * (3 # 10)
  else 0.

Definition fvgsScore (a : SMCAnalysis.t) (currentPrice : Q)
    (weights : SMCWeights.t) : Q :=
  let relevantFVGs :=
    filter (fun g => Qle_bool (FVG.from g * (98 # 100)) currentPrice
                     && Qle_bool currentPrice (FVG.to g * (102 # 100)))
           (SMCAnalysis.fvg a) in
  if (0 <? length relevantFVGs)%nat then SMCWeights.fvgs weights else 0.

Definition emaAlignmentScore (a : SMCAnalysis.t) (weights : SMCWeights.t)
  : Q :=
  match SMCAnalysis.ema50 a, SMCAnalysis.ema200 a with
  | Some e50, Some e200 =>
      if truthy e50 && truthy e200 then
        let emaTrend := if gt e50 e200 then up else down in
        if UnifiedScoring.isDir emaTrend (SMCAnalysis.trend a)
        then SMCWeights.ema_alignment weights
        else 0
      else 0
  | _, _ => 0
  end.

Definition rsiScore (a : SMCAnalysis.t) (weights : SMCWeights.t) : Q :=
  match SMCAnalysis.rsi a with
  | Some r =>
      if truthy r then
        if gt r (Fin 70) then SMCWeights.rsi_penalty weights
        else if lt r (Fin 30) then SMCWeights.rsi_penalty weights * (1 # 2)
        else 0
      else 0
  | None => 0
  end.

Definition scoreSetup (analysis : SMCAnalysis.t) (currentPrice : Q)
    (weights : SMCWeights.t) : SetupScore.t :=
  let breakdown :=
    SMCWeights.mk
      (trendStructure (SMCAnalysis.trend analysis) (SMCAnalysis.bos analysis)
         weights)
      (orderBlocksScore analysis currentPrice weights)
      (fvgsScore analysis currentPrice weights)
      (emaAlignmentScore analysis weights)
      (UnifiedScoring.liquidityScore analysis weights)
      (SMCWeights.mtf_bonus weights)
      (rsiScore analysis weights) in
  let totalScore :=
    SMCWeights.trend_structure breakdown
    + SMCWeights.order_blocks breakdown
    + SMCWeights.fvgs breakdown
    + SMCWeights.ema_alignment breakdown
    + SMCWeights.liquidity breakdown
    + SMCWeights.mtf_bonus breakdown
    + SMCWeights.rsi_penalty breakdown in
  SetupScore.mk (Qmax 0 totalScore) breakdown.

End SetupScoring.

Module FeatureConfig.
(** The two entries of [featureConfig.feature_extraction] that
    [extractFeatures] reads: [lookback_periods.default] and
    [thresholds.ob_near_percent]. *)
Record t : Type := mk {
  lookback_default : nat;
  ob_near_percent : Q
}.

(** The fallback used when [config/features.json] cannot be read. *)
Definition default : t := mk 200 5.
End FeatureConfig.

Module Features.
(** [Omit<TradeFeatures, 'outcome' | 'pnl' | 'pnl_percent' |
    'exit_reason' | 'holding_periods'>]: what [extractFeatures]
    returns. *)
Record t : Type := mk {
  entry_price : num;
  entry_time : num;
  direction : Direction.t;
  trend_direction : Trend.t;
  trend_strength : num;
  trend_bos_aligned : bool;
  ob_near : bool;
  ob_distance : num;
  ob_type : ObType.t;
  ob_size : num;
  ob_age : num;
  fvg_near : bool;
  fvg_count : num;
  fvg_nearest_distance : num;
  fvg_size : num;
  fvg_type : FvgType.t;
  ema_aligned : bool;
  ema_trend : Trend.t;
  rsi_value : num;
  rsi_state : RsiState.t;
  liquidity_near : bool;
  liquidity_count : num;
  mtf_aligned : bool;
  volatility : num;
  atr_value : num;
  price_position : num;
  distance_to_high : num;
  distance_to_low : num;
  volume_spike : bool;
  volume_ratio : num;
  confluence_score : num;
  confluence_count : num;
  session : Session.t;
  days_since_loss : num;
  streak_type : Streak.t;
  potential_rr : num
}.
End Features.

Module FeatureExtraction.

(** The 20-period averages of [calculateTrendStrength]: the closes
    [candles[i - j]], [j = 0 .. 19], are added from the latest back. *)
Definition sma20 (candles : list Candle.t) : list Q :=
  map (fun i =>
         sum (rev (slice (SMCIndicators.closes candles) (i + 1 - 20) (i + 1)))
         / 20)
      (SMCIndicators.range 19 (length candles)).

(** [sma[sma.length - k]], with [undefined] read as the [NaN] that
    arithmetic makes of it. *)
Definition smaFromEnd (sma : list Q) (k : nat) : num :=
  match from_end sma k with
  | Some v => Fin v
  | None => NaN
  end.

Definition calculateTrendStrength (candles : list Candle.t) : result num :=
  if (length candles <? 20)%nat then Ok (Fin 0)
  else
    let sma := sma20 candles in
    if (length sma <? 5)%nat then Ok (Fin 0)
    else
      let slope := div (sub (smaFromEnd sma 1) (smaFromEnd sma 5)) (Fin 5) in
      match from_end candles 1 with
      | None => Throw "TypeError"
      | Some last =>
          let avgPrice := Candle.close last in
          let normalizedSlope :=
            mul (abs (div slope (Fin avgPrice))) (Fin 100) in
          Ok (min2 (max2 normalizedSlope (Fin 0)) (Fin 1))
      end.

Definition obTypeOf (k : OrderBlock.kind) : ObType.t :=
  match k with
  | OrderBlock.bull => ObType.bull
  | OrderBlock.bear => ObType.bear
  end.

(** The reference level of an order block for a trade direction: the
    low of its body for a long trade, the high for a short one. *)
Definition obLevel (direction : Direction.t) (ob : OrderBlock.t) : Q :=
  match direction with
  | Direction.long => UnifiedScoring.obLow ob
  | Direction.short => UnifiedScoring.obHigh ob
  end.

(** [matchingOBs.reduce((nearest, ob) => ...)], without initial
    value: the first block, replaced by a later one only when that one
    is strictly nearer. *)
Definition nearestOB (direction : Direction.t) (close : Q)
    (first : OrderBlock.t) (rest : list OrderBlock.t) : OrderBlock.t :=
  fold_left
    (fun nearest ob =>
       let dist := Qabs (close - obLevel direction ob) in
       let nearestDist := Qabs (close - obLevel direction nearest) in
       if Qlt_bool dist nearestDist then ob else nearest)
    rest first.

(** [new Date(timestamp).getUTCHours()]; [None] stands for the [NaN]
    of a time value outside the range of [Date]. *)
Definition utcHours (timestamp : Z) : option Z :=
  if (Z.abs timestamp <=? 8640000000000000)%Z
  then Some ((timestamp / 3600000) mod 24)%Z
  else None.

Definition sessionOf (timestamp : Z) : Session.t :=
  match utcHours timestamp with
  | None => Session.off_hours
  | Some hour =>
      if (0 <=? hour)%Z && (hour <? 6)%Z then Session.asian
      else if (6 <=? hour)%Z && (hour <? 8)%Z then Session.london
      else if (8 <=? hour)%Z && (hour <? 12)%Z then Session.overlap
      else if (12 <=? hour)%Z && (hour <? 16)%Z then Session.newyork
      else if (16 <=? hour)%Z && (hour <? 20)%Z then Session.newyork
      else Session.off_hours
  end.

Definition isLong (direction : Direction.t) : bool :=
  match direction with
  | Direction.long => true
  | Direction.short => false
  end.

Definition numOfNat (n : nat) : num := Fin (inject_Z (Z.of_nat n)).

Section Extract.

Variable config : FeatureConfig.t.

(** The fields of [extractFeatures] in the order of the source, for a
    candle [currentCandle] found at [index]. *)
Definition featuresAt (candles : list Candle.t) (index : nat)
    (currentCandle : Candle.t) (analysis : SMCAnalysis.t) (score : Q)
    (direction : Direction.t) (trend_strength : num) (mtf_aligned : bool)
  : Features.t :=
  let lookback := FeatureConfig.lookback_default config in
  let historicalCandles := slice candles (index - lookback) (index + 1) in
  let close := Candle.close currentCandle in
  let trend_direction := trendOrNeutral (SMCAnalysis.trend analysis) in
  let trend_bos_aligned :=
    UnifiedScoring.sameDir (SMCAnalysis.bos analysis)
      (SMCAnalysis.trend analysis) in
  (* Order blocks *)
  let nearPercent := 1 + FeatureConfig.ob_near_percent config / 100 in
  let relevantOBs :=
    filter (fun ob =>
              Qle_bool (UnifiedScoring.obLow ob * (2 - nearPercent)) close
              && Qle_bool close (UnifiedScoring.obHigh ob * nearPercent))
           (SMCAnalysis.orderBlocks analysis) in
  let bullOBs :=
    filter (fun ob => UnifiedScoring.isKind (OrderBlock.type ob)
                        OrderBlock.bull) relevantOBs in
  let bearOBs :=
    filter (fun ob => UnifiedScoring.isKind (OrderBlock.type ob)
                        OrderBlock.bear) relevantOBs in
  let matchingOBs := if isLong direction then bullOBs else bearOBs in
  let ob_near := (0 <? length matchingOBs)%nat in
  let '(ob_distance, ob_size, ob_age, ob_type) :=
    match matchingOBs with
    | [] => (Fin 999, Fin 0, Fin 0, ObType.none)
    | first :: rest =>
        let nearest := nearestOB direction close first rest in
        (div (Fin (Qabs (close - obLevel direction nearest))) (Fin close),
         div (Fin (Qabs (OrderBlock.close nearest - OrderBlock.open nearest)))
             (Fin (OrderBlock.open nearest)),
         Fin (inject_Z (Z.of_nat index - Z.of_nat (OrderBlock.index nearest))),
         obTypeOf (OrderBlock.type nearest))
    end in
  (* Fair value gaps *)
  let relevantFVGs :=
    filter (fun g => Qle_bool (FVG.from g * (98 # 100)) close
                     && Qle_bool close (FVG.to g * (102 # 100)))
           (SMCAnalysis.fvg analysis) in
  let bullFVGs :=
    filter (fun g => UnifiedScoring.isKind (FVG.type g) OrderBlock.bull)
           relevantFVGs in
  let bearFVGs :=
    filter (fun g => UnifiedScoring.isKind (FVG.type g) OrderBlock.bear)
           relevantFVGs in
  let matchingFVGs := if isLong direction then bullFVGs else bearFVGs in
  let fvg_near := (0 <? length relevantFVGs)%nat in
  let fvg_count := numOfNat (length relevantFVGs) in
  let '(fvg_nearest_distance, fvg_size, fvg_type) :=
    match matchingFVGs with
    | [] => (Fin 999, Fin 0, FvgType.mixed)
    | nearestFVG :: _ =>
        (div (Fin (Qabs (close - FVG.from nearestFVG))) (Fin close),
         div (Fin (FVG.to nearestFVG - FVG.from nearestFVG))
             (Fin (FVG.from nearestFVG)),
         if isLong direction then FvgType.bull else FvgType.bear)
    end in
  (* EMA alignment *)
  let emasKnown :=
    truthy_opt (SMCAnalysis.ema50 analysis)
    && truthy_opt (SMCAnalysis.ema200 analysis) in
  let ema50 := or_else (SMCAnalysis.ema50 analysis) NaN in
  let ema200 := or_else (SMCAnalysis.ema200 analysis) NaN in
  let ema_aligned :=
    emasKnown
    && ((isLong direction && gt ema50 ema200)
        || (negb (isLong direction) && lt ema50 ema200)) in
  let ema_trend :=
    if emasKnown
    then if gt ema50 ema200 then Trend.up else Trend.down
    else Trend.neutral in
  (* RSI state *)
  let rsi_value := or_else (SMCAnalysis.rsi analysis) (Fin 50) in
  let rsi_state :=
    if gt rsi_value (Fin 70) then RsiState.overbought
    else if lt rsi_value (Fin 30) then RsiState.oversold
    else RsiState.neutral in
  (* Liquidity *)
  let zones := SMCAnalysis.liquidityZones analysis in
  let liquidity_near :=
    (0 <? length (LiquidityZones.highs zones))%nat
    || (0 <? length (LiquidityZones.lows zones))%nat in
  let liquidity_count :=
    numOfNat (length (LiquidityZones.highs zones)
              + length (LiquidityZones.lows zones)) in
  (* Market state *)
  let atr :=
    or_else (SMCAnalysis.atr analysis)
      (Fin (Candle.high currentCandle - Candle.low currentCandle)) in
  let volatility := div atr (Fin close) in
  (* Price position *)
  let recent := slice_last historicalCandles 50 in
  let recentHigh := max_list (map (fun c => Fin (Candle.high c)) recent) in
  let recentLow := min_list (map (fun c => Fin (Candle.low c)) recent) in
  let range := sub recentHigh recentLow in
  let price_position :=
    if gt range (Fin 0) then div (sub (Fin close) recentLow) range
    else Fin (1 # 2) in
  let distance_to_high :=
    if gt range (Fin 0) then div (sub recentHigh (Fin close)) (Fin close)
    else Fin 0 in
  let distance_to_low :=
    if gt range (Fin 0) then div (sub (Fin close) recentLow) (Fin close)
    else Fin 0 in
  (* Volume *)
  let recentVolumes := map Candle.volume (slice_last historicalCandles 20) in
  let avgVolume :=
    div (Fin (sum recentVolumes)) (numOfNat (length recentVolumes)) in
  let volume_ratio :=
    if gt avgVolume (Fin 0)
    then div (Fin (Candle.volume currentCandle)) avgVolume
    else Fin 1 in
  let volume_spike := ge volume_ratio (Fin 2) in
  (* Confluence *)
  let confluence_count :=
    FeatureExtractor.countTrue
      [ob_near; fvg_near; ema_aligned; liquidity_near; mtf_aligned;
       trend_bos_aligned] in
  let confluence_score :=
    min2 (div (numOfNat confluence_count) (Fin 6)) (Fin 1) in
  Features.mk
    (Fin close)
    (Fin (inject_Z (Candle.timestamp currentCandle)))
    direction
    trend_direction
    trend_strength
    trend_bos_aligned
    ob_near
    (min2 ob_distance (Fin 1))
    ob_type
    ob_size
    (min2 ob_age (Fin 100))
    fvg_near
    fvg_count
    (min2 fvg_nearest_distance (Fin 1))
    (min2 fvg_size (Fin (1 # 2)))
    fvg_type
    ema_aligned
    ema_trend
    rsi_value
    rsi_state
    liquidity_near
    liquidity_count
    mtf_aligned
    volatility
    atr
    price_position
    distance_to_high
    distance_to_low
    volume_spike
    volume_ratio
    confluence_score
    (numOfNat confluence_count)
    (sessionOf (Candle.timestamp currentCandle))
    (Fin 0)
    Streak.none
    (Fin 2).

(** [extractFeatures].  Without a candle at [index] the reads of
    [currentCandle] throw. *)
Definition extractFeatures (candles : list Candle.t) (index : nat)
    (analysis : SMCAnalysis.t) (score : Q) (direction : Direction.t)
  : result Features.t :=
  match nth_error candles index with
  | None => Throw "TypeError"
  | Some currentCandle =>
      let historicalCandles :=
        slice candles (index - FeatureConfig.lookback_default config)
          (index + 1) in
      match calculateTrendStrength historicalCandles,
            FeatureExtractor.checkMTFAlignment
              (trendOrNeutral (SMCAnalysis.trend analysis)) direction
              currentCandle historicalCandles with
      | Ok trend_strength, Ok mtf_aligned =>
          Ok (featuresAt candles index currentCandle analysis score
                direction trend_strength mtf_aligned)
      | Throw e, _ | Ok _, Throw e => Throw e
      end
  end.

End Extract.

(** [addOutcome]: the features, spread, with the five outcome fields
    of the trade. *)
Definition addOutcome (features : Features.t) (trade : BacktestTrade.t)
  : TradeFeatures.t :=
  TradeFeatures.mk
    (Features.entry_price features)
    (Features.entry_time features)
    (Features.direction features)
    (Features.trend_direction features)
    (Features.trend_strength features)
    (Features.trend_bos_aligned features)
    (Features.ob_near features)
    (Features.ob_distance features)
    (Features.ob_type features)
    (Features.ob_size features)
    (Features.ob_age features)
    (Features.fvg_near features)
    (Features.fvg_count features)
    (Features.fvg_nearest_distance features)
    (Features.fvg_size features)
    (Features.fvg_type features)
    (Features.ema_aligned features)
    (Features.ema_trend features)
    (Features.rsi_value features)
    (Features.rsi_state features)
    (Features.liquidity_near features)
    (Features.liquidity_count features)
    (Features.mtf_aligned features)
    (Features.volatility features)
    (Features.atr_value features)
    (Features.price_position features)
    (Features.distance_to_high features)
    (Features.distance_to_low features)
    (Features.volume_spike features)
    (Features.volume_ratio features)
    (Features.confluence_score features)
    (Features.confluence_count features)
    (Features.session features)
    (Features.days_since_loss features)
    (Features.streak_type features)
    (Features.potential_rr features)
    (BacktestTrade.outcome trade)
    (BacktestTrade.pnl trade)
    (BacktestTrade.pnl_percent trade)
    (BacktestTrade.exit_reason trade)
    (BacktestTrade.holding_periods trade).

End FeatureExtraction.

Module TradeExtraction.

(** The weights that [extractTradesForSymbol] scores with. *)
Definition weights : SMCWeights.t := SMCWeights.mk 40 30 20 15 10 35 15.

Section Extraction.

Variable config : CONFIG.t.
Variable featureConfig : FeatureConfig.t.

(** The body of the loop of [extractTradesForSymbol] at index [i]: no
    trade when the score is below [CONFIG.minScore] or the bias is
    neutral, else the features with the outcome of the simulated
    trade. *)
Definition tradesAt (candles : list Candle.t) (i : nat)
  : result (list TradeFeatures.t) :=
  match nth_error candles i with
  | None => Throw "TypeError"
  | Some currentCandle =>
      let historicalCandles := slice candles 0 (i + 1) in
      let analysis := SMCIndicators.analyze historicalCandles in
      let scoring :=
        UnifiedScoring.calculateConfluence analysis
          (Candle.close currentCandle) weights in
      if Qlt_bool (UnifiedScore.score scoring) (CONFIG.minScore config)
      then Ok []
      else if Bias_eqb (UnifiedScore.bias scoring) neutral then Ok []
      else
        let direction :=
          if Bias_eqb (UnifiedScore.bias scoring) bullish
          then Direction.long else Direction.short in
        match FeatureExtraction.extractFeatures featureConfig candles i
                analysis (UnifiedScore.score scoring) direction,
              BacktestLearnLoop.simulateTrade candles i
                (Candle.close currentCandle) direction analysis with
        | Ok features, Ok trade =>
            Ok [FeatureExtraction.addOutcome features trade]
        | Throw e, _ | Ok _, Throw e => Throw e
        end
  end.

Fixpoint collect (candles : list Candle.t) (indices : list nat)
  : result (list TradeFeatures.t) :=
  match indices with
  | [] => Ok []
  | i :: rest =>
      match tradesAt candles i with
      | Throw e => Throw e
      | Ok found =>
          match collect candles rest with
          | Throw e => Throw e
          | Ok more => Ok (found ++ more)
          end
      end
  end.

(** [extractTradesForSymbol], from the loaded candles on. *)
Definition extractTrades (candles : list Candle.t)
  : result (list TradeFeatures.t) :=
  if (length candles <? 300)%nat then Throw "Insufficient data"
  else collect candles (SMCIndicators.range 200 (length candles - 50)).

End Extraction.

End TradeExtraction.

(* ================================================================== *)
(** ** Notions for the further properties *)

Module Notions.

(** All numbers of a list lie between two bounds. *)
Definition within (lo hi : Q) (l : list Q) : Prop :=
  Forall (fun x => lo <= x <= hi) l.


(** A candle with a positive close between its low and its high. *)
Definition wellFormed (c : Candle.t) : Prop :=
  0 < Candle.close c
  /\ Candle.low c <= Candle.close c <= Candle.high c.

(** A finite number between two bounds. *)
Definition finiteWithin (lo hi : Q) (x : num) : Prop :=
  exists q, x = Fin q /\ lo <= q <= hi.


(** Weights none of which is negative. *)
Definition nonnegative (w : SMCWeights.t) : Prop :=
  0 <= SMCWeights.trend_structure w
  /\ 0 <= SMCWeights.order_blocks w
  /\ 0 <= SMCWeights.fvgs w
  /\ 0 <= SMCWeights.ema_alignment w
  /\ 0 <= SMCWeights.liquidity w
  /\ 0 <= SMCWeights.mtf_bonus w
  /\ 0 <= SMCWeights.rsi_penalty w.

(** The sum of the seven slots. *)
Definition total (w : SMCWeights.t) : Q :=
  SMCWeights.trend_structure w + SMCWeights.order_blocks w
  + SMCWeights.fvgs w + SMCWeights.ema_alignment w
  + SMCWeights.liquidity w + SMCWeights.mtf_bonus w
  + SMCWeights.rsi_penalty w.

(** The scoring of the setup at index [i], as the extraction loop
    computes it. *)
Definition setupAt (candles : list Candle.t) (i : nat)
  : option UnifiedScore.t :=
  match nth_error candles i with
  | Some currentCandle =>
      Some (UnifiedScoring.calculateConfluence
              (SMCIndicators.analyze (slice candles 0 (i + 1)))
              (Candle.close currentCandle) TradeExtraction.weights)
  | None => None
  end.

(** The setup at index [i] has a bias that is not neutral. *)
Definition directional (candles : list Candle.t) (i : nat) : bool :=
  match setupAt candles i with
  | Some scoring => negb (Bias_eqb (UnifiedScore.bias scoring) neutral)
  | None => false
  end.

(** The counts and the win rate of a bin agree: the wins are among
    the counted records, and the win rate is their share, 0 for an
    empty bin. *)
Definition consistentBin (corpus : nat) (b : FeatureBin.t) : Prop :=
  (FeatureBin.wins b <= FeatureBin.count b <= corpus)%nat
  /\ FeatureBin.winRate b
     = TradingMLModel.rate (FeatureBin.wins b) (FeatureBin.count b)
  /\ 0 <= FeatureBin.winRate b <= 1.

(** A field value that is not a number. *)
Definition notNumber (v : TradeFeatures.value) : Prop :=
  match v with
  | TradeFeatures.VNum _ => False
  | _ => True
  end.

(** [evaluateModel] counts the record as an error: the predicted win
    ([winProbability >= 0.5]) differs from the actual one. *)
Definition misclassified (model : TradingMLModel.t) (trade : TradeFeatures.t)
  : bool :=
  match TradingMLModel.predict model trade with
  | Ok prediction =>
      negb (Bool.eqb (Qle_bool (1 # 2) (Prediction.winProbability prediction))
                     (TradingMLModel.isWin trade))
  | Throw _ => false
  end.

End Notions.

Module Samples.


(** Three candles, the third trading wholly above the first. *)
Definition gapUp : list Candle.t :=
  [Candle.mk 0 1 2 1 2 1; Candle.mk 0 3 4 2 4 1; Candle.mk 0 5 6 5 6 1].

(** Eleven candles with a peak and a trough in the middle. *)
Definition peak : list Candle.t :=
  repeat (Candle.mk 0 10 11 9 10 1) 5
  ++ [Candle.mk 0 10 15 5 10 1]
  ++ repeat (Candle.mk 0 10 11 9 10 1) 5.

End Samples.

(* ================================================================== *)
(** * Properties *)

Import SMCIndicators UnifiedScoring FeatureExtractor.
Import TradingMLModel BacktestLearnLoop Props.

(** ** Facts about numbers and lists *)

Lemma Qlt_bool_iff (a b : Q) : Qlt_bool a b = true <-> a < b.
Proof.
  unfold Qlt_bool. rewrite negb_true_iff.
  split; intro H.
  - apply Qnot_le_lt. intro Hle.
    apply Qle_bool_iff in Hle. congruence.
  - destruct (Qle_bool b a) eqn:E; [| reflexivity].
    apply Qle_bool_iff in E. apply Qle_not_lt in E. contradiction.
Qed.

Lemma Qle_bool_false (a b : Q) : Qle_bool a b = false <-> b < a.
Proof.
  rewrite <- Qlt_bool_iff. unfold Qlt_bool.
  rewrite negb_true_iff. reflexivity.
Qed.

Lemma Qeq_bool_false (a b : Q) : Qeq_bool a b = false <-> ~ a == b.
Proof.
  split; intro H.
  - intro E. apply Qeq_bool_iff in E. congruence.
  - destruct (Qeq_bool a b) eqn:E; [| reflexivity].
    apply Qeq_bool_iff in E. contradiction.
Qed.

Lemma div_Fin (a b : Q) : ~ b == 0 -> div (Fin a) (Fin b) = Fin (a / b).
Proof.
  intro H. simpl. apply Qeq_bool_false in H. rewrite H. reflexivity.
Qed.

Lemma sum_acc (l : list Q) (a : Q) : fold_left Qplus l a == a + sum l.
Proof.
  unfold sum. revert a.
  induction l as [| x l IH]; intro a; simpl.
  - ring.
  - rewrite (IH (a + x)), (IH (0 + x)). ring.
Qed.

Lemma sum_cons (x : Q) (l : list Q) : sum (x :: l) == x + sum l.
Proof.
  unfold sum at 1. simpl. rewrite sum_acc. ring.
Qed.

Lemma sum_nonneg (l : list Q) : Forall (fun x => 0 <= x) l -> 0 <= sum l.
Proof.
  induction 1 as [| x l Hx _ IH].
  - unfold sum. simpl. lra.
  - rewrite sum_cons. lra.
Qed.

Lemma sum_zero (l : list Q) : Forall (fun x => x == 0) l -> sum l == 0.
Proof.
  induction 1 as [| x l Hx _ IH].
  - reflexivity.
  - rewrite sum_cons. lra.
Qed.

Lemma sum_pos (l : list Q) :
  l <> [] -> Forall (fun x => 0 < x) l -> 0 < sum l.
Proof.
  intros Hne H. destruct H as [| x l Hx Hl]; [congruence |].
  rewrite sum_cons.
  assert (0 <= sum l).
  { apply sum_nonneg. eapply Forall_impl; [| exact Hl].
    intros a Ha. simpl in *. lra. }
  lra.
Qed.

Lemma Qpos_pos (p : positive) : 0 < Qpos p.
Proof. unfold Qpos, Qlt. simpl. lia. Qed.

Lemma Qnat_nonneg (n : nat) : 0 <= Qnat n.
Proof. unfold Qnat, Qle. simpl. lia. Qed.

Lemma Qnat_pos (n : nat) : (0 < n)%nat -> 0 < Qnat n.
Proof. unfold Qnat, Qlt. simpl. lia. Qed.

Lemma Qnat_le (n m : nat) : (n <= m)%nat -> Qnat n <= Qnat m.
Proof. unfold Qnat, Qle. simpl. lia. Qed.

Lemma Qnat_S (n : nat) : Qnat (S n) == Qnat n + 1.
Proof.
  unfold Qnat. rewrite Nat2Z.inj_succ, <- Z.add_1_r, inject_Z_plus.
  reflexivity.
Qed.

Lemma from_end_map_seq {A : Type} (f : nat -> A) (a n : nat) :
  from_end (map f (seq a (S n))) 1 = Some (f (a + n)%nat).
Proof.
  unfold from_end. rewrite seq_S, map_app, rev_app_distr. reflexivity.
Qed.

Lemma nth_error_map_seq {A : Type} (f : nat -> A) (a n k : nat) (r : A) :
  nth_error (map f (seq a n)) k = Some r -> (k < n)%nat /\ r = f (a + k)%nat.
Proof.
  intro H.
  assert (Hk : (k < n)%nat).
  { rewrite <- (length_seq n a), <- (length_map f).
    apply nth_error_Some. congruence. }
  split; [exact Hk |].
  rewrite nth_error_map, nth_error_seq in H.
  apply Nat.ltb_lt in Hk. rewrite Hk in H. simpl in H. congruence.
Qed.

(* ------------------------------------------------------------------ *)
(** ** Evaluations on small inputs *)

Example sma_of_four : sma [1; 2; 3; 4] 2 = [3 # 2; 5 # 2; 7 # 2].
Proof. reflexivity. Qed.

(** The seed is the mean of the first two values, 1.5; the next value
    is (3 - 1.5) * 2/3 + 1.5 = 2.5. *)
Example ema_of_three :
  Forall2 Qeq (ema [1; 2; 3] 2) [3 # 2; 5 # 2].
Proof. repeat constructor. Qed.

(** Without volume the first VWAP value is 0 / 0. *)
Example vwap_without_volume : vwap [Candle.mk 0 1 2 1 1 0] = [NaN].
Proof. reflexivity. Qed.

Example fvg_of_three :
  detectFVG [Candle.mk 0 1 2 1 2 1; Candle.mk 0 3 4 2 4 1;
             Candle.mk 0 5 6 5 6 1]
  = [FVG.mk 1 2 5 OrderBlock.bull (5 - 2)].
Proof. reflexivity. Qed.

(** A long trade at 100 with ATR 10 has its stop at 80 and its target
    at 160.  A next candle that reaches both is a stop-loss exit: the
    stop is tested first. *)
Example stop_before_target :
  option_map
    (fun trade => (BacktestTrade.outcome trade, BacktestTrade.exit_reason trade))
    (match simulateTrade
             [Candle.mk 0 100 101 99 100 1; Candle.mk 0 70 200 60 65 1]
             0 100 Direction.long Examples.quietAnalysis with
     | Ok trade => Some trade
     | Throw _ => None
     end)
  = Some (Outcome.LOSS, "SL"%string).
Proof. vm_compute. reflexivity. Qed.

Example target_reached :
  option_map
    (fun trade => (BacktestTrade.outcome trade, BacktestTrade.exit_reason trade))
    (match simulateTrade
             [Candle.mk 0 100 101 99 100 1; Candle.mk 0 70 200 90 65 1]
             0 100 Direction.long Examples.quietAnalysis with
     | Ok trade => Some trade
     | Throw _ => None
     end)
  = Some (Outcome.WIN, "TP"%string).
Proof. vm_compute. reflexivity. Qed.

(** Equal scores keep the order they came in. *)
Example sort_is_stable :
  map WeightedScore.feature
    (sortByScore
       [WeightedScore.mk TradeFeatures.k_ob_size 1 1;
        WeightedScore.mk TradeFeatures.k_ob_age 2 1;
        WeightedScore.mk TradeFeatures.k_rsi_value 1 1;
        WeightedScore.mk TradeFeatures.k_pnl 2 1])
  = [TradeFeatures.k_ob_age; TradeFeatures.k_pnl;
     TradeFeatures.k_ob_size; TradeFeatures.k_rsi_value].
Proof. reflexivity. Qed.

(** On an empty corpus [Math.min()] is [Infinity], and the bounds of
    every bin are [NaN]. *)
Example bins_of_empty_corpus :
  map FeatureBin.min (numericBins TradeFeatures.k_trend_strength [] 2)
  = [NaN; NaN].
Proof. reflexivity. Qed.

Example slices :
  sliceZ [1; 2; 3; 4; 5]%nat 0 3 = [1; 2; 3]%nat
  /\ sliceFromZ [1; 2; 3; 4; 5]%nat 3 = [4; 5]%nat
  /\ sliceZ [1; 2; 3; 4; 5]%nat 0 (-1) = [1; 2; 3; 4]%nat
  /\ sliceFromZ [1; 2; 3; 4; 5]%nat (-2) = [4; 5]%nat.
Proof. repeat split. Qed.

(** A corpus of fewer than 200 records ends [run] before any training. *)
Example run_on_small_corpus :
  run CONFIG.default Examples.keepOrder Examples.winners = Ok NotEnoughTrades.
Proof. reflexivity. Qed.

(* ------------------------------------------------------------------ *)
(** ** Confluence scorer *)

(** C4, as amended: the trend/structure contribution of the confluence
    scorer is the full [trend_structure] weight when trend and break of
    structure are both known and agree, half the weight whenever the
    trend is known and the break of structure is unknown or disagrees,
    30% of the weight when only the break of structure is known, and
    zero when neither is known. *)
Theorem trend_structure_contribution
    (analysis : SMCAnalysis.t) (currentPrice : Q) (weights : SMCWeights.t) :
  SMCWeights.trend_structure
    (UnifiedScore.breakdown
       (calculateConfluence analysis currentPrice weights))
  = match SMCAnalysis.trend analysis, SMCAnalysis.bos analysis with
    | Some t, Some b =>
        if Dir_eqb t b then SMCWeights.trend_structure weights
        else SMCWeights.trend_structure weights * (1 # 2)
    | Some _, None => SMCWeights.trend_structure weights * (1 # 2)
    | None, Some _ => SMCWeights.trend_structure weights * (3 # 10)
    | None, None => 0
    end.
Proof.
  unfold calculateConfluence, trendStructure. simpl.
  destruct (SMCAnalysis.trend analysis) as [[|]|],
           (SMCAnalysis.bos analysis) as [[|]|]; reflexivity.
Qed.

(** C4, counterexample: with trend up and break of structure down,
    both known and disagreeing, the contribution at weight 40 is 20,
    not zero. *)
Lemma trend_structure_disagreement_scores_half :
  SMCAnalysis.trend Examples.splitAnalysis = Some up
  /\ SMCAnalysis.bos Examples.splitAnalysis = Some down
  /\ SMCWeights.trend_structure
       (UnifiedScore.breakdown
          (calculateConfluence Examples.splitAnalysis 100 Examples.weights))
     == 20
  /\ ~ SMCWeights.trend_structure
         (UnifiedScore.breakdown
            (calculateConfluence Examples.splitAnalysis 100 Examples.weights))
       == 0.
Proof.
  repeat split; try reflexivity.
  vm_compute. discriminate.
Qed.

(* ------------------------------------------------------------------ *)
(** ** Feature extractor *)

Lemma checkMTFAlignment_short
    (trend_direction : Trend.t) (direction : Direction.t)
    (currentCandle : Candle.t) (historicalCandles : list Candle.t) :
  (length historicalCandles <? 50)%nat = true ->
  checkMTFAlignment trend_direction direction currentCandle
    historicalCandles = Ok true.
Proof.
  intro H. unfold checkMTFAlignment. rewrite H. reflexivity.
Qed.

(** C8: with fewer than 50 historical candles the multi-timeframe
    alignment check answers true, whatever the trend direction and the
    trade direction. *)
Theorem mtf_aligned_permissive_default
    (trend_direction : Trend.t) (direction : Direction.t)
    (currentCandle : Candle.t) (historicalCandles : list Candle.t) :
  (length historicalCandles < 50)%nat ->
  checkMTFAlignment trend_direction direction currentCandle
    historicalCandles = Ok true.
Proof.
  intro H. apply checkMTFAlignment_short. apply Nat.ltb_lt. exact H.
Qed.

Lemma mtf_aligned_permissive_default_witness :
  checkMTFAlignment Trend.up Direction.short (Examples.flat 10)
    (repeat (Examples.flat 10) 49) = Ok true.
Proof.
  apply mtf_aligned_permissive_default. simpl. lia.
Defined.

(** The same default seen from [extractFeatures]: at an index below 49
    the window holds fewer than 50 candles. *)
Lemma mtf_aligned_early_index (lookback : nat) (candles : list Candle.t)
    (index : nat) (analysis : SMCAnalysis.t) (direction : Direction.t) :
  (index < length candles)%nat -> (index < 49)%nat ->
  FeatureExtractor.mtf_aligned lookback candles index analysis direction
  = Ok true.
Proof.
  intros Hin Hsmall. unfold FeatureExtractor.mtf_aligned.
  destruct (nth_error candles index) eqn:E.
  - apply checkMTFAlignment_short. apply Nat.ltb_lt.
    unfold slice. rewrite length_firstn. lia.
  - apply nth_error_None in E. lia.
Qed.

(* ------------------------------------------------------------------ *)
(** ** Prediction before training *)

Lemma untrained_after (history : list call) (m : TradingMLModel.t) :
  forallb (fun c => negb (isTrain c)) history = true ->
  fold_left apply history m = m.
Proof.
  revert m. induction history as [| c history IH]; intros m H; simpl in *.
  - reflexivity.
  - apply andb_true_iff in H. destruct H as [Hc Hrest].
    destruct c; simpl in *; try discriminate; apply IH; exact Hrest.
Qed.

(** C5: on a model object on which [train] has never been called,
    whatever other calls were made, [predict] throws the not-trained
    error for every feature record; it returns no prediction. *)
Theorem predict_before_train_throws
    (history : list call) (x : TradeFeatures.t) :
  forallb (fun c => negb (isTrain c)) history = true ->
  predict (after history) x = Throw "Model not trained. Call train() first.".
Proof.
  intro H. unfold after. rewrite (untrained_after history _ H).
  reflexivity.
Qed.

Lemma predict_before_train_throws_witness :
  predict
    (after [CallPredict (Examples.trade 0 Outcome.WIN); CallGetStats])
    (Examples.trade 1 Outcome.LOSS)
  = Throw "Model not trained. Call train() first.".
Proof.
  apply predict_before_train_throws. reflexivity.
Defined.

(* ------------------------------------------------------------------ *)
(** ** Trade outcome simulator *)

Lemma scanExit_step (long : bool) (stopLoss tp2 exitPrice : num)
    (candle : Candle.t) (rest : list Candle.t) :
  touches long stopLoss tp2 candle = false ->
  scanExit long stopLoss tp2 exitPrice (candle :: rest)
  = scanExit long stopLoss tp2 exitPrice rest.
Proof.
  unfold touches. intro H.
  repeat (apply orb_false_iff in H; destruct H as [H ?]).
  cbn [scanExit].
  repeat match goal with
         | E : ?b = false |- context [if ?b then _ else _] => rewrite E
         end.
  reflexivity.
Qed.

Lemma scanExit_untouched (long : bool) (stopLoss tp2 exitPrice : num)
    (scanned : list Candle.t) :
  (forall c, In c scanned -> touches long stopLoss tp2 c = false) ->
  scanExit long stopLoss tp2 exitPrice scanned = exitPrice.
Proof.
  induction scanned as [| c rest IH]; intro H.
  - reflexivity.
  - rewrite scanExit_step by (apply H; left; reflexivity).
    apply IH. intros c' Hc'. apply H. right. exact Hc'.
Qed.

(** C3, as amended: when no candle that the simulation scans (the
    candles at the indices [startIndex + 1] up to, and without,
    [min (startIndex + 100) length]) touches the stop-loss or the
    take-profit level, the exit price is the close of the entry candle
    [candles[startIndex]], and the returned trade (P&L, outcome, exit
    reason) is the one derived from that exit price. *)
Theorem untouched_trade_exits_at_entry_close
    (candles : list Candle.t) (startIndex : nat) (entryPrice : Q)
    (direction : Direction.t) (analysis : SMCAnalysis.t) (c0 : Candle.t) :
  nth_error candles startIndex = Some c0 ->
  (forall c, In c (scannedCandles candles startIndex) ->
     touches (isLong direction)
       (stopLossOf entryPrice direction (atrOf c0 analysis))
       (tp2Of entryPrice direction
          (stopLossOf entryPrice direction (atrOf c0 analysis)))
       c = false) ->
  exitPriceOf candles startIndex entryPrice direction analysis
  = Ok (Fin (Candle.close c0))
  /\ simulateTrade candles startIndex entryPrice direction analysis
     = Ok (tradeOf entryPrice direction
             (stopLossOf entryPrice direction (atrOf c0 analysis))
             (Fin (Candle.close c0))).
Proof.
  intros Hc0 Hquiet.
  assert (E : exitPriceOf candles startIndex entryPrice direction analysis
              = Ok (Fin (Candle.close c0))).
  { unfold exitPriceOf. rewrite Hc0.
    rewrite scanExit_untouched by exact Hquiet. reflexivity. }
  split; [exact E |].
  unfold simulateTrade. rewrite Hc0, E. reflexivity.
Qed.

Lemma untouched_trade_exits_at_entry_close_witness :
  exitPriceOf Examples.quietCandles 0 100 Direction.long
    Examples.quietAnalysis
  = Ok (Fin 100)
  /\ simulateTrade Examples.quietCandles 0 100 Direction.long
       Examples.quietAnalysis
     = Ok (tradeOf 100 Direction.long
             (stopLossOf 100 Direction.long
                (atrOf (Candle.mk 0 100 101 99 100 1) Examples.quietAnalysis))
             (Fin 100)).
Proof.
  apply (untouched_trade_exits_at_entry_close Examples.quietCandles 0 100
           Direction.long Examples.quietAnalysis
           (Candle.mk 0 100 101 99 100 1)).
  - reflexivity.
  - intros c Hc. simpl in Hc.
    destruct Hc as [Hc | []]. subst c. vm_compute. reflexivity.
Defined.

(** C3, counterexample: a long trade entered at 100 on a candle that
    closes at 100, stop at 80 and target at 160; the one later candle
    stays between them and closes at 101.  The exit price is 100, the
    close of the entry candle, not 101, the close of the last scanned
    candle; the trade is a loss with zero P&L. *)
Lemma untouched_trade_ignores_last_scanned_close :
  scannedCandles Examples.quietCandles 0 = [Candle.mk 0 100 102 100 101 1]
  /\ stopLossOf 100 Direction.long
       (atrOf (Candle.mk 0 100 101 99 100 1) Examples.quietAnalysis)
     = Fin (100 + - (10 * 2))
  /\ tp2Of 100 Direction.long (Fin (100 + - (10 * 2)))
     = Fin (100 + Qabs (100 + - (100 + - (10 * 2))) * 3)
  /\ touches true (Fin (100 + - (10 * 2)))
       (Fin (100 + Qabs (100 + - (100 + - (10 * 2))) * 3))
       (Candle.mk 0 100 102 100 101 1)
     = false
  /\ exitPriceOf Examples.quietCandles 0 100 Direction.long
       Examples.quietAnalysis
     = Ok (Fin 100)
  /\ exitPriceOf Examples.quietCandles 0 100 Direction.long
       Examples.quietAnalysis
     <> Ok (Fin 101)
  /\ ~ 100 == 101
  /\ option_map BacktestTrade.outcome
       (match simulateTrade Examples.quietCandles 0 100 Direction.long
                Examples.quietAnalysis with
        | Ok trade => Some trade
        | Throw _ => None
        end)
     = Some Outcome.LOSS.
Proof.
  repeat split; try reflexivity; vm_compute; discriminate.
Qed.

(* ------------------------------------------------------------------ *)
(** ** Average true range *)

(** For a candle whose close lies between its low and its high, the
    range that [atr] averages is the high-low spread: the closes of
    earlier candles play no part. *)
Lemma tr_is_high_minus_low (c : Candle.t) :
  Candle.low c <= Candle.close c -> Candle.close c <= Candle.high c ->
  tr c == Candle.high c - Candle.low c.
Proof.
  intros Hl Hh. unfold tr.
  rewrite (Qabs_pos (Candle.high c - Candle.close c)) by lra.
  rewrite (Qabs_neg (Candle.low c - Candle.close c)) by lra.
  apply Q.max_l.
  apply Q.max_lub; lra.
Qed.

(** C2, the code against the claim: fourteen flat candles at 10, then
    a candle with high 13, low 12 and close 12.5.  The true range of
    the last candle is max (1, |13 - 10|, |12 - 10|) = 3, so ATR(14) at
    index 14 is 3/14.  [atr] takes the candle's own close and returns
    max (1, 0.5, 0.5) / 14 = 1/14. *)
Theorem atr_takes_own_close :
  nth_error (atr Examples.gapCandles 14) 1 = Some (1 # 14)
  /\ specATR14 Examples.gapCandles 14 = Some (3 # 14)
  /\ ~ (1 # 14) == (3 # 14).
Proof.
  repeat split; try reflexivity. vm_compute. discriminate.
Qed.

(* ------------------------------------------------------------------ *)
(** ** Numeric binning *)

Lemma min_list_Fin (v : Q) (vs : list Q) :
  min_list (map Fin (v :: vs)) = Fin (fold_left Qmin vs v).
Proof.
  unfold min_list. cbn [map fold_left min2].
  revert v. induction vs as [| a vs IH]; intro v; [reflexivity |].
  cbn [map fold_left min2]. apply IH.
Qed.

Lemma max_list_Fin (v : Q) (vs : list Q) :
  max_list (map Fin (v :: vs)) = Fin (fold_left Qmax vs v).
Proof.
  unfold max_list. cbn [map fold_left max2].
  revert v. induction vs as [| a vs IH]; intro v; [reflexivity |].
  cbn [map fold_left max2]. apply IH.
Qed.

Lemma fold_Qmin_le (vs : list Q) (v : Q) : fold_left Qmin vs v <= v.
Proof.
  revert v. induction vs as [| a vs IH]; intro v; simpl; [lra |].
  eapply Qle_trans; [apply IH | apply Q.le_min_l].
Qed.

Lemma fold_Qmax_ge (vs : list Q) (v : Q) : v <= fold_left Qmax vs v.
Proof.
  revert v. induction vs as [| a vs IH]; intro v; simpl; [lra |].
  eapply Qle_trans; [apply Q.le_max_l | apply IH].
Qed.

(** The defect behind C1 in general: whenever the values of a numeric
    feature over a non-empty corpus are finite, the upper bound of
    every bin is at most the corpus maximum, so a record at the
    maximum lies in none of the ten bins. *)
Lemma maximum_in_no_bin (featureName : TradeFeatures.key)
    (trades : list TradeFeatures.t) (v : Q) (vs : list Q) :
  map (TradeFeatures.getNumber featureName) trades = map Fin (v :: vs) ->
  exists hi,
    max_list (map (TradeFeatures.getNumber featureName) trades) = Fin hi
    /\ forall b,
         In b (numericBins featureName trades 10) ->
         binMatches (TradeFeatures.VNum (Fin hi)) b = false.
Proof.
  intro Hvals. exists (fold_left Qmax vs v).
  unfold numericBins. rewrite Hvals, min_list_Fin, max_list_Fin.
  split; [reflexivity |].
  set (lo := fold_left Qmin vs v). set (hi := fold_left Qmax vs v).
  assert (Hlo : lo <= v) by apply fold_Qmin_le.
  assert (Hhi : v <= hi) by apply fold_Qmax_ge.
  intros b Hb. apply in_map_iff in Hb. destruct Hb as [i [<- Hi]].
  unfold range in Hi. apply in_seq in Hi.
  change (Pos.to_nat 10) with 10%nat in Hi.
  unfold binMatches, numericBin, inRange.
  cbn [FeatureBin.min FeatureBin.max sub opp add].
  rewrite div_Fin by (pose proof (Qpos_pos 10); lra).
  cbn [mul add lt].
  apply andb_false_iff. right.
  unfold Qlt_bool. apply negb_false_iff. apply Qle_bool_iff.
  assert (Hi' : Qnat (i + 1) <= 10).
  { change 10 with (Qnat 10). apply Qnat_le. lia. }
  assert (H10 : Qpos 10 == 10) by reflexivity.
  set (w := (hi + - lo) / Qpos 10).
  assert (Hw : 0 <= w).
  { unfold w. apply Qle_shift_div_l; [apply Qpos_pos | lra]. }
  assert (Ew : 10 * w == hi + - lo).
  { unfold w. rewrite H10. field. }
  nra.
Qed.

(** C1, the code against the claim: a corpus of two records with trend
    strengths 0 and 1.  The ten bins are [0, 0.1), ..., [0.9, 1); the
    record at the corpus maximum 1 lies in none of them, the counts of
    the bins add up to one of the two records, and [predict] finds no
    bin for the value 1 and falls back to win rate 0.5 with count 0. *)
Theorem corpus_maximum_falls_in_no_bin :
  max_list (map (TradeFeatures.getNumber TradeFeatures.k_trend_strength)
              Examples.twoTrades)
  = Fin 1
  /\ filter (binMatches (TradeFeatures.VNum (Fin 1)))
       (numericBins TradeFeatures.k_trend_strength Examples.twoTrades 10)
     = []
  /\ map FeatureBin.count
       (numericBins TradeFeatures.k_trend_strength Examples.twoTrades 10)
     = [1; 0; 0; 0; 0; 0; 0; 0; 0; 0]%nat
  /\ length Examples.twoTrades = 2%nat
  /\ findBin (TradeFeatures.VNum (Fin 1))
       (numericBins TradeFeatures.k_trend_strength Examples.twoTrades 10)
     = (1 # 2, 0%nat).
Proof.
  repeat split; vm_compute; reflexivity.
Qed.

(* ------------------------------------------------------------------ *)
(** ** Relative strength index *)

(** A goal [Forall P (map f l)] is proved for an arbitrary member
    [f d] with [Hd : In d l]. *)
Ltac for_each_mapped d Hd :=
  let x := fresh "x" in
  let Hx := fresh "Hx" in
  apply Forall_forall; intros x Hx;
  apply in_map_iff in Hx; destruct Hx as [d [<- Hd]].

Lemma gain_nonneg (d : Q) : 0 <= gain d.
Proof.
  unfold gain. destruct (Qle_bool 0 d) eqn:E.
  - apply Qle_bool_iff. exact E.
  - lra.
Qed.

Lemma loss_nonneg (d : Q) : 0 <= loss d.
Proof.
  unfold loss. destruct (Qle_bool 0 d); [lra | apply Qabs_nonneg].
Qed.

Lemma mean_nonneg (l : list Q) (period : positive) :
  Forall (fun x => 0 <= x) l -> 0 <= sum l / Qpos period.
Proof.
  intro H. apply Qle_shift_div_l; [apply Qpos_pos |].
  apply sum_nonneg in H. lra.
Qed.

Lemma avgGain_nonneg (w : list Q) (period : positive) :
  0 <= avgGain w period.
Proof.
  apply mean_nonneg. for_each_mapped d Hd. apply gain_nonneg.
Qed.

Lemma avgLoss_nonneg (w : list Q) (period : positive) :
  0 <= avgLoss w period.
Proof.
  apply mean_nonneg. for_each_mapped d Hd. apply loss_nonneg.
Qed.

Lemma ratio_nonneg (g l : Q) : 0 <= g -> 0 < l -> 0 <= g / l.
Proof.
  intros Hg Hl. apply Qle_shift_div_l; [exact Hl | lra].
Qed.

(** The value pushed for a window that has some loss. *)
Lemma rsi_window_value (w : list Q) (period : positive) :
  ~ avgLoss w period == 0 ->
  rsi_window w period
  = Fin (100 + - (100 / (1 + avgGain w period / avgLoss w period))).
Proof.
  intro Hl. unfold rsi_window.
  pose proof (avgLoss_nonneg w period) as Hl0.
  pose proof (avgGain_nonneg w period) as Hg0.
  assert (Hpos : 0 < avgLoss w period) by lra.
  pose proof (ratio_nonneg _ _ Hg0 Hpos) as Hr.
  rewrite (proj2 (Qeq_bool_false _ _) Hl).
  rewrite div_Fin by exact Hl.
  cbn [add]. rewrite div_Fin by lra.
  reflexivity.
Qed.

Lemma rsi_window_no_loss (w : list Q) (period : positive) :
  avgLoss w period == 0 -> rsi_window w period = Fin 100.
Proof.
  intro H. unfold rsi_window.
  apply Qeq_bool_iff in H. rewrite H. reflexivity.
Qed.

Lemma rsi_window_range (w : list Q) (period : positive) :
  exists q, rsi_window w period = Fin q /\ 0 <= q <= 100.
Proof.
  destruct (Qeq_bool (avgLoss w period) 0) eqn:E.
  - exists 100. split; [| lra].
    apply rsi_window_no_loss. apply Qeq_bool_iff. exact E.
  - apply Qeq_bool_false in E.
    rewrite rsi_window_value by exact E.
    eexists. split; [reflexivity |].
    pose proof (avgLoss_nonneg w period) as Hl0.
    pose proof (avgGain_nonneg w period) as Hg0.
    assert (Hpos : 0 < avgLoss w period) by lra.
    pose proof (ratio_nonneg _ _ Hg0 Hpos) as Hr.
    set (x := avgGain w period / avgLoss w period) in *.
    assert (H0 : 0 <= 100 / (1 + x)).
    { apply Qle_shift_div_l; lra. }
    assert (H1 : 100 / (1 + x) <= 100).
    { apply Qle_shift_div_r; lra. }
    lra.
Qed.

Lemma rsi_window_no_gain (w : list Q) (period : positive) :
  avgGain w period == 0 -> ~ avgLoss w period == 0 ->
  exists q, rsi_window w period = Fin q /\ q == 0.
Proof.
  intros Hg Hl. rewrite rsi_window_value by exact Hl.
  eexists. split; [reflexivity |].
  rewrite Hg. field. exact Hl.
Qed.

Lemma allGains_avgLoss (w : list Q) (period : positive) :
  allGains w -> avgLoss w period == 0.
Proof.
  intro H. unfold avgLoss.
  rewrite sum_zero; [unfold Qdiv; ring |].
  for_each_mapped d Hd.
  unfold allGains in H. rewrite Forall_forall in H.
  specialize (H d Hd). simpl in H.
  unfold loss. apply Qle_bool_iff in H. rewrite H. reflexivity.
Qed.

Lemma allLosses_avgGain (w : list Q) (period : positive) :
  allLosses w -> avgGain w period == 0.
Proof.
  intro H. unfold avgGain.
  rewrite sum_zero; [unfold Qdiv; ring |].
  for_each_mapped d Hd.
  unfold allLosses in H. rewrite Forall_forall in H.
  specialize (H d Hd). simpl in H.
  unfold gain. apply Qle_bool_false in H. rewrite H. reflexivity.
Qed.

Lemma allLosses_avgLoss (w : list Q) (period : positive) :
  diffs w <> [] -> allLosses w -> 0 < avgLoss w period.
Proof.
  intros Hne H. unfold avgLoss.
  apply Qlt_shift_div_l; [apply Qpos_pos |].
  assert (0 < sum (map loss (diffs w))); [| lra].
  apply sum_pos.
  - destruct (diffs w); [congruence | discriminate].
  - for_each_mapped d Hd.
    unfold allLosses in H. rewrite Forall_forall in H.
    specialize (H d Hd). simpl in H.
    unfold loss. rewrite (proj2 (Qle_bool_false _ _) H).
    rewrite Qabs_neg by lra. lra.
Qed.

Lemma rsi_window_all_losses (w : list Q) (period : positive) :
  diffs w <> [] -> allLosses w ->
  exists q, rsi_window w period = Fin q /\ q == 0.
Proof.
  intros Hne H. apply rsi_window_no_gain.
  - apply allLosses_avgGain. exact H.
  - pose proof (allLosses_avgLoss w period Hne H). lra.
Qed.

Lemma diffs_nonempty (w : list Q) : (2 <= length w)%nat -> diffs w <> [].
Proof.
  destruct w as [| a [| b w]]; simpl; intro H; try lia. discriminate.
Qed.

Lemma length_slice {A : Type} (l : list A) (s e : nat) :
  (s <= e)%nat -> (e <= length l)%nat -> length (slice l s e) = (e - s)%nat.
Proof.
  intros Hse He. unfold slice.
  rewrite length_firstn, length_skipn. lia.
Qed.

Lemma length_rsi (candles : list Candle.t) :
  length (rsi candles 14) = (length candles - 14)%nat.
Proof.
  unfold rsi, range, closes.
  rewrite length_map, length_seq, length_map. reflexivity.
Qed.

Lemma rsi_nth (candles : list Candle.t) (k : nat) (r : num) :
  nth_error (rsi candles 14) k = Some r ->
  (k + 14 < length candles)%nat
  /\ r = rsi_window (rsiWindow candles k) 14.
Proof.
  unfold rsi, range. intro H.
  apply nth_error_map_seq in H. destruct H as [Hk ->].
  unfold closes in Hk. rewrite length_map in Hk.
  change (Pos.to_nat 14) with 14%nat in *.
  split; [lia |].
  unfold rsiWindow.
  replace (14 + k - 14)%nat with k by lia.
  replace (14 + k)%nat with (k + 14)%nat by lia.
  reflexivity.
Qed.

Lemma rsiWindow_diffs (candles : list Candle.t) (k : nat) :
  (k + 14 < length candles)%nat -> diffs (rsiWindow candles k) <> [].
Proof.
  intro H. apply diffs_nonempty. unfold rsiWindow.
  rewrite length_slice; unfold closes; rewrite ?length_map; lia.
Qed.

(** C6: on a sequence of at least 15 candles, RSI(14) produces one
    value per window; every value lies in [0, 100]; a window whose
    average loss is zero, and so every window of gains only, yields
    exactly 100; a window of losses only, whose average gain is zero
    while its average loss is not, yields exactly 0. *)
Theorem rsi_range_and_extremes (candles : list Candle.t) :
  (15 <= length candles)%nat ->
  length (rsi candles 14) = (length candles - 14)%nat
  /\ forall k r,
       nth_error (rsi candles 14) k = Some r ->
       (exists q, r = Fin q /\ 0 <= q <= 100)
       /\ (avgLoss (rsiWindow candles k) 14 == 0 -> r = Fin 100)
       /\ (allGains (rsiWindow candles k) -> r = Fin 100)
       /\ (avgGain (rsiWindow candles k) 14 == 0 ->
           ~ avgLoss (rsiWindow candles k) 14 == 0 ->
           exists q, r = Fin q /\ q == 0)
       /\ (allLosses (rsiWindow candles k) ->
           exists q, r = Fin q /\ q == 0).
Proof.
  intro Hlen. split; [apply length_rsi |].
  intros k r Hr. apply rsi_nth in Hr. destruct Hr as [Hk ->].
  repeat split.
  - apply rsi_window_range.
  - apply rsi_window_no_loss.
  - intro H. apply rsi_window_no_loss, allGains_avgLoss. exact H.
  - apply rsi_window_no_gain.
  - apply rsi_window_all_losses. apply rsiWindow_diffs. exact Hk.
Qed.

Lemma rsi_range_and_extremes_witness :
  length (rsi Examples.risingCandles 14)
  = (length Examples.risingCandles - 14)%nat
  /\ forall k r,
       nth_error (rsi Examples.risingCandles 14) k = Some r ->
       (exists q, r = Fin q /\ 0 <= q <= 100)
       /\ (avgLoss (rsiWindow Examples.risingCandles k) 14 == 0 ->
           r = Fin 100)
       /\ (allGains (rsiWindow Examples.risingCandles k) -> r = Fin 100)
       /\ (avgGain (rsiWindow Examples.risingCandles k) 14 == 0 ->
           ~ avgLoss (rsiWindow Examples.risingCandles k) 14 == 0 ->
           exists q, r = Fin q /\ q == 0)
       /\ (allLosses (rsiWindow Examples.risingCandles k) ->
           exists q, r = Fin q /\ q == 0).
Proof.
  apply (rsi_range_and_extremes Examples.risingCandles).
  simpl. lia.
Defined.

(* ------------------------------------------------------------------ *)
(** ** The analysis snapshot *)

Lemma last_or_null_zero (series : list num) :
  emptyOrEndsInZero series -> last_or_null series = None.
Proof.
  unfold emptyOrEndsInZero, last_or_null, from_end.
  intros [-> | [q [H Hq]]]; [reflexivity |].
  simpl in H. destruct (rev series) as [| x rest]; [reflexivity |].
  simpl in H. injection H as ->. simpl.
  apply Qeq_bool_iff in Hq. rewrite Hq. reflexivity.
Qed.

Lemma rsi_last (candles : list Candle.t) :
  (15 <= length candles)%nat ->
  from_end (rsi candles 14) 1
  = Some (rsi_window (rsiWindow candles (length candles - 15)) 14).
Proof.
  intro H. unfold rsi, range, closes. rewrite length_map.
  change (Pos.to_nat 14) with 14%nat.
  replace (length candles - 14)%nat with (S (length candles - 15)) by lia.
  rewrite from_end_map_seq. unfold rsiWindow, closes.
  replace (14 + (length candles - 15) - 14)%nat
    with (length candles - 15)%nat by lia.
  replace (14 + (length candles - 15))%nat
    with (length candles - 15 + 14)%nat by lia.
  reflexivity.
Qed.

(** C9: in the analysis that [analyze] returns, each of [ema50],
    [ema200], [rsi], [atr] and [vwap] is null whenever its indicator
    series is empty or ends in the value zero; in particular, when the
    window behind the last RSI value holds losses only, [rsi] is null
    and not 0. *)
Theorem analysis_zero_is_null (candles : list Candle.t) :
  (emptyOrEndsInZero (map Fin (ema (closes candles) 50)) ->
   SMCAnalysis.ema50 (analyze candles) = None)
  /\ (emptyOrEndsInZero (map Fin (ema (closes candles) 200)) ->
      SMCAnalysis.ema200 (analyze candles) = None)
  /\ (emptyOrEndsInZero (rsi candles 14) ->
      SMCAnalysis.rsi (analyze candles) = None)
  /\ (emptyOrEndsInZero (map Fin (atr candles 14)) ->
      SMCAnalysis.atr (analyze candles) = None)
  /\ (emptyOrEndsInZero (vwap candles) ->
      SMCAnalysis.vwap (analyze candles) = None)
  /\ ((15 <= length candles)%nat ->
      allLosses (rsiWindow candles (length candles - 15)) ->
      SMCAnalysis.rsi (analyze candles) = None).
Proof.
  unfold analyze. cbn [SMCAnalysis.ema50 SMCAnalysis.ema200 SMCAnalysis.rsi
                       SMCAnalysis.atr SMCAnalysis.vwap].
  repeat split; try apply last_or_null_zero.
  intros Hlen Hloss. apply last_or_null_zero. right.
  destruct (rsi_window_all_losses (rsiWindow candles (length candles - 15)) 14)
    as [q [Hq Hz]].
  - apply rsiWindow_diffs. lia.
  - exact Hloss.
  - exists q. split; [| exact Hz].
    rewrite rsi_last by exact Hlen. rewrite Hq. reflexivity.
Qed.

Lemma analysis_zero_is_null_witness :
  SMCAnalysis.rsi (analyze Examples.fallingCandles) = None.
Proof.
  apply (analysis_zero_is_null Examples.fallingCandles).
  - simpl. lia.
  - unfold allLosses. vm_compute. repeat constructor.
Defined.

(* ------------------------------------------------------------------ *)
(** ** Confidence of a prediction *)

Lemma squares_nonneg (mean : Q) (l : list Q) (a : Q) :
  0 <= a -> 0 <= fold_left (fun s r => s + sq (r - mean)) l a.
Proof.
  revert a. induction l as [| r l IH]; intros a Ha; simpl.
  - exact Ha.
  - apply IH. unfold sq. set (y := r - mean).
    assert (0 <= y * y) by nra. lra.
Qed.

Lemma importanceOf_range (feature : ModelFeature.t) :
  0 <= importanceOf feature <= 1.
Proof.
  unfold importanceOf.
  set (winRates := map FeatureBin.winRate _).
  destruct (length winRates <? 2)%nat eqn:E; [lra |].
  apply Nat.ltb_ge in E.
  split; [| apply Q.le_min_r].
  apply Q.min_glb; [| lra].
  assert (0 <= fold_left (fun s r => s + sq (r - sum winRates
                                              / Qnat (length winRates)))
                 winRates 0
               / Qnat (length winRates)); [| lra].
  apply Qle_shift_div_l.
  - apply Qnat_pos. lia.
  - pose proof (squares_nonneg (sum winRates / Qnat (length winRates))
                  winRates 0 ltac:(lra)). lra.
Qed.

Lemma train_importance (trades : list TradeFeatures.t)
    (m0 : TradingMLModel.t) (e : TradeFeatures.key * ModelFeature.t) :
  In e (features (train trades m0)) ->
  0 <= ModelFeature.importance (snd e) <= 1.
Proof.
  unfold train, calculateFeatureImportance. cbn [features].
  intro H. apply in_map_iff in H.
  destruct H as [[name feature] [<- _]]. simpl.
  apply importanceOf_range.
Qed.

Lemma sampleWeight_range (binCount : nat) :
  0 <= Qmin (Qnat binCount / Qnat minSampleSize) 1 <= 1.
Proof.
  split; [| apply Q.le_min_r].
  apply Q.min_glb; [| lra].
  apply Qle_shift_div_l.
  - apply Qnat_pos. unfold minSampleSize. lia.
  - pose proof (Qnat_nonneg binCount). lra.
Qed.

(** A summand of the confidence: for a feature whose matched win rate
    is not zero it is the importance times the sample weight, between
    zero and one. *)
Lemma effectiveSamples_bound (x : TradeFeatures.t)
    (e : TradeFeatures.key * ModelFeature.t) :
  0 <= ModelFeature.importance (snd e) <= 1 ->
  ~ WeightedScore.winRate (scoreFeature x e) == 0 ->
  exists q, effectiveSamples (scoreFeature x e) = Fin q /\ 0 <= q <= 1.
Proof.
  destruct e as [name modelFeature]. unfold scoreFeature, effectiveSamples.
  destruct (findBin (TradeFeatures.get name x)
              (ModelFeature.bins modelFeature)) as [binWinRate binCount].
  cbn [snd WeightedScore.score WeightedScore.winRate].
  intros Himp Hw.
  rewrite div_Fin by exact Hw. cbn [min2].
  eexists. split; [reflexivity |].
  pose proof (sampleWeight_range binCount) as Hs.
  set (sw := Qmin (Qnat binCount / Qnat minSampleSize) 1) in *.
  set (imp := ModelFeature.importance modelFeature) in *.
  assert (E : binWinRate * imp * sw / binWinRate == imp * sw)
    by (field; exact Hw).
  split.
  - apply Q.min_glb; [| lra]. rewrite E. nra.
  - eapply Qle_trans; [apply Q.le_min_l |]. rewrite E. nra.
Qed.

(** [sortByScore] sorts: its result is a permutation of its argument in
    descending order of score. *)
Lemma insertByScore_perm (a : WeightedScore.t) (l : list WeightedScore.t) :
  Permutation (a :: l) (insertByScore a l).
Proof.
  induction l as [| b l IH]; simpl; [reflexivity |].
  destruct (Qlt_bool (WeightedScore.score a) (WeightedScore.score b)).
  - rewrite perm_swap. apply perm_skip. exact IH.
  - reflexivity.
Qed.

Lemma sortByScore_perm (l : list WeightedScore.t) :
  Permutation l (sortByScore l).
Proof.
  induction l as [| a l IH]; simpl; [reflexivity |].
  rewrite <- insertByScore_perm. apply perm_skip. exact IH.
Qed.

Lemma insertByScore_sorted (a : WeightedScore.t)
    (l : list WeightedScore.t) :
  Sorted descending l -> Sorted descending (insertByScore a l).
Proof.
  induction 1 as [| b l Hs IH Hhd]; simpl.
  - repeat constructor.
  - destruct (Qlt_bool (WeightedScore.score a) (WeightedScore.score b))
      eqn:E.
    + apply Qlt_bool_iff in E. constructor; [exact IH |].
      destruct Hhd as [| c l Hbc]; simpl.
      * constructor. unfold descending. lra.
      * destruct (Qlt_bool (WeightedScore.score a) (WeightedScore.score c));
          constructor; [exact Hbc | unfold descending; lra].
    + assert (Hba : WeightedScore.score b <= WeightedScore.score a).
      { unfold Qlt_bool in E. apply negb_false_iff in E.
        apply Qle_bool_iff. exact E. }
      constructor; [constructor; assumption |].
      constructor. exact Hba.
Qed.

Lemma sortByScore_sorted (l : list WeightedScore.t) :
  Sorted descending (sortByScore l).
Proof.
  induction l as [| a l IH]; simpl; [constructor |].
  apply insertByScore_sorted. exact IH.
Qed.

Lemma In_firstn {A : Type} (n : nat) (l : list A) (x : A) :
  In x (firstn n l) -> In x l.
Proof.
  revert l. induction n as [| n IH]; intros l H; simpl in H.
  - contradiction.
  - destruct l as [| a l]; simpl in H; [contradiction |].
    destruct H as [-> | H]; [left; reflexivity | right; apply IH; exact H].
Qed.

Lemma In_insertByScore (a s : WeightedScore.t) (l : list WeightedScore.t) :
  In s (insertByScore a l) -> s = a \/ In s l.
Proof.
  induction l as [| b l IH]; simpl.
  - intros [-> | []]. left. reflexivity.
  - destruct (Qlt_bool (WeightedScore.score a) (WeightedScore.score b)).
    + intros [-> | H]; [right; left; reflexivity |].
      destruct (IH H) as [-> | H']; [left | right; right]; auto.
    + intros [-> | H]; [left; reflexivity | right; exact H].
Qed.

Lemma In_sortByScore (s : WeightedScore.t) (l : list WeightedScore.t) :
  In s (sortByScore l) -> In s l.
Proof.
  induction l as [| a l IH]; simpl; [auto |].
  intro H. apply In_insertByScore in H.
  destruct H as [-> | H]; [left; reflexivity | right; apply IH; exact H].
Qed.

Lemma In_topFeatures (m : TradingMLModel.t) (x : TradeFeatures.t)
    (s : WeightedScore.t) :
  In s (topFeatures m x) ->
  exists e, In e (features m) /\ s = scoreFeature x e.
Proof.
  unfold topFeatures. intro H.
  apply In_firstn, In_sortByScore, in_map_iff in H.
  destruct H as [e [<- He]]. exists e. split; [exact He | reflexivity].
Qed.

Lemma totalSamples_bound (top : list WeightedScore.t) :
  (forall f, In f top ->
     exists q, effectiveSamples f = Fin q /\ 0 <= q <= 1) ->
  forall a,
    exists t,
      fold_left (fun s f => add s (effectiveSamples f)) top (Fin a) = Fin t
      /\ a <= t <= a + Qnat (length top).
Proof.
  induction top as [| f top IH]; intros H a.
  - exists a. split; [reflexivity |].
    pose proof (Qnat_nonneg (length (@nil WeightedScore.t))). lra.
  - destruct (H f (or_introl eq_refl)) as [q [Hq Hle]].
    cbn [fold_left]. rewrite Hq. cbn [add].
    destruct (IH (fun g Hg => H g (or_intror Hg)) (a + q)) as [t [Ht Hb]].
    exists t. split; [exact Ht |].
    cbn [length]. rewrite Qnat_S. lra.
Qed.

(** C10: for every trained model and every feature record such that
    each of the top-10 scored features has a matched win rate other
    than zero, [predict] returns a prediction whose confidence is a
    number between 0 and 0.01: each of the at most ten summands is an
    importance times a sample weight, at most one, and their sum is
    divided by 1000. *)
Theorem confidence_at_most_one_percent
    (trades : list TradeFeatures.t) (m0 : TradingMLModel.t)
    (x : TradeFeatures.t) :
  (forall f, In f (topFeatures (train trades m0) x) ->
     ~ WeightedScore.winRate f == 0) ->
  exists p c,
    predict (train trades m0) x = Ok p
    /\ Prediction.confidence p = Fin c
    /\ 0 <= c <= 1 # 100.
Proof.
  intro Hw.
  destruct (totalSamples_bound (topFeatures (train trades m0) x)) with (a := 0)
    as [t [Ht Hb]].
  { intros f Hf. destruct (In_topFeatures _ _ _ Hf) as [e [He ->]].
    apply effectiveSamples_bound.
    - apply (train_importance trades m0). exact He.
    - apply Hw. exact Hf. }
  assert (Hlen : Qnat (length (topFeatures (train trades m0) x)) <= 10).
  { change 10 with (Qnat 10). apply Qnat_le.
    unfold topFeatures. rewrite length_firstn. lia. }
  eexists. exists (Qmin (t / 1000) 1).
  split; [| split; [| split]].
  - unfold predict. cbn [trained train negb]. reflexivity.
  - cbn [Prediction.confidence]. rewrite Ht.
    rewrite div_Fin by lra. reflexivity.
  - apply Q.min_glb; [| lra]. apply Qle_shift_div_l; lra.
  - eapply Qle_trans; [apply Q.le_min_l |].
    apply Qle_shift_div_r; lra.
Qed.

Lemma confidence_at_most_one_percent_witness :
  exists p c,
    predict (train Examples.winners TradingMLModel.new)
      (Examples.trade (1 # 2) Outcome.WIN) = Ok p
    /\ Prediction.confidence p = Fin c
    /\ 0 <= c <= 1 # 100.
Proof.
  apply confidence_at_most_one_percent.
  assert (H : forallb
                (fun f => negb (Qeq_bool (WeightedScore.winRate f) 0))
                (topFeatures (train Examples.winners TradingMLModel.new)
                   (Examples.trade (1 # 2) Outcome.WIN)) = true)
    by (vm_compute; reflexivity).
  intros f Hf. rewrite forallb_forall in H. specialize (H f Hf).
  apply negb_true_iff in H. apply Qeq_bool_false. exact H.
Defined.

(* ------------------------------------------------------------------ *)
(** ** The learning loop *)

Lemma evaluateLoop_total (m : TradingMLModel.t)
    (trades : list TradeFeatures.t) :
  trained m = true ->
  forall correct errors,
    exists correct' errors',
      evaluateLoop m trades correct errors = Ok (correct', errors').
Proof.
  intro Hm. induction trades as [| trade rest IH]; intros correct errors.
  - simpl. eauto.
  - cbn [evaluateLoop]. unfold predict. rewrite Hm. cbn [negb].
    match goal with
    | |- context [if ?b then _ else _] => destruct b
    end; apply IH.
Qed.

Lemma evaluateModel_total (m : TradingMLModel.t)
    (trades : list TradeFeatures.t) :
  trained m = true ->
  exists accuracy errors, evaluateModel m trades = Ok (accuracy, errors).
Proof.
  intro Hm. unfold evaluateModel.
  destruct (evaluateLoop_total m trades Hm 0%nat []) as [c [e ->]].
  eauto.
Qed.

Section LoopFacts.

Variable config : CONFIG.t.
Variable shuffle : nat -> list TradeFeatures.t -> list TradeFeatures.t.

(** An iteration never throws: the model it evaluates has just been
    trained.  Its record carries the iteration number and the size of
    the pool. *)
Lemma evaluateIteration_total (i : nat) (st : state) :
  exists model' record errors,
    evaluateIteration config shuffle i st = Ok (model', record, errors)
    /\ LoopIteration.iteration record = i
    /\ LoopIteration.tradesExtracted record = length (trainingData st).
Proof.
  unfold evaluateIteration.
  set (model' := train (trainSet config shuffle i st) (model st)).
  destruct (evaluateModel_total model' (testSet config shuffle i st)
              eq_refl) as [a1 [e1 ->]].
  destruct (evaluateModel_total model' (trainSet config shuffle i st)
              eq_refl) as [a2 [e2 ->]].
  do 3 eexists. split; [reflexivity |]. split; reflexivity.
Qed.

(** One iteration that meets the convergence test ends the loop: the
    record is added, the training pool is left as it was. *)
Lemma iterate_converged (remaining i : nat) (st : state)
    (model' : TradingMLModel.t) (record : LoopIteration.t)
    (errors : list TradeFeatures.t) :
  evaluateIteration config shuffle i st = Ok (model', record, errors) ->
  converged config i (LoopIteration.improvementFromLast record) = true ->
  iterate config shuffle (S remaining) i st
  = Ok (mkState model' (iterations st ++ [record]) (lastAccuracy st)
          (trainingData st)).
Proof.
  intros He Hc. cbn [iterate]. rewrite He, Hc. reflexivity.
Qed.

(** The records that the loop adds: only the last of them can meet the
    convergence test, and then the pool has the size that this record
    took down. *)
Lemma iterate_trace (remaining i : nat) (st : state) :
  exists st' added,
    iterate config shuffle remaining i st = Ok st'
    /\ iterations st' = iterations st ++ added
    /\ forall j r,
         nth_error added j = Some r ->
         stops config r = true ->
         S j = length added
         /\ length (trainingData st') = LoopIteration.tradesExtracted r.
Proof.
  revert i st. induction remaining as [| remaining IH]; intros i st.
  - exists st, []. split; [reflexivity |]. split.
    + rewrite app_nil_r. reflexivity.
    + intros [| j] r H; discriminate.
  - destruct (evaluateIteration_total i st)
      as [model' [record [errors [He [Hi Hn]]]]].
    cbn [iterate]. rewrite He.
    destruct (converged config i (LoopIteration.improvementFromLast record))
      eqn:Hc.
    + eexists. exists [record].
      split; [reflexivity |]. split; [reflexivity |].
      intros [| [| j]] r H; try discriminate.
      injection H as <-. intros _. split; [reflexivity |].
      cbn [trainingData]. symmetry. exact Hn.
    + match goal with
      | |- context [iterate _ _ remaining (S i) ?st1] =>
          destruct (IH (S i) st1) as [st' [added [Hrun [Hits Hlast]]]]
      end.
      exists st', (record :: added).
      split; [exact Hrun |]. split.
      * rewrite Hits. cbn [iterations]. rewrite <- app_assoc. reflexivity.
      * intros [| j] r H Hstop.
        -- injection H as <-. unfold stops in Hstop.
           rewrite Hi in Hstop. congruence.
        -- destruct (Hlast j r H Hstop) as [Hj Hpool].
           split; [cbn [length]; congruence | exact Hpool].
Qed.

End LoopFacts.

(** C7: in every run of the learning loop, an iteration after the
    first whose test-accuracy improvement is below the convergence
    threshold ends the loop.  From any state of the loop, such an
    iteration returns at once with its record added and the training
    pool untouched, so no copy of its misclassified records is
    appended; and in the history of a whole run a record that meets
    the test is the last one, taken at the final size of the pool. *)
Theorem loop_stops_on_convergence
    (config : CONFIG.t)
    (shuffle : nat -> list TradeFeatures.t -> list TradeFeatures.t) :
  (forall remaining i st model' record errors,
     evaluateIteration config shuffle i st = Ok (model', record, errors) ->
     (1 < i)%nat ->
     lt (LoopIteration.improvementFromLast record)
        (Fin (CONFIG.minAccuracyImprovement config)) = true ->
     iterate config shuffle (S remaining) i st
     = Ok (mkState model' (iterations st ++ [record]) (lastAccuracy st)
             (trainingData st)))
  /\ (forall allTrades,
        exists st,
          learn config shuffle allTrades = Ok st
          /\ forall j r,
               nth_error (iterations st) j = Some r ->
               (1 < LoopIteration.iteration r)%nat ->
               lt (LoopIteration.improvementFromLast r)
                  (Fin (CONFIG.minAccuracyImprovement config)) = true ->
               S j = length (iterations st)
               /\ length (trainingData st) = LoopIteration.tradesExtracted r).
Proof.
  split.
  - intros remaining i st model' record errors He Hi Himp.
    apply iterate_converged with (errors := errors); [exact He |].
    unfold converged. apply Nat.ltb_lt in Hi. rewrite Hi, Himp. reflexivity.
  - intro allTrades. unfold learn.
    destruct (iterate_trace config shuffle (CONFIG.maxIterations config) 1
                (mkState TradingMLModel.new [] (Fin 0) allTrades))
      as [st [added [Hrun [Hits Hlast]]]].
    exists st. split; [exact Hrun |].
    cbn [iterations app] in Hits. rewrite Hits.
    intros j r Hr Hi Himp. apply Hlast; [exact Hr |].
    unfold stops, converged. apply Nat.ltb_lt in Hi. rewrite Hi, Himp.
    reflexivity.
Qed.

Lemma loop_stops_on_convergence_witness :
  exists st,
    iterate CONFIG.default Examples.keepOrder 9 2
      Examples.afterPerfectIteration = Ok st
    /\ length (iterations st) = 1%nat
    /\ trainingData st = Examples.winners.
Proof.
  destruct (evaluateIteration CONFIG.default Examples.keepOrder 2
              Examples.afterPerfectIteration)
    as [[[model' record] errors] | msg] eqn:He.
  - eexists. split; [| split].
    + apply (proj1 (loop_stops_on_convergence CONFIG.default
                      Examples.keepOrder)
               8%nat 2%nat Examples.afterPerfectIteration model' record errors
               He).
      * lia.
      * vm_compute in He. injection He as _ <- _. vm_compute. reflexivity.
    + reflexivity.
    + reflexivity.
  - vm_compute in He. discriminate.
Defined.

(* ================================================================== *)
(** * Further properties *)

Import MTFBonus SetupScoring FeatureExtraction TradeExtraction Notions.

(** ** Moving averages *)

Lemma In_skipn {A : Type} (n : nat) (l : list A) (x : A) :
  In x (skipn n l) -> In x l.
Proof.
  intro H. rewrite <- (firstn_skipn n l). apply in_or_app. right. exact H.
Qed.












(* ------------------------------------------------------------------ *)
(** ** Average true range and volume-weighted price *)

Lemma tr_nonneg (c : Candle.t) : 0 <= tr c.
Proof.
  unfold tr.
  eapply Qle_trans; [apply (Qabs_nonneg (Candle.high c - Candle.close c)) |].
  eapply Qle_trans; [apply Q.le_max_l |]. apply Q.le_max_r.
Qed.

Lemma atr_nonneg (candles : list Candle.t) (period : positive) :
  Forall (fun v => 0 <= v) (atr candles period).
Proof.
  unfold atr. apply Forall_forall. intros v Hv.
  apply in_map_iff in Hv. destruct Hv as [i [<- _]].
  apply mean_nonneg. for_each_mapped c Hc. apply tr_nonneg.
Qed.

Lemma from_end_In {A : Type} (l : list A) (k : nat) (x : A) :
  from_end l k = Some x -> In x l.
Proof.
  unfold from_end. intro H. apply nth_error_In in H.
  apply in_rev. exact H.
Qed.

Lemma last_or_null_cases (series : list num) :
  last_or_null series = None
  \/ exists x, last_or_null series = Some x
               /\ from_end series 1 = Some x /\ truthy x = true.
Proof.
  unfold last_or_null, from_end. simpl.
  destruct (rev series) as [| x rest]; [left; reflexivity |].
  simpl. destruct (truthy x) eqn:E; [right | left; reflexivity].
  exists x. repeat split. exact E.
Qed.

(** X3: [atr] returns one value for each full window, and no value is
    negative; so the [atr] of an analysis is either null (fewer than
    14 candles, or a latest value of zero) or a positive number. *)
Theorem analysis_atr_null_or_positive (candles : list Candle.t) :
  length (atr candles 14) = (length candles - 13)%nat
  /\ Forall (fun v => 0 <= v) (atr candles 14)
  /\ ((length candles < 14)%nat ->
      SMCAnalysis.atr (analyze candles) = None)
  /\ (SMCAnalysis.atr (analyze candles) = None
      \/ exists q, SMCAnalysis.atr (analyze candles) = Some (Fin q)
                   /\ 0 < q).
Proof.
  repeat split.
  - unfold atr, range. rewrite length_map, length_seq. reflexivity.
  - apply atr_nonneg.
  - intro H. unfold analyze. cbn [SMCAnalysis.atr].
    unfold atr, range.
    replace (length candles - (Pos.to_nat 14 - 1))%nat with 0%nat
      by (change (Pos.to_nat 14) with 14%nat; lia).
    reflexivity.
  - unfold analyze. cbn [SMCAnalysis.atr].
    destruct (last_or_null_cases (map Fin (atr candles 14)))
      as [H | [x [H [Hx Ht]]]]; [left; exact H | right].
    apply from_end_In, in_map_iff in Hx. destruct Hx as [q [<- Hq]].
    exists q. split; [exact H |].
    pose proof (atr_nonneg candles 14) as Hn.
    rewrite Forall_forall in Hn. specialize (Hn q Hq). simpl in Hn.
    simpl in Ht. apply negb_true_iff, Qeq_bool_false in Ht. lra.
Qed.





(* ------------------------------------------------------------------ *)
(** ** Break of structure *)









(* ------------------------------------------------------------------ *)
(** ** Pattern detectors *)

(** Membership in [if b then [x] else []]. *)
Lemma In_if_singleton {A : Type} (b : bool) (x y : A) :
  In y (if b then [x] else []) -> b = true /\ y = x.
Proof.
  destruct b; simpl; [| contradiction].
  intros [<- | []]. split; reflexivity.
Qed.





(** X7: every fair value gap that [detectFVG] reports sits at an index
    with a candle on either side, spans a band of positive width from
    [from] up to [to], and has that width as its size; a bull gap lies
    between the high of the candle before and the low of the candle
    after, a bear gap between the high of the candle after and the low
    of the candle before. *)
Theorem fair_value_gaps_are_open_bands
    (candles : list Candle.t) (g : FVG.t) :
  In g (detectFVG candles) ->
  (1 <= FVG.index g < length candles - 1)%nat
  /\ FVG.from g < FVG.to g
  /\ FVG.size g = FVG.to g - FVG.from g
  /\ exists prev next,
       nth_error candles (FVG.index g - 1) = Some prev
       /\ nth_error candles (FVG.index g + 1) = Some next
       /\ match FVG.type g with
          | OrderBlock.bull =>
              FVG.from g = Candle.high prev /\ FVG.to g = Candle.low next
          | OrderBlock.bear =>
              FVG.from g = Candle.high next /\ FVG.to g = Candle.low prev
          end.
Proof.
  unfold detectFVG. intro H.
  apply in_flat_map in H. destruct H as [i [Hi H]].
  unfold range in Hi. apply in_seq in Hi.
  unfold fvgAt in H.
  destruct (nth_error candles (i - 1)) as [prev |] eqn:Hp; [| contradiction].
  destruct (nth_error candles (i + 1)) as [next |] eqn:Hn; [| contradiction].
  apply in_app_or in H.
  destruct H as [H | H]; apply In_if_singleton in H; destruct H as [Hb ->];
    apply Qlt_bool_iff in Hb; cbn [FVG.index FVG.from FVG.to FVG.size FVG.type];
    (split; [lia |]); (split; [exact Hb |]); (split; [reflexivity |]);
    exists prev, next; repeat split; assumption.
Qed.

Lemma fair_value_gaps_are_open_bands_witness :
  (1 <= 1 < length Samples.gapUp - 1)%nat
  /\ 2 < 5
  /\ 5 - 2 = 5 - 2
  /\ exists prev next,
       nth_error Samples.gapUp (1 - 1) = Some prev
       /\ nth_error Samples.gapUp (1 + 1) = Some next
       /\ (2 = Candle.high prev /\ 5 = Candle.low next).
Proof.
  apply (fair_value_gaps_are_open_bands Samples.gapUp
           (FVG.mk 1 2 5 OrderBlock.bull (5 - 2))).
  left. reflexivity.
Defined.

Lemma In_slice {A : Type} (l : list A) (s e j : nat) (x : A) :
  (s <= j < e)%nat -> nth_error l j = Some x -> In x (slice l s e).
Proof.
  intros Hj Hx. unfold slice.
  apply (nth_error_In _ (j - s)).
  rewrite nth_error_firstn.
  assert (E : (j - s <? e - s)%nat = true) by (apply Nat.ltb_lt; lia).
  rewrite E, nth_error_skipn.
  replace (s + (j - s))%nat with j by lia. exact Hx.
Qed.

(** X8: [detectLiquidity] reports no zone on a sequence of at most
    [2 * swingPeriod] candles.  Every swing high it reports is the high
    of the candle at its index, untouched, with [swingPeriod] candles on
    either side none of which has a higher high; every swing low is the
    low of its candle and no candle of its window has a lower low. *)
Theorem liquidity_zones_are_window_extremes
    (candles : list Candle.t) (swingPeriod : positive) :
  let sp := Pos.to_nat swingPeriod in
  let zones := detectLiquidity candles swingPeriod in
  ((length candles <= 2 * sp)%nat ->
   LiquidityZones.highs zones = [] /\ LiquidityZones.lows zones = [])
  /\ (forall z, In z (LiquidityZones.highs zones) ->
        exists ci,
          nth_error candles (Zone.lastTouch z) = Some ci
          /\ z = Zone.mk (Candle.high ci) 0 (Zone.lastTouch z)
          /\ (sp <= Zone.lastTouch z < length candles - sp)%nat
          /\ forall j c,
               (Zone.lastTouch z - sp <= j <= Zone.lastTouch z + sp)%nat ->
               nth_error candles j = Some c ->
               Candle.high c <= Zone.price z)
  /\ (forall z, In z (LiquidityZones.lows zones) ->
        exists ci,
          nth_error candles (Zone.lastTouch z) = Some ci
          /\ z = Zone.mk (Candle.low ci) 0 (Zone.lastTouch z)
          /\ (sp <= Zone.lastTouch z < length candles - sp)%nat
          /\ forall j c,
               (Zone.lastTouch z - sp <= j <= Zone.lastTouch z + sp)%nat ->
               nth_error candles j = Some c ->
               Zone.price z <= Candle.low c).
Proof.
  intros sp zones. unfold zones, detectLiquidity. fold sp.
  cbn [LiquidityZones.highs LiquidityZones.lows].
  split; [| split].
  - intro H. unfold range.
    replace (length candles - sp - sp)%nat with 0%nat by lia.
    split; reflexivity.
  - intros z H. apply in_flat_map in H. destruct H as [i [Hi H]].
    unfold range in Hi. apply in_seq in Hi.
    unfold swingHighAt in H.
    destruct (nth_error candles i) as [ci |] eqn:Hc; [| contradiction].
    apply In_if_singleton in H. destruct H as [Hb ->].
    cbn [Zone.lastTouch Zone.price].
    exists ci. split; [exact Hc |]. split; [reflexivity |].
    split; [lia |].
    intros j c Hj Hjc. rewrite forallb_forall in Hb.
    apply Qle_bool_iff. apply Hb.
    unfold swingWindow. apply (In_slice _ _ _ j); [lia | exact Hjc].
  - intros z H. apply in_flat_map in H. destruct H as [i [Hi H]].
    unfold range in Hi. apply in_seq in Hi.
    unfold swingLowAt in H.
    destruct (nth_error candles i) as [ci |] eqn:Hc; [| contradiction].
    apply In_if_singleton in H. destruct H as [Hb ->].
    cbn [Zone.lastTouch Zone.price].
    exists ci. split; [exact Hc |]. split; [reflexivity |].
    split; [lia |].
    intros j c Hj Hjc. rewrite forallb_forall in Hb.
    apply Qle_bool_iff. apply Hb.
    unfold swingWindow. apply (In_slice _ _ _ j); [lia | exact Hjc].
Qed.

Lemma liquidity_zones_are_window_extremes_witness :
  (exists ci,
     nth_error Samples.peak 5 = Some ci
     /\ Zone.mk 15 0 5 = Zone.mk (Candle.high ci) 0 5
     /\ (Pos.to_nat 5 <= 5 < length Samples.peak - Pos.to_nat 5)%nat
     /\ forall j c,
          (5 - Pos.to_nat 5 <= j <= 5 + Pos.to_nat 5)%nat ->
          nth_error Samples.peak j = Some c ->
          Candle.high c <= 15)
  /\ detectLiquidity (repeat (Examples.flat 10) 10) 5
     = LiquidityZones.mk [] [].
Proof.
  split.
  - apply (proj1 (proj2 (liquidity_zones_are_window_extremes Samples.peak 5))
             (Zone.mk 15 0 5)).
    left. reflexivity.
  - destruct (proj1 (liquidity_zones_are_window_extremes
                       (repeat (Examples.flat 10) 10) 5)) as [Hh Hl].
    + rewrite repeat_length. simpl. lia.
    + destruct (detectLiquidity (repeat (Examples.flat 10) 10) 5)
        as [highs lows].
      simpl in Hh, Hl. subst. reflexivity.
Defined.

(* ------------------------------------------------------------------ *)
(** ** Scoring *)

(** Case analysis on every test of a goal, closing the cases by linear
    arithmetic. *)
Ltac by_cases_lra :=
  repeat match goal with
         | |- context [if ?b then _ else _] => destruct b
         | |- context [match ?x with Some _ => _ | None => _ end] =>
             destruct x
         end;
  try lra.

(** X9: the bias of [calculateConfluence] is bullish exactly when the
    trend or the break of structure is up, also when the other one is
    down; bearish exactly when neither is up and one is down; neutral
    exactly when both are unknown. *)
Theorem bias_prefers_bullish
    (analysis : SMCAnalysis.t) (currentPrice : Q) (weights : SMCWeights.t) :
  let bias :=
    UnifiedScore.bias (calculateConfluence analysis currentPrice weights) in
  let trend := SMCAnalysis.trend analysis in
  let bos := SMCAnalysis.bos analysis in
  (bias = bullish <-> trend = Some up \/ bos = Some up)
  /\ (bias = bearish <->
      trend <> Some up /\ bos <> Some up
      /\ (trend = Some down \/ bos = Some down))
  /\ (bias = neutral <-> trend = None /\ bos = None).
Proof.
  unfold calculateConfluence. cbn [UnifiedScore.bias]. unfold resolveBias.
  destruct (SMCAnalysis.trend analysis) as [[|] |],
           (SMCAnalysis.bos analysis) as [[|] |];
    cbn; repeat split; intros; try discriminate; try tauto;
    try (intuition congruence).
Qed.

Lemma trendStructure_range (trend bos : option Dir) (w : SMCWeights.t) :
  0 <= SMCWeights.trend_structure w ->
  0 <= UnifiedScoring.trendStructure trend bos w
  <= SMCWeights.trend_structure w.
Proof. intro H. unfold UnifiedScoring.trendStructure. by_cases_lra. Qed.

Lemma orderBlocksScore_range (a : SMCAnalysis.t) (p : Q)
    (w : SMCWeights.t) (b : Bias) :
  0 <= SMCWeights.order_blocks w ->
  0 <= UnifiedScoring.orderBlocksScore a p w b <= SMCWeights.order_blocks w.
Proof. intro H. unfold UnifiedScoring.orderBlocksScore. by_cases_lra. Qed.

Lemma fvgsScore_range (a : SMCAnalysis.t) (p : Q)
    (w : SMCWeights.t) (b : Bias) :
  0 <= SMCWeights.fvgs w ->
  0 <= UnifiedScoring.fvgsScore a p w b <= SMCWeights.fvgs w.
Proof. intro H. unfold UnifiedScoring.fvgsScore. by_cases_lra. Qed.

Lemma emaAlignmentScore_range (a : SMCAnalysis.t) (w : SMCWeights.t)
    (b : Bias) :
  0 <= SMCWeights.ema_alignment w ->
  - (5) <= UnifiedScoring.emaAlignmentScore a w b
  <= SMCWeights.ema_alignment w.
Proof. intro H. unfold UnifiedScoring.emaAlignmentScore. by_cases_lra. Qed.

Lemma liquidityScore_range (a : SMCAnalysis.t) (w : SMCWeights.t) :
  0 <= SMCWeights.liquidity w ->
  0 <= liquidityScore a w <= SMCWeights.liquidity w.
Proof. intro H. unfold liquidityScore. by_cases_lra. Qed.

Lemma rsiScore_range (a : SMCAnalysis.t) (w : SMCWeights.t) (b : Bias) :
  0 <= SMCWeights.rsi_penalty w ->
  0 <= UnifiedScoring.rsiScore a w b
  <= Qmax (SMCWeights.rsi_penalty w) 5.
Proof.
  intro H. unfold UnifiedScoring.rsiScore.
  pose proof (Q.le_max_l (SMCWeights.rsi_penalty w) 5).
  pose proof (Q.le_max_r (SMCWeights.rsi_penalty w) 5).
  by_cases_lra.
Qed.

(** The score of [calculateConfluence] under weights that are not
    negative. *)
Lemma confluence_score_range
    (analysis : SMCAnalysis.t) (currentPrice : Q) (weights : SMCWeights.t) :
  Notions.nonnegative weights ->
  SMCWeights.mtf_bonus weights - 5
  <= UnifiedScore.score (calculateConfluence analysis currentPrice weights)
  <= Notions.total weights - SMCWeights.rsi_penalty weights
     + Qmax (SMCWeights.rsi_penalty weights) 5.
Proof.
  intros [Hts [Hob [Hfv [Hem [Hli [Hmt Hrs]]]]]].
  unfold calculateConfluence, Notions.total.
  cbn [UnifiedScore.score SMCWeights.trend_structure SMCWeights.order_blocks
       SMCWeights.fvgs SMCWeights.ema_alignment SMCWeights.liquidity
       SMCWeights.mtf_bonus SMCWeights.rsi_penalty].
  set (bias := resolveBias _ _).
  pose proof (trendStructure_range (SMCAnalysis.trend analysis)
                (SMCAnalysis.bos analysis) weights Hts).
  pose proof (orderBlocksScore_range analysis currentPrice weights bias Hob).
  pose proof (fvgsScore_range analysis currentPrice weights bias Hfv).
  pose proof (emaAlignmentScore_range analysis weights bias Hem).
  pose proof (liquidityScore_range analysis weights Hli).
  pose proof (rsiScore_range analysis weights bias Hrs).
  pose proof (Q.le_max_r (SMCWeights.rsi_penalty weights) 5).
  match goal with
  | |- _ <= Qmax 0 ?t <= _ =>
      destruct (Q.max_spec 0 t) as [[? E] | [? E]]; rewrite E; lra
  end.
Qed.

(** X10: under weights that are not negative, the score of
    [calculateConfluence] is never below zero nor below
    [mtf_bonus - 5], the only negative entry being the EMA penalty of
    5; and it is never above the sum of the weights with [rsi_penalty]
    replaced by the greater of [rsi_penalty] and 5. *)
Theorem confluence_score_bounds
    (analysis : SMCAnalysis.t) (currentPrice : Q) (weights : SMCWeights.t) :
  Notions.nonnegative weights ->
  0 <= UnifiedScore.score (calculateConfluence analysis currentPrice weights)
  /\ SMCWeights.mtf_bonus weights - 5
     <= UnifiedScore.score
          (calculateConfluence analysis currentPrice weights)
  /\ UnifiedScore.score (calculateConfluence analysis currentPrice weights)
     <= Notions.total weights - SMCWeights.rsi_penalty weights
        + Qmax (SMCWeights.rsi_penalty weights) 5.
Proof.
  intro H.
  pose proof (confluence_score_range analysis currentPrice weights H) as Hr.
  repeat split; try apply Hr.
  unfold calculateConfluence. cbn [UnifiedScore.score]. apply Q.le_max_l.
Qed.

Lemma confluence_score_bounds_witness :
  0 <= UnifiedScore.score
         (calculateConfluence Examples.splitAnalysis 100 Examples.weights)
  /\ SMCWeights.mtf_bonus Examples.weights - 5
     <= UnifiedScore.score
          (calculateConfluence Examples.splitAnalysis 100 Examples.weights)
  /\ UnifiedScore.score
       (calculateConfluence Examples.splitAnalysis 100 Examples.weights)
     <= Notions.total Examples.weights
        - SMCWeights.rsi_penalty Examples.weights
        + Qmax (SMCWeights.rsi_penalty Examples.weights) 5.
Proof.
  apply confluence_score_bounds.
  unfold Notions.nonnegative. simpl. repeat split; lra.
Defined.

(** [calculateMTFBonus] yields one of four values: 0 when the
    daily or the hourly trend is unknown, -10 when they disagree, 20
    when they agree, and 35 when the five-minute trend is known and
    agrees as well.  The floor of -15 is never reached. *)
Lemma mtf_bonus_values
    (daily : SMCAnalysis.t) (hourly fiveMin : option SMCAnalysis.t) :
  let d := SMCAnalysis.trend daily in
  let h := trendOf hourly in
  let f := trendOf fiveMin in
  calculateMTFBonus daily hourly fiveMin
  = match d, h with
    | Some x, Some y =>
        if Dir_eqb x y
        then match f with
             | Some z => if Dir_eqb y z then 0 + 20 + 15 else 0 + 20
             | None => 0 + 20
             end
        else 0 - 10
    | _, _ => 0
    end
  /\ - (10) <= calculateMTFBonus daily hourly fiveMin <= 35.
Proof.
  unfold calculateMTFBonus.
  destruct (SMCAnalysis.trend daily) as [[|] |],
           (trendOf hourly) as [[|] |],
           (trendOf fiveMin) as [[|] |];
    split; try reflexivity; vm_compute; split; discriminate.
Qed.

(** X11: under weights that are not negative, the score of
    [scoreSetup] lies between [mtf_bonus], which it always adds, and
    the sum of the seven weights; and without a trend its
    trend-structure entry is 0, whatever the break of structure. *)
Theorem setup_score_bounds
    (analysis : SMCAnalysis.t) (currentPrice : Q) (weights : SMCWeights.t) :
  Notions.nonnegative weights ->
  SMCWeights.mtf_bonus weights
  <= SetupScore.score (scoreSetup analysis currentPrice weights)
  <= Notions.total weights
  /\ (SMCAnalysis.trend analysis = None ->
      SMCWeights.trend_structure
        (SetupScore.breakdown (scoreSetup analysis currentPrice weights))
      = 0).
Proof.
  intros [Hts [Hob [Hfv [Hem [Hli [Hmt Hrs]]]]]].
  split.
  - unfold scoreSetup, Notions.total.
    cbn [SetupScore.score SMCWeights.trend_structure SMCWeights.order_blocks
         SMCWeights.fvgs SMCWeights.ema_alignment SMCWeights.liquidity
         SMCWeights.mtf_bonus SMCWeights.rsi_penalty].
    assert (H1 : 0 <= SetupScoring.trendStructure (SMCAnalysis.trend analysis)
                        (SMCAnalysis.bos analysis) weights
                 <= SMCWeights.trend_structure weights)
      by (unfold SetupScoring.trendStructure; by_cases_lra).
    assert (H2 : 0 <= SetupScoring.orderBlocksScore analysis currentPrice
                        weights
                 <= SMCWeights.order_blocks weights)
      by (unfold SetupScoring.orderBlocksScore; by_cases_lra).
    assert (H3 : 0 <= SetupScoring.fvgsScore analysis currentPrice weights
                 <= SMCWeights.fvgs weights)
      by (unfold SetupScoring.fvgsScore; by_cases_lra).
    assert (H4 : 0 <= SetupScoring.emaAlignmentScore analysis weights
                 <= SMCWeights.ema_alignment weights)
      by (unfold SetupScoring.emaAlignmentScore; by_cases_lra).
    pose proof (liquidityScore_range analysis weights Hli) as H5.
    assert (H6 : 0 <= SetupScoring.rsiScore analysis weights
                 <= SMCWeights.rsi_penalty weights)
      by (unfold SetupScoring.rsiScore; by_cases_lra).
    match goal with
    | |- _ <= Qmax 0 ?t <= _ =>
        destruct (Q.max_spec 0 t) as [[? E] | [? E]]; rewrite E; lra
    end.
  - intro H. unfold scoreSetup.
    cbn [SetupScore.breakdown SMCWeights.trend_structure].
    rewrite H. reflexivity.
Qed.

Lemma setup_score_bounds_witness :
  SMCWeights.mtf_bonus Examples.weights
  <= SetupScore.score (scoreSetup Examples.quietAnalysis 100 Examples.weights)
  <= Notions.total Examples.weights
  /\ (SMCAnalysis.trend Examples.quietAnalysis = None ->
      SMCWeights.trend_structure
        (SetupScore.breakdown
           (scoreSetup Examples.quietAnalysis 100 Examples.weights))
      = 0).
Proof.
  apply setup_score_bounds.
  unfold Notions.nonnegative. simpl. repeat split; lra.
Defined.

(* ------------------------------------------------------------------ *)
(** ** Feature extractor *)

Lemma from_end_Some {A : Type} (l : list A) (k : nat) :
  (1 <= k <= length l)%nat -> exists x, from_end l k = Some x.
Proof.
  intro H. unfold from_end.
  destruct (nth_error (rev l) (k - 1)) as [x |] eqn:E; [eauto |].
  apply nth_error_None in E. rewrite length_rev in E. lia.
Qed.

Lemma length_slice_last {A : Type} (l : list A) (n : nat) :
  length (slice_last l n) = Nat.min n (length l).
Proof. unfold slice_last. rewrite length_skipn. lia. Qed.

(** [getTrendForPeriod] never throws: the window it reads is not
    empty. *)
Lemma getTrendForPeriod_total (candles : list Candle.t) (period : positive) :
  exists t, getTrendForPeriod candles period = Ok t.
Proof.
  unfold getTrendForPeriod.
  destruct (length candles <? Pos.to_nat period)%nat eqn:E; [eauto |].
  apply Nat.ltb_ge in E. pose proof (Pos2Nat.is_pos period) as Hp.
  set (recent := slice_last candles (Pos.to_nat period)).
  assert (Hlen : length recent = Pos.to_nat period).
  { unfold recent. rewrite length_slice_last. lia. }
  destruct (nth_error recent 0) as [first |] eqn:E0;
    [| apply nth_error_None in E0; lia].
  destruct (from_end_Some recent 1 ltac:(lia)) as [last ->].
  repeat match goal with
         | |- context [if ?b then _ else _] => destruct b
         end; eauto.
Qed.

(** The alignment check never throws, and reads neither the trend
    direction nor the current candle it is given. *)
Lemma checkMTFAlignment_total (direction : Direction.t)
    (historicalCandles : list Candle.t) :
  exists aligned,
    forall td cc,
      checkMTFAlignment td direction cc historicalCandles = Ok aligned.
Proof.
  unfold checkMTFAlignment.
  destruct (length historicalCandles <? 50)%nat; [eauto |].
  destruct (getTrendForPeriod_total historicalCandles 20) as [s ->].
  destruct (getTrendForPeriod_total historicalCandles 50) as [m ->].
  destruct (getTrendForPeriod_total historicalCandles 100) as [l ->].
  destruct direction; eauto.
Qed.

(** X12: the alignment check never throws and does not depend on the
    trend direction or the current candle it is given; and on any
    history at least one of the two trade directions is aligned. *)
Theorem mtf_alignment_one_direction_holds
    (historicalCandles : list Candle.t) :
  exists long short,
    (forall td cc,
       checkMTFAlignment td Direction.long cc historicalCandles = Ok long
       /\ checkMTFAlignment td Direction.short cc historicalCandles
          = Ok short)
    /\ long || short = true.
Proof.
  unfold checkMTFAlignment.
  destruct (length historicalCandles <? 50)%nat.
  - exists true, true. split; [split; reflexivity | reflexivity].
  - destruct (getTrendForPeriod_total historicalCandles 20) as [s ->].
    destruct (getTrendForPeriod_total historicalCandles 50) as [m ->].
    destruct (getTrendForPeriod_total historicalCandles 100) as [l ->].
    eexists. eexists. split; [intros td cc; split; reflexivity |].
    destruct s, m, l; reflexivity.
Qed.

Lemma length_sma20 (candles : list Candle.t) :
  length (sma20 candles) = (length candles - 19)%nat.
Proof.
  unfold sma20, range. rewrite length_map, length_seq. reflexivity.
Qed.

Lemma smaFromEnd_Fin (sma : list Q) (k : nat) :
  (1 <= k <= length sma)%nat -> exists v, smaFromEnd sma k = Fin v.
Proof.
  intro H. unfold smaFromEnd.
  destruct (from_end_Some sma k H) as [v ->]. eauto.
Qed.

(** X13: [calculateTrendStrength] never throws.  It is 0 on fewer than
    24 candles, the 20 of its guard and four more for the slope; and
    on candles with positive closes it is a number between 0 and 1. *)
Theorem trend_strength_range (candles : list Candle.t) :
  (exists v, calculateTrendStrength candles = Ok v)
  /\ ((length candles < 24)%nat ->
      calculateTrendStrength candles = Ok (Fin 0))
  /\ (Forall (fun c => 0 < Candle.close c) candles ->
      exists q, calculateTrendStrength candles = Ok (Fin q)
                /\ 0 <= q <= 1).
Proof.
  unfold calculateTrendStrength.
  destruct (length candles <? 20)%nat eqn:E20.
  { repeat split; eauto. intros _. exists 0. split; [reflexivity | lra]. }
  apply Nat.ltb_ge in E20.
  destruct (length (sma20 candles) <? 5)%nat eqn:E5.
  { repeat split; eauto. intros _. exists 0. split; [reflexivity | lra]. }
  apply Nat.ltb_ge in E5. rewrite length_sma20 in E5.
  destruct (from_end_Some candles 1 ltac:(lia)) as [last Hlast].
  rewrite Hlast.
  split; [eauto |]. split; [intro; lia |].
  intro Hpos.
  assert (Hc : 0 < Candle.close last).
  { rewrite Forall_forall in Hpos. apply Hpos.
    apply (from_end_In _ 1). exact Hlast. }
  destruct (smaFromEnd_Fin (sma20 candles) 1) as [a ->];
    [rewrite length_sma20; lia |].
  destruct (smaFromEnd_Fin (sma20 candles) 5) as [b ->];
    [rewrite length_sma20; lia |].
  cbn [sub opp add]. rewrite div_Fin by lra. rewrite div_Fin by lra.
  cbn [abs mul max2 min2].
  eexists. split; [reflexivity |]. split.
  - apply Q.min_glb; [apply Q.le_max_r | lra].
  - apply Q.le_min_r.
Qed.

Lemma trend_strength_range_witness :
  calculateTrendStrength (repeat (Examples.flat 10) 23) = Ok (Fin 0)
  /\ exists q,
       calculateTrendStrength (repeat (Examples.flat 10) 30) = Ok (Fin q)
       /\ 0 <= q <= 1.
Proof.
  split.
  - apply (trend_strength_range (repeat (Examples.flat 10) 23)).
    rewrite repeat_length. lia.
  - apply (trend_strength_range (repeat (Examples.flat 10) 30)).
    apply Forall_forall. intros c Hc. apply repeat_spec in Hc. subst c.
    simpl. lra.
Defined.

(** A capped field is never above its cap; it may be [NaN]. *)
Lemma capped (v : num) (cap : Q) : gt (min2 v (Fin cap)) (Fin cap) = false.
Proof.
  destruct v as [q | | |]; cbn; try reflexivity.
  - unfold Qlt_bool. apply negb_false_iff, Qle_bool_iff, Q.le_min_r.
  - unfold Qlt_bool. apply negb_false_iff, Qle_bool_iff. lra.
Qed.

Lemma calculateTrendStrength_total (candles : list Candle.t) :
  exists v, calculateTrendStrength candles = Ok v.
Proof.
  unfold calculateTrendStrength.
  destruct (length candles <? 20)%nat eqn:E20; [eauto |].
  apply Nat.ltb_ge in E20.
  destruct (length (sma20 candles) <? 5)%nat; [eauto |].
  destruct (from_end_Some candles 1 ltac:(lia)) as [last ->]. eauto.
Qed.

(** [extractFeatures] on an index that has a candle. *)
Lemma extractFeatures_at (config : FeatureConfig.t)
    (candles : list Candle.t) (index : nat) (analysis : SMCAnalysis.t)
    (score : Q) (direction : Direction.t) (currentCandle : Candle.t) :
  nth_error candles index = Some currentCandle ->
  exists trend_strength mtf_aligned,
    extractFeatures config candles index analysis score direction
    = Ok (featuresAt config candles index currentCandle analysis score
            direction trend_strength mtf_aligned).
Proof.
  intro H. unfold extractFeatures. rewrite H.
  set (hist := slice candles _ _).
  destruct (calculateTrendStrength_total hist) as [ts ->].
  destruct (checkMTFAlignment_total direction hist) as [al Hal].
  rewrite Hal. eauto.
Qed.

(** X14: [extractFeatures] throws when there is no candle at the
    index and returns a record otherwise.  The record takes its entry
    price and time from that candle, and its capped fields never
    exceed their caps: 1 for the two distances, 100 for the order-block
    age and 0.5 for the gap size. *)
Theorem extracted_features_are_capped
    (config : FeatureConfig.t) (candles : list Candle.t) (index : nat)
    (analysis : SMCAnalysis.t) (score : Q) (direction : Direction.t) :
  ((length candles <= index)%nat ->
   extractFeatures config candles index analysis score direction
   = Throw "TypeError")
  /\ (forall currentCandle,
        nth_error candles index = Some currentCandle ->
        exists f,
          extractFeatures config candles index analysis score direction
          = Ok f
          /\ Features.entry_price f = Fin (Candle.close currentCandle)
          /\ Features.entry_time f
             = Fin (inject_Z (Candle.timestamp currentCandle))
          /\ Features.direction f = direction
          /\ gt (Features.ob_distance f) (Fin 1) = false
          /\ gt (Features.ob_age f) (Fin 100) = false
          /\ gt (Features.fvg_nearest_distance f) (Fin 1) = false
          /\ gt (Features.fvg_size f) (Fin (1 # 2)) = false).
Proof.
  split.
  - intro H. unfold extractFeatures.
    apply nth_error_None in H. rewrite H. reflexivity.
  - intros cc H.
    destruct (extractFeatures_at config candles index analysis score
                direction cc H) as [ts [al ->]].
    eexists. split; [reflexivity |].
    unfold featuresAt.
    repeat match goal with
           | |- context [let '(_, _) := ?e in _] => destruct e
           end.
    cbn [Features.entry_price Features.entry_time Features.direction
         Features.ob_distance Features.ob_age Features.fvg_nearest_distance
         Features.fvg_size].
    repeat split; apply capped.
Qed.

Lemma extracted_features_are_capped_witness :
  exists f,
    extractFeatures FeatureConfig.default Examples.quietCandles 0
      Examples.quietAnalysis 0 Direction.long = Ok f
    /\ Features.entry_price f = Fin 100
    /\ Features.entry_time f = Fin (inject_Z 0)
    /\ Features.direction f = Direction.long
    /\ gt (Features.ob_distance f) (Fin 1) = false
    /\ gt (Features.ob_age f) (Fin 100) = false
    /\ gt (Features.fvg_nearest_distance f) (Fin 1) = false
    /\ gt (Features.fvg_size f) (Fin (1 # 2)) = false.
Proof.
  apply (proj2 (extracted_features_are_capped FeatureConfig.default
                  Examples.quietCandles 0 Examples.quietAnalysis 0
                  Direction.long)
           (Candle.mk 0 100 101 99 100 1)).
  reflexivity.
Defined.

Lemma nearestOB_In (direction : Direction.t) (close : Q)
    (first : OrderBlock.t) (rest : list OrderBlock.t) :
  In (nearestOB direction close first rest) (first :: rest).
Proof.
  unfold nearestOB. revert first.
  induction rest as [| ob rest IH]; intro first; cbn [fold_left].
  - left. reflexivity.
  - match goal with
    | |- context [if ?b then _ else _] => destruct b
    end.
    + right. apply IH.
    + destruct (IH first) as [<- | H];
        [left; reflexivity | right; right; exact H].
Qed.

(** X15: in a record of [extractFeatures], when [ob_near] is false
    the block type is none, the distance is the cap 1, and size and
    age are 0; when it is true the type is bull for a long trade and
    bear for a short one.  When the gap type is mixed the gap distance
    is the cap 1 and the gap size 0; when it is not, [fvg_near] is
    true and the type is bull for a long trade and bear for a short
    one. *)
Theorem extracted_block_and_gap_fields
    (config : FeatureConfig.t) (candles : list Candle.t) (index : nat)
    (analysis : SMCAnalysis.t) (score : Q) (direction : Direction.t)
    (f : Features.t) :
  extractFeatures config candles index analysis score direction = Ok f ->
  (Features.ob_near f = false ->
   Features.ob_type f = ObType.none
   /\ Features.ob_distance f = Fin 1
   /\ Features.ob_size f = Fin 0
   /\ Features.ob_age f = Fin 0)
  /\ (Features.ob_near f = true ->
      Features.ob_type f
      = match direction with
        | Direction.long => ObType.bull
        | Direction.short => ObType.bear
        end)
  /\ (Features.fvg_type f = FvgType.mixed ->
      Features.fvg_nearest_distance f = Fin 1
      /\ Features.fvg_size f = Fin 0)
  /\ (Features.fvg_type f <> FvgType.mixed ->
      Features.fvg_near f = true
      /\ Features.fvg_type f
         = match direction with
           | Direction.long => FvgType.bull
           | Direction.short => FvgType.bear
           end).
Proof.
  intro H. unfold extractFeatures in H.
  destruct (nth_error candles index) as [cc |]; [| discriminate].
  destruct (calculateTrendStrength _) as [ts | ]; [| discriminate].
  destruct (checkMTFAlignment _ _ _ _) as [al |]; [| discriminate].
  injection H as <-. unfold featuresAt.
  set (relevantOBs := filter _ (SMCAnalysis.orderBlocks analysis)).
  set (relevantFVGs := filter _ (SMCAnalysis.fvg analysis)).
  set (matchingOBs := if FeatureExtraction.isLong direction then _ else _).
  set (matchingFVGs := if FeatureExtraction.isLong direction then _ else _).
  assert (Hkind : forall ob, In ob matchingOBs ->
            obTypeOf (OrderBlock.type ob)
            = match direction with
              | Direction.long => ObType.bull
              | Direction.short => ObType.bear
              end).
  { intros ob Hob. unfold matchingOBs in Hob.
    destruct direction; cbn [FeatureExtraction.isLong] in Hob;
      apply filter_In in Hob; destruct Hob as [_ Hk];
      destruct (OrderBlock.type ob); simpl in Hk; try discriminate;
      reflexivity. }
  assert (Hsub : forall g, In g matchingFVGs -> In g relevantFVGs).
  { intros g Hg. unfold matchingFVGs in Hg.
    destruct (FeatureExtraction.isLong direction);
      apply filter_In in Hg; apply Hg. }
  clearbody relevantOBs relevantFVGs matchingOBs matchingFVGs.
  destruct matchingOBs as [| first rest];
    destruct matchingFVGs as [| g gs];
    cbn [Features.ob_near Features.ob_type Features.ob_distance
         Features.ob_size Features.ob_age Features.fvg_type
         Features.fvg_nearest_distance Features.fvg_size Features.fvg_near
         length Nat.ltb Nat.leb];
    repeat split; intros; try discriminate; try reflexivity;
    try congruence.
  all: try (apply Hkind; apply nearestOB_In).
  all: try (destruct direction; reflexivity).
  all: try (destruct direction; cbn [FeatureExtraction.isLong] in *;
            congruence).
  all: try (specialize (Hsub g (or_introl eq_refl));
            destruct relevantFVGs; [contradiction | reflexivity]).
Qed.

Lemma extracted_block_and_gap_fields_witness :
  exists f,
    extractFeatures FeatureConfig.default Examples.quietCandles 0
      Examples.quietAnalysis 0 Direction.long = Ok f
    /\ Features.ob_type f = ObType.none
    /\ Features.ob_distance f = Fin 1
    /\ Features.ob_size f = Fin 0
    /\ Features.ob_age f = Fin 0.
Proof.
  destruct (extractFeatures FeatureConfig.default Examples.quietCandles 0
              Examples.quietAnalysis 0 Direction.long) as [f | msg] eqn:E;
    [| vm_compute in E; discriminate].
  exists f. split; [reflexivity |].
  apply (extracted_block_and_gap_fields FeatureConfig.default
           Examples.quietCandles 0 Examples.quietAnalysis 0 Direction.long
           f E).
  vm_compute in E. injection E as <-. reflexivity.
Defined.

Lemma countTrue_le (bs : list bool) : (countTrue bs <= length bs)%nat.
Proof. unfold countTrue. apply filter_length_le. Qed.

(** X16: the confluence count of a record is the number of its six
    flags that are set, at most 6, and the confluence score is that
    count divided by 6, a number between 0 and 1: the cap at 1 is never
    needed. *)
Theorem confluence_counts_six_flags
    (config : FeatureConfig.t) (candles : list Candle.t) (index : nat)
    (analysis : SMCAnalysis.t) (score : Q) (direction : Direction.t)
    (f : Features.t) :
  extractFeatures config candles index analysis score direction = Ok f ->
  exists n,
    n = countTrue [Features.ob_near f; Features.fvg_near f;
                   Features.ema_aligned f; Features.liquidity_near f;
                   Features.mtf_aligned f; Features.trend_bos_aligned f]
    /\ (n <= 6)%nat
    /\ Features.confluence_count f = numOfNat n
    /\ exists q, Features.confluence_score f = Fin q
                 /\ q == Qnat n / 6 /\ 0 <= q <= 1.
Proof.
  intro H. unfold extractFeatures in H.
  destruct (nth_error candles index) as [cc |]; [| discriminate].
  destruct (calculateTrendStrength _) as [ts | ]; [| discriminate].
  destruct (checkMTFAlignment _ _ _ _) as [al |]; [| discriminate].
  injection H as <-. unfold featuresAt.
  repeat match goal with
         | |- context [let '(_, _) := ?e in _] => destruct e
         end.
  cbn [Features.ob_near Features.fvg_near Features.ema_aligned
       Features.liquidity_near Features.mtf_aligned
       Features.trend_bos_aligned Features.confluence_count
       Features.confluence_score].
  match goal with
  | |- exists n, n = countTrue ?flags /\ _ =>
      pose proof (countTrue_le flags) as Hle; cbn [length] in Hle;
      set (cnt := countTrue flags) in *
  end.
  exists cnt. split; [reflexivity |]. split; [exact Hle |].
  split; [reflexivity |].
  unfold numOfNat. fold (Qnat cnt). rewrite div_Fin by lra. cbn [min2].
  pose proof (Qnat_nonneg cnt) as H0.
  pose proof (Qnat_le cnt 6 Hle) as H6. change (Qnat 6) with 6 in H6.
  assert (Hq : 0 <= Qnat cnt / 6 <= 1).
  { split; [apply Qle_shift_div_l | apply Qle_shift_div_r]; lra. }
  eexists. split; [reflexivity |]. split.
  - apply Q.min_l. lra.
  - split; [apply Q.min_glb | apply Q.le_min_r]; lra.
Qed.

Lemma confluence_counts_six_flags_witness :
  exists f n,
    extractFeatures FeatureConfig.default Examples.quietCandles 0
      Examples.quietAnalysis 0 Direction.long = Ok f
    /\ n = countTrue [Features.ob_near f; Features.fvg_near f;
                      Features.ema_aligned f; Features.liquidity_near f;
                      Features.mtf_aligned f; Features.trend_bos_aligned f]
    /\ (n <= 6)%nat
    /\ Features.confluence_count f = numOfNat n
    /\ exists q, Features.confluence_score f = Fin q
                 /\ q == Qnat n / 6 /\ 0 <= q <= 1.
Proof.
  destruct (extractFeatures FeatureConfig.default Examples.quietCandles 0
              Examples.quietAnalysis 0 Direction.long) as [f | msg] eqn:E;
    [| vm_compute in E; discriminate].
  destruct (confluence_counts_six_flags FeatureConfig.default
              Examples.quietCandles 0 Examples.quietAnalysis 0
              Direction.long f E) as [n Hn].
  exists f, n. split; [reflexivity | exact Hn].
Defined.

(** The record for an analysis whose RSI is null. *)
Lemma rsi_fallback (config : FeatureConfig.t) (candles : list Candle.t)
    (index : nat) (analysis : SMCAnalysis.t) (score : Q)
    (direction : Direction.t) (f : Features.t) :
  extractFeatures config candles index analysis score direction = Ok f ->
  SMCAnalysis.rsi analysis = None ->
  Features.rsi_value f = Fin 50 /\ Features.rsi_state f = RsiState.neutral.
Proof.
  intros H Hr. unfold extractFeatures in H.
  destruct (nth_error candles index) as [cc |]; [| discriminate].
  destruct (calculateTrendStrength _) as [ts | ]; [| discriminate].
  destruct (checkMTFAlignment _ _ _ _) as [al |]; [| discriminate].
  injection H as <-. unfold featuresAt.
  repeat match goal with
         | |- context [let '(_, _) := ?e in _] => destruct e
         end.
  cbn [Features.rsi_value Features.rsi_state]. rewrite Hr.
  split; reflexivity.
Qed.

(** X17: an RSI of zero does not reach the feature record.  When the
    window behind the last RSI value of the analysed history holds
    losses only, the most oversold reading there is, the record made
    from that analysis has [rsi_value] 50 and [rsi_state] neutral; the
    same holds for a history of fewer than 15 candles. *)
Theorem oversold_extreme_reads_neutral
    (config : FeatureConfig.t) (candles history : list Candle.t)
    (index : nat) (score : Q) (direction : Direction.t) (f : Features.t) :
  extractFeatures config candles index (analyze history) score direction
  = Ok f ->
  (length history < 15)%nat
  \/ allLosses (rsiWindow history (length history - 15)) ->
  Features.rsi_value f = Fin 50 /\ Features.rsi_state f = RsiState.neutral.
Proof.
  intros H Hcase.
  apply (rsi_fallback config candles index (analyze history) score
           direction f H).
  unfold analyze. cbn [SMCAnalysis.rsi].
  apply last_or_null_zero.
  destruct (Nat.lt_ge_cases (length history) 15) as [Hshort | Hlong].
  - left. unfold rsi, range, closes. rewrite length_map.
    replace (length history - Pos.to_nat 14)%nat with 0%nat
      by (change (Pos.to_nat 14) with 14%nat; lia).
    reflexivity.
  - destruct Hcase as [Hc | Hloss]; [lia |]. right.
    destruct (rsi_window_all_losses
                (rsiWindow history (length history - 15)) 14)
      as [q [Hq Hz]].
    + apply rsiWindow_diffs. lia.
    + exact Hloss.
    + exists q. split; [| exact Hz].
      rewrite rsi_last by exact Hlong. rewrite Hq. reflexivity.
Qed.

Lemma oversold_extreme_reads_neutral_witness :
  exists f,
    extractFeatures FeatureConfig.default Examples.fallingCandles 14
      (analyze Examples.fallingCandles) 0 Direction.short = Ok f
    /\ Features.rsi_value f = Fin 50
    /\ Features.rsi_state f = RsiState.neutral.
Proof.
  destruct (extractFeatures FeatureConfig.default Examples.fallingCandles 14
              (analyze Examples.fallingCandles) 0 Direction.short)
    as [f | msg] eqn:E; [| vm_compute in E; discriminate].
  exists f. split; [reflexivity |].
  apply (oversold_extreme_reads_neutral FeatureConfig.default
           Examples.fallingCandles Examples.fallingCandles 14 0
           Direction.short f E).
  right. unfold allLosses. vm_compute. repeat constructor.
Defined.

Lemma fold_Qmax_upper (vs : list Q) (v x : Q) :
  In x (v :: vs) -> x <= fold_left Qmax vs v.
Proof.
  revert v. induction vs as [| a vs IH]; intros v H; cbn [fold_left].
  - destruct H as [E | []]. subst v. lra.
  - destruct H as [E | [E | H]].
    + subst v.
      eapply Qle_trans; [apply (Q.le_max_l x a) | apply fold_Qmax_ge].
    + subst a.
      eapply Qle_trans; [apply (Q.le_max_r v x) | apply fold_Qmax_ge].
    + apply IH. right. exact H.
Qed.

Lemma fold_Qmin_lower (vs : list Q) (v x : Q) :
  In x (v :: vs) -> fold_left Qmin vs v <= x.
Proof.
  revert v. induction vs as [| a vs IH]; intros v H; cbn [fold_left].
  - destruct H as [E | []]. subst v. lra.
  - destruct H as [E | [E | H]].
    + subst v.
      eapply Qle_trans; [apply fold_Qmin_le | apply (Q.le_min_l x a)].
    + subst a.
      eapply Qle_trans; [apply fold_Qmin_le | apply (Q.le_min_r v x)].
    + apply IH. right. exact H.
Qed.

Lemma max_list_bound (l : list Q) :
  l <> [] ->
  exists hi, max_list (map Fin l) = Fin hi /\ forall x, In x l -> x <= hi.
Proof.
  destruct l as [| v vs]; [congruence |]. intros _.
  exists (fold_left Qmax vs v). split; [apply max_list_Fin |].
  intros x Hx. apply fold_Qmax_upper. exact Hx.
Qed.

Lemma min_list_bound (l : list Q) :
  l <> [] ->
  exists lo, min_list (map Fin l) = Fin lo /\ forall x, In x l -> lo <= x.
Proof.
  destruct l as [| v vs]; [congruence |]. intros _.
  exists (fold_left Qmin vs v). split; [apply min_list_Fin |].
  intros x Hx. apply fold_Qmin_lower. exact Hx.
Qed.

Lemma nth_error_slice {A : Type} (l : list A) (s e j : nat) :
  (j < e - s)%nat -> nth_error (slice l s e) j = nth_error l (s + j).
Proof.
  intro H. unfold slice. rewrite nth_error_firstn.
  apply Nat.ltb_lt in H. rewrite H. apply nth_error_skipn.
Qed.

(** The candle at [index] belongs to every non-empty tail of the
    window that ends with it. *)
Lemma current_in_recent (candles : list Candle.t) (s index n : nat)
    (cc : Candle.t) :
  nth_error candles index = Some cc -> (s <= index)%nat -> (1 <= n)%nat ->
  In cc (slice_last (slice candles s (index + 1)) n).
Proof.
  intros Hcc Hs Hn.
  assert (Hlen : (index < length candles)%nat).
  { apply nth_error_Some. congruence. }
  set (hist := slice candles s (index + 1)).
  assert (Hl : length hist = (index + 1 - s)%nat).
  { unfold hist. apply length_slice; lia. }
  unfold slice_last. rewrite Hl.
  apply (nth_error_In _ (index - s - (index + 1 - s - n))).
  rewrite nth_error_skipn.
  replace (index + 1 - s - n + (index - s - (index + 1 - s - n)))%nat
    with (index - s)%nat by lia.
  unfold hist. rewrite nth_error_slice by lia.
  replace (s + (index - s))%nat with index by lia. exact Hcc.
Qed.

(** X18: on candles with positive closes that lie between their lows
    and highs, the price position of a record is a number between 0
    and 1, and its distances to the recent high and low are finite and
    not negative. *)
Theorem price_position_within_unit
    (config : FeatureConfig.t) (candles : list Candle.t) (index : nat)
    (analysis : SMCAnalysis.t) (score : Q) (direction : Direction.t)
    (f : Features.t) :
  extractFeatures config candles index analysis score direction = Ok f ->
  Forall Notions.wellFormed candles ->
  Notions.finiteWithin 0 1 (Features.price_position f)
  /\ (exists d, Features.distance_to_high f = Fin d /\ 0 <= d)
  /\ (exists d, Features.distance_to_low f = Fin d /\ 0 <= d).
Proof.
  intros H Hwf. unfold extractFeatures in H.
  destruct (nth_error candles index) as [cc |] eqn:Hcc; [| discriminate].
  destruct (calculateTrendStrength _) as [ts | ]; [| discriminate].
  destruct (checkMTFAlignment _ _ _ _) as [al |]; [| discriminate].
  injection H as <-. unfold featuresAt.
  repeat match goal with
         | |- context [let '(_, _) := ?e in _] => destruct e
         end.
  cbn [Features.price_position Features.distance_to_high
       Features.distance_to_low].
  set (recent := slice_last _ 50).
  assert (Hin : In cc recent).
  { unfold recent. apply current_in_recent; [exact Hcc | lia | lia]. }
  assert (Hrec : forall c, In c recent -> Notions.wellFormed c).
  { intros c Hc. rewrite Forall_forall in Hwf. apply Hwf.
    unfold recent, slice_last in Hc.
    apply In_skipn in Hc. unfold slice in Hc.
    apply In_firstn, In_skipn in Hc. exact Hc. }
  rewrite <- (map_map Candle.high Fin), <- (map_map Candle.low Fin).
  destruct (max_list_bound (map Candle.high recent)) as [hi [-> Hhi]].
  { destruct recent; [contradiction | discriminate]. }
  destruct (min_list_bound (map Candle.low recent)) as [lo [-> Hlo]].
  { destruct recent; [contradiction | discriminate]. }
  destruct (Hrec cc Hin) as [Hpos [Hlc Hch]].
  assert (H1 : Candle.high cc <= hi) by (apply Hhi, in_map; exact Hin).
  assert (H2 : lo <= Candle.low cc) by (apply Hlo, in_map; exact Hin).
  cbn [sub opp add gt lt].
  destruct (Qlt_bool 0 (hi + - lo)) eqn:E.
  - apply Qlt_bool_iff in E.
    rewrite !div_Fin by lra.
    repeat split.
    + eexists. split; [reflexivity |]. split.
      * apply Qle_shift_div_l; lra.
      * apply Qle_shift_div_r; lra.
    + eexists. split; [reflexivity |]. apply Qle_shift_div_l; lra.
    + eexists. split; [reflexivity |]. apply Qle_shift_div_l; lra.
  - repeat split.
    + exists (1 # 2). split; [reflexivity | lra].
    + exists 0. split; [reflexivity | lra].
    + exists 0. split; [reflexivity | lra].
Qed.

Lemma price_position_within_unit_witness :
  exists f,
    extractFeatures FeatureConfig.default Examples.quietCandles 1
      Examples.quietAnalysis 0 Direction.long = Ok f
    /\ Notions.finiteWithin 0 1 (Features.price_position f)
    /\ (exists d, Features.distance_to_high f = Fin d /\ 0 <= d)
    /\ (exists d, Features.distance_to_low f = Fin d /\ 0 <= d).
Proof.
  destruct (extractFeatures FeatureConfig.default Examples.quietCandles 1
              Examples.quietAnalysis 0 Direction.long) as [f | msg] eqn:E;
    [| vm_compute in E; discriminate].
  exists f. split; [reflexivity |].
  apply (price_position_within_unit FeatureConfig.default
           Examples.quietCandles 1 Examples.quietAnalysis 0 Direction.long
           f E).
  unfold Notions.wellFormed, Examples.quietCandles.
  repeat constructor; simpl; lra.
Defined.

(* ------------------------------------------------------------------ *)
(** ** Trade extraction *)

Lemma simulateTrade_total (candles : list Candle.t) (startIndex : nat)
    (entryPrice : Q) (direction : Direction.t) (analysis : SMCAnalysis.t)
    (c0 : Candle.t) :
  nth_error candles startIndex = Some c0 ->
  exists trade,
    simulateTrade candles startIndex entryPrice direction analysis
    = Ok trade.
Proof.
  intro H. unfold simulateTrade, exitPriceOf. rewrite H. eauto.
Qed.

Section ExtractionFacts.

Variable config : CONFIG.t.
Variable featureConfig : FeatureConfig.t.

(** What the body of the extraction loop yields at an index that has a
    candle: nothing, or one record entered at the close and the time of
    that candle. *)
Lemma tradesAt_result (candles : list Candle.t) (i : nat) (c : Candle.t) :
  nth_error candles i = Some c ->
  exists found,
    tradesAt config featureConfig candles i = Ok found
    /\ (found = []
        \/ exists t,
             found = [t]
             /\ TradeFeatures.entry_price t = Fin (Candle.close c)
             /\ TradeFeatures.entry_time t
                = Fin (inject_Z (Candle.timestamp c))).
Proof.
  intro H. unfold tradesAt. rewrite H.
  set (analysis := analyze _). set (scoring := calculateConfluence _ _ _).
  destruct (Qlt_bool _ _); [eauto |].
  destruct (Bias_eqb _ neutral); [eauto |].
  set (direction := if Bias_eqb _ bullish then _ else _).
  destruct (extractFeatures_at featureConfig candles i analysis
              (UnifiedScore.score scoring) direction c H)
    as [ts [al ->]].
  destruct (simulateTrade_total candles i (Candle.close c) direction
              analysis c H) as [trade ->].
  eexists. split; [reflexivity |]. right.
  eexists. split; [reflexivity |].
  unfold featuresAt.
  repeat match goal with
         | |- context [let '(_, _) := ?e in _] => destruct e
         end.
  split; reflexivity.
Qed.

Lemma collect_result (candles : list Candle.t) (indices : list nat) :
  (forall i, In i indices -> (i < length candles)%nat) ->
  exists trades,
    collect config featureConfig candles indices = Ok trades
    /\ (length trades <= length indices)%nat
    /\ forall t, In t trades ->
         exists i c,
           In i indices /\ nth_error candles i = Some c
           /\ TradeFeatures.entry_price t = Fin (Candle.close c)
           /\ TradeFeatures.entry_time t
              = Fin (inject_Z (Candle.timestamp c)).
Proof.
  induction indices as [| i rest IH]; intro Hin; cbn [collect].
  - exists []. repeat split; [simpl; lia | intros t []].
  - destruct (nth_error candles i) as [c |] eqn:Hc.
    2:{ apply nth_error_None in Hc.
        specialize (Hin i (or_introl eq_refl)). lia. }
    destruct (tradesAt_result candles i c Hc) as [found [-> Hfound]].
    destruct IH as [more [-> [Hlen Hmore]]].
    { intros j Hj. apply Hin. right. exact Hj. }
    eexists. split; [reflexivity |]. split.
    + rewrite length_app. cbn [length].
      destruct Hfound as [-> | [t [-> _]]]; simpl; lia.
    + intros t Ht. apply in_app_or in Ht. destruct Ht as [Ht | Ht].
      * destruct Hfound as [-> | [t' [-> [Hp Htime]]]]; [contradiction |].
        destruct Ht as [<- | []].
        exists i, c. repeat split; try assumption. left. reflexivity.
      * destruct (Hmore t Ht) as [j [c' [Hj Hrest]]].
        exists j, c'. split; [right; exact Hj | exact Hrest].
Qed.

End ExtractionFacts.

(** X19: [extractTradesForSymbol] refuses fewer than 300 candles with
    the error 'Insufficient data'.  On 300 candles or more it never
    throws; it returns at most [length - 250] records, each entered at
    the close and the time of a candle at an index from 200 up to
    [length - 51]. *)
Theorem extraction_needs_300_candles
    (config : CONFIG.t) (featureConfig : FeatureConfig.t)
    (candles : list Candle.t) :
  ((length candles < 300)%nat ->
   extractTrades config featureConfig candles = Throw "Insufficient data")
  /\ ((300 <= length candles)%nat ->
      exists trades,
        extractTrades config featureConfig candles = Ok trades
        /\ (length trades <= length candles - 250)%nat
        /\ forall t, In t trades ->
             exists i c,
               (200 <= i < length candles - 50)%nat
               /\ nth_error candles i = Some c
               /\ TradeFeatures.entry_price t = Fin (Candle.close c)
               /\ TradeFeatures.entry_time t
                  = Fin (inject_Z (Candle.timestamp c))).
Proof.
  unfold extractTrades. split; intro H.
  - apply Nat.ltb_lt in H. rewrite H. reflexivity.
  - assert (E : (length candles <? 300)%nat = false)
      by (apply Nat.ltb_ge; exact H).
    rewrite E.
    destruct (collect_result config featureConfig candles
                (range 200 (length candles - 50)))
      as [trades [Hrun [Hlen Hall]]].
    { intros i Hi. unfold range in Hi. apply in_seq in Hi. lia. }
    exists trades. split; [exact Hrun |]. split.
    + unfold range in Hlen. rewrite length_seq in Hlen. lia.
    + intros t Ht. destruct (Hall t Ht) as [i [c [Hi Hrest]]].
      exists i, c. split; [| exact Hrest].
      unfold range in Hi. apply in_seq in Hi. lia.
Qed.

Lemma extraction_needs_300_candles_witness :
  extractTrades CONFIG.default FeatureConfig.default
    (repeat (Examples.flat 10) 299)
  = Throw "Insufficient data"
  /\ exists trades,
       extractTrades CONFIG.default FeatureConfig.default
         (repeat (Examples.flat 10) 300) = Ok trades
       /\ (length trades <= length (repeat (Examples.flat 10) 300) - 250)%nat
       /\ forall t, In t trades ->
            exists i c,
              (200 <= i < length (repeat (Examples.flat 10) 300) - 50)%nat
              /\ nth_error (repeat (Examples.flat 10) 300) i = Some c
              /\ TradeFeatures.entry_price t = Fin (Candle.close c)
              /\ TradeFeatures.entry_time t
                 = Fin (inject_Z (Candle.timestamp c)).
Proof.
  split.
  - apply (extraction_needs_300_candles CONFIG.default FeatureConfig.default
             (repeat (Examples.flat 10) 299)).
    rewrite repeat_length. lia.
  - apply (extraction_needs_300_candles CONFIG.default FeatureConfig.default
             (repeat (Examples.flat 10) 300)).
    rewrite repeat_length. lia.
Defined.

(** The weights of the extraction loop leave every score at 30 or
    more. *)
Lemma extraction_score_floor (analysis : SMCAnalysis.t) (currentPrice : Q) :
  30 <= UnifiedScore.score
          (calculateConfluence analysis currentPrice TradeExtraction.weights).
Proof.
  assert (H : Notions.nonnegative TradeExtraction.weights).
  { unfold Notions.nonnegative. simpl. repeat split; lra. }
  pose proof (confluence_score_range analysis currentPrice
                TradeExtraction.weights H) as [Hlo _].
  change (35 - 5
          <= UnifiedScore.score
               (calculateConfluence analysis currentPrice
                  TradeExtraction.weights)) in Hlo.
  lra.
Qed.

Section ScoreFilter.

Variable config : CONFIG.t.
Variable featureConfig : FeatureConfig.t.
Hypothesis lowThreshold : CONFIG.minScore config <= 30.

Lemma tradesAt_count (candles : list Candle.t) (i : nat) (c : Candle.t) :
  nth_error candles i = Some c ->
  exists found,
    tradesAt config featureConfig candles i = Ok found
    /\ length found = if Notions.directional candles i then 1%nat else 0%nat.
Proof.
  intro H. unfold tradesAt, Notions.directional, Notions.setupAt. rewrite H.
  set (analysis := analyze _). set (scoring := calculateConfluence _ _ _).
  assert (E : Qlt_bool (UnifiedScore.score scoring) (CONFIG.minScore config)
              = false).
  { unfold Qlt_bool. apply negb_false_iff, Qle_bool_iff.
    pose proof (extraction_score_floor analysis (Candle.close c)).
    fold scoring in H0. lra. }
  rewrite E.
  destruct (Bias_eqb (UnifiedScore.bias scoring) neutral);
    [eexists; split; reflexivity |].
  set (direction := if Bias_eqb _ bullish then _ else _).
  destruct (extractFeatures_at featureConfig candles i analysis
              (UnifiedScore.score scoring) direction c H)
    as [ts [al ->]].
  destruct (simulateTrade_total candles i (Candle.close c) direction
              analysis c H) as [trade ->].
  eexists. split; reflexivity.
Qed.

Lemma collect_count (candles : list Candle.t) (indices : list nat) :
  (forall i, In i indices -> (i < length candles)%nat) ->
  exists trades,
    collect config featureConfig candles indices = Ok trades
    /\ length trades = length (filter (Notions.directional candles) indices).
Proof.
  induction indices as [| i rest IH]; intro Hin; cbn [collect filter].
  - exists []. split; reflexivity.
  - destruct (nth_error candles i) as [c |] eqn:Hc.
    2:{ apply nth_error_None in Hc.
        specialize (Hin i (or_introl eq_refl)). lia. }
    destruct (tradesAt_count candles i c Hc) as [found [-> Hfound]].
    destruct IH as [more [-> Hmore]].
    { intros j Hj. apply Hin. right. exact Hj. }
    eexists. split; [reflexivity |].
    rewrite length_app, Hfound, Hmore.
    destruct (Notions.directional candles i); reflexivity.
Qed.

End ScoreFilter.

(** X20: with the weights of the extraction loop the confluence score
    is never below 30, so a minimum score of 30 or less, such as the
    configured 25, filters nothing: on 300 candles or more the loop
    returns exactly one record for every index from 200 up to
    [length - 51] whose bias is not neutral. *)
Theorem minimum_score_filters_nothing
    (config : CONFIG.t) (featureConfig : FeatureConfig.t)
    (candles : list Candle.t) :
  CONFIG.minScore config <= 30 ->
  (300 <= length candles)%nat ->
  (forall analysis currentPrice,
     30 <= UnifiedScore.score
             (calculateConfluence analysis currentPrice
                TradeExtraction.weights))
  /\ exists trades,
       extractTrades config featureConfig candles = Ok trades
       /\ length trades
          = length (filter (Notions.directional candles)
                      (range 200 (length candles - 50))).
Proof.
  intros Hmin Hlen. split; [apply extraction_score_floor |].
  unfold extractTrades.
  assert (E : (length candles <? 300)%nat = false)
    by (apply Nat.ltb_ge; exact Hlen).
  rewrite E.
  apply collect_count; [exact Hmin |].
  intros i Hi. unfold range in Hi. apply in_seq in Hi. lia.
Qed.

Lemma minimum_score_filters_nothing_witness :
  (forall analysis currentPrice,
     30 <= UnifiedScore.score
             (calculateConfluence analysis currentPrice
                TradeExtraction.weights))
  /\ exists trades,
       extractTrades CONFIG.default FeatureConfig.default
         (repeat (Examples.flat 10) 300) = Ok trades
       /\ length trades
          = length (filter
                      (Notions.directional (repeat (Examples.flat 10) 300))
                      (range 200
                         (length (repeat (Examples.flat 10) 300) - 50))).
Proof.
  apply minimum_score_filters_nothing.
  - simpl. lra.
  - rewrite repeat_length. lia.
Defined.

(* ------------------------------------------------------------------ *)
(** ** The trained model *)

(** The entry that [train] makes for a numeric and for a categorical
    feature. *)
Lemma train_entries (trades : list TradeFeatures.t) (m0 : TradingMLModel.t) :
  features (train trades m0)
  = map (fun k =>
           (k, ModelFeature.mk k (numericBins k trades 10)
                 (importanceOf
                    (ModelFeature.mk k (numericBins k trades 10) 0))))
        numericFeatures
    ++ map (fun k =>
              let bins :=
                map (categoricalBin k trades)
                    (unique (map (TradeFeatures.get k) trades)) in
              (k, ModelFeature.mk k bins
                    (importanceOf (ModelFeature.mk k bins 0))))
           categoricalFeatures.
Proof. reflexivity. Qed.

Lemma In_train_entry (trades : list TradeFeatures.t)
    (m0 : TradingMLModel.t) (k : TradeFeatures.key) (mf : ModelFeature.t) :
  In (k, mf) (features (train trades m0)) ->
  ModelFeature.name mf = k
  /\ ((In k numericFeatures
       /\ ModelFeature.bins mf = numericBins k trades 10)
      \/ (In k categoricalFeatures
          /\ ModelFeature.bins mf
             = map (categoricalBin k trades)
                   (unique (map (TradeFeatures.get k) trades)))).
Proof.
  rewrite train_entries. intro H. apply in_app_or in H.
  destruct H as [H | H]; apply in_map_iff in H;
    destruct H as [k' [E Hk]]; injection E as <- <-;
    (split; [reflexivity |]); [left | right]; split;
    try exact Hk; reflexivity.
Qed.

(** X21: [train] replaces the state of the model wholesale: whatever
    the model held before, the result is the same, the flag is set, and
    the map holds the 32 features, the sixteen numeric ones before the
    sixteen categorical ones, each under its own name. *)
Theorem train_replaces_the_model
    (trades : list TradeFeatures.t) (m0 : TradingMLModel.t) :
  train trades m0 = train trades TradingMLModel.new
  /\ trained (train trades m0) = true
  /\ map fst (features (train trades m0))
     = numericFeatures ++ categoricalFeatures
  /\ Stats.numFeatures (getStats (train trades m0)) = 32%nat
  /\ forall k mf, In (k, mf) (features (train trades m0)) ->
       ModelFeature.name mf = k.
Proof.
  repeat split; try reflexivity.
  intros k mf H. apply (In_train_entry trades m0 k mf H).
Qed.

Lemma rate_range (wins n : nat) : (wins <= n)%nat -> 0 <= rate wins n <= 1.
Proof.
  intro H. unfold rate. destruct (0 <? n)%nat eqn:E; [| lra].
  apply Nat.ltb_lt in E. pose proof (Qnat_pos n E) as Hn.
  pose proof (Qnat_nonneg wins) as Hw. pose proof (Qnat_le wins n H) as Hle.
  split; [apply Qle_shift_div_l | apply Qle_shift_div_r]; lra.
Qed.

(** A bin made from the records that pass a test. *)
Lemma consistent_counts (trades : list TradeFeatures.t)
    (test : TradeFeatures.t -> bool) (lo hi : num)
    (v : option TradeFeatures.value) :
  Notions.consistentBin (length trades)
    (FeatureBin.mk lo hi (length (filter test trades))
       (length (filter isWin (filter test trades)))
       (rate (length (filter isWin (filter test trades)))
             (length (filter test trades)))
       v).
Proof.
  unfold Notions.consistentBin.
  cbn [FeatureBin.wins FeatureBin.count FeatureBin.winRate].
  pose proof (filter_length_le isWin (filter test trades)) as H1.
  pose proof (filter_length_le test trades) as H2.
  repeat split; try assumption; try reflexivity; apply rate_range; exact H1.
Qed.

Lemma trained_bins_consistent (trades : list TradeFeatures.t)
    (m0 : TradingMLModel.t) (k : TradeFeatures.key) (mf : ModelFeature.t)
    (b : FeatureBin.t) :
  In (k, mf) (features (train trades m0)) ->
  In b (ModelFeature.bins mf) ->
  Notions.consistentBin (length trades) b.
Proof.
  intros H Hb. apply In_train_entry in H.
  destruct H as [_ [[_ E] | [_ E]]]; rewrite E in Hb;
    [unfold numericBins in Hb |]; apply in_map_iff in Hb;
    destruct Hb as [i [<- _]]; apply consistent_counts.
Qed.

(** X22: in every bin of a trained model the wins are among the
    counted records, the count is at most the size of the corpus, and
    the win rate is wins over count, 0 for an empty bin, a number
    between 0 and 1. *)
Theorem trained_bins_are_consistent
    (trades : list TradeFeatures.t) (m0 : TradingMLModel.t)
    (k : TradeFeatures.key) (mf : ModelFeature.t) (b : FeatureBin.t) :
  In (k, mf) (features (train trades m0)) ->
  In b (ModelFeature.bins mf) ->
  (FeatureBin.wins b <= FeatureBin.count b <= length trades)%nat
  /\ FeatureBin.winRate b
     = (if (0 <? FeatureBin.count b)%nat
        then Qnat (FeatureBin.wins b) / Qnat (FeatureBin.count b)
        else 0)
  /\ 0 <= FeatureBin.winRate b <= 1.
Proof.
  intros H Hb. exact (trained_bins_consistent trades m0 k mf b H Hb).
Qed.

Lemma trained_bins_are_consistent_witness :
  let b := FeatureBin.mk (Fin 0) (Fin 0) 4 4 (Qnat 4 / Qnat 4)
             (Some (TradeFeatures.VStr "asian")) in
  (FeatureBin.wins b <= FeatureBin.count b <= length Examples.winners)%nat
  /\ FeatureBin.winRate b
     = (if (0 <? FeatureBin.count b)%nat
        then Qnat (FeatureBin.wins b) / Qnat (FeatureBin.count b)
        else 0)
  /\ 0 <= FeatureBin.winRate b <= 1.
Proof.
  apply (trained_bins_are_consistent Examples.winners TradingMLModel.new
           TradeFeatures.k_session
           (ModelFeature.mk TradeFeatures.k_session
              [FeatureBin.mk (Fin 0) (Fin 0) 4 4 (Qnat 4 / Qnat 4)
                 (Some (TradeFeatures.VStr "asian"))] 0)).
  - rewrite train_entries. apply in_or_app. right.
    do 13 right. left. reflexivity.
  - left. reflexivity.
Defined.

(** [findBin] answers with the default, or with the figures of a bin
    that matches. *)
Lemma findBin_cases (v : TradeFeatures.value) (bins : list FeatureBin.t) :
  findBin v bins = (1 # 2, 0%nat)
  \/ exists b,
       In b bins /\ binMatches v b = true
       /\ findBin v bins = (FeatureBin.winRate b, FeatureBin.count b).
Proof.
  induction bins as [| b bins IH]; cbn [findBin]; [left; reflexivity |].
  destruct (binMatches v b) eqn:E.
  - right. exists b. repeat split; [left; reflexivity | exact E].
  - destruct IH as [H | [b' [Hin [Hm H]]]]; [left; exact H | right].
    exists b'. repeat split; [right; exact Hin | exact Hm | exact H].
Qed.

(** The score of a feature of a trained model is not negative, and the
    win rate that comes with it lies between 0 and 1. *)
Lemma trained_score_range (trades : list TradeFeatures.t)
    (m0 : TradingMLModel.t) (x : TradeFeatures.t)
    (e : TradeFeatures.key * ModelFeature.t) :
  In e (features (train trades m0)) ->
  0 <= WeightedScore.score (scoreFeature x e)
  /\ 0 <= WeightedScore.winRate (scoreFeature x e) <= 1.
Proof.
  intro He. pose proof (train_importance trades m0 e He) as Himp.
  destruct e as [k mf]. cbn [snd] in Himp. unfold scoreFeature.
  assert (Hw : 0 <= fst (findBin (TradeFeatures.get k x)
                           (ModelFeature.bins mf)) <= 1).
  { destruct (findBin_cases (TradeFeatures.get k x) (ModelFeature.bins mf))
      as [-> | [b [Hb [_ ->]]]]; cbn [fst]; [lra |].
    apply (trained_bins_consistent trades m0 k mf b He Hb). }
  destruct (findBin _ _) as [w n]. cbn [fst] in Hw.
  cbn [WeightedScore.score WeightedScore.winRate].
  pose proof (sampleWeight_range n) as Hs.
  split; [| exact Hw].
  set (sw := Qmin _ 1) in *. set (imp := ModelFeature.importance mf) in *.
  assert (0 <= w * imp) by nra. nra.
Qed.

Lemma weighted_sums (top : list WeightedScore.t) :
  (forall f, In f top ->
     0 <= WeightedScore.score f /\ 0 <= WeightedScore.winRate f <= 1) ->
  forall s t,
    0 <= s <= t ->
    0 <= fold_left
           (fun a f => a + WeightedScore.score f * WeightedScore.winRate f)
           top s
    <= fold_left Qplus (map WeightedScore.score top) t.
Proof.
  induction top as [| f top IH]; intros H s t Hst; cbn [fold_left map].
  - exact Hst.
  - destruct (H f (or_introl eq_refl)) as [Hs Hw].
    apply IH; [intros g Hg; apply H; right; exact Hg |].
    split; nra.
Qed.

(** X23: a trained model answers every feature record, and the win
    probability it gives is a number between 0 and 1: a weighted mean
    of win rates under weights that are not negative, or 0.5 when all
    weights are zero. *)
Theorem win_probability_within_unit
    (trades : list TradeFeatures.t) (m0 : TradingMLModel.t)
    (x : TradeFeatures.t) :
  exists p,
    predict (train trades m0) x = Ok p
    /\ 0 <= Prediction.winProbability p <= 1.
Proof.
  eexists. split.
  - unfold predict. cbn [trained train negb]. reflexivity.
  - cbn [Prediction.winProbability].
    set (top := topFeatures (train trades m0) x).
    assert (Htop : forall f, In f top ->
              0 <= WeightedScore.score f
              /\ 0 <= WeightedScore.winRate f <= 1).
    { intros f Hf. destruct (In_topFeatures _ _ _ Hf) as [e [He ->]].
      apply (trained_score_range trades m0 x e He). }
    pose proof (weighted_sums top Htop 0 0 ltac:(lra)) as Hsum.
    fold (sum (map WeightedScore.score top)) in Hsum.
    destruct (Qlt_bool 0 (sum (map WeightedScore.score top))) eqn:E; [| lra].
    apply Qlt_bool_iff in E.
    split; [apply Qle_shift_div_l | apply Qle_shift_div_r]; lra.
Qed.

Lemma importanceOf_small (mf : ModelFeature.t) :
  (forall b, In b (ModelFeature.bins mf) ->
     (FeatureBin.count b < minSampleSize)%nat) ->
  importanceOf mf = 0.
Proof.
  intro H. unfold importanceOf.
  assert (E : filter (fun b => (minSampleSize <=? FeatureBin.count b)%nat)
                (ModelFeature.bins mf) = []).
  { destruct (filter _ (ModelFeature.bins mf)) as [| b rest] eqn:E;
      [reflexivity |].
    assert (Hb : In b (filter
                         (fun b => (minSampleSize <=? FeatureBin.count b)%nat)
                         (ModelFeature.bins mf)))
      by (rewrite E; left; reflexivity).
    apply filter_In in Hb. destruct Hb as [Hb Hc].
    apply Nat.leb_le in Hc. specialize (H b Hb). lia. }
  rewrite E. reflexivity.
Qed.

Lemma importance_undersampled (trades : list TradeFeatures.t)
    (m0 : TradingMLModel.t) (e : TradeFeatures.key * ModelFeature.t) :
  (length trades < 30)%nat ->
  In e (features (train trades m0)) ->
  ModelFeature.importance (snd e) = 0.
Proof.
  intros Hlen He.
  assert (Hbins : forall b, In b (ModelFeature.bins (snd e)) ->
            (FeatureBin.count b < minSampleSize)%nat).
  { intros b Hb. destruct e as [k mf]. cbn [snd] in Hb.
    destruct (trained_bins_consistent trades m0 k mf b He Hb) as [[_ Hc] _].
    unfold minSampleSize. lia. }
  revert He Hbins. rewrite train_entries. intros He Hbins.
  apply in_app_or in He.
  destruct He as [He | He]; apply in_map_iff in He;
    destruct He as [k [<- Hk]]; cbn [snd ModelFeature.importance] in *;
    apply importanceOf_small; exact Hbins.
Qed.

Lemma sum_scores_zero (top : list WeightedScore.t) :
  (forall f, In f top -> WeightedScore.score f == 0) ->
  sum (map WeightedScore.score top) == 0.
Proof.
  intro H. apply sum_zero. for_each_mapped f Hf. apply H. exact Hf.
Qed.

(** X24: a model trained on fewer than 30 records, the minimum sample
    size, has no bin that counts for importance: every importance is 0,
    and the model gives the win probability 0.5 for every feature
    record. *)
Theorem undersampled_model_predicts_half
    (trades : list TradeFeatures.t) (m0 : TradingMLModel.t)
    (x : TradeFeatures.t) :
  (length trades < 30)%nat ->
  (forall k mf, In (k, mf) (features (train trades m0)) ->
     ModelFeature.importance mf = 0)
  /\ exists p,
       predict (train trades m0) x = Ok p
       /\ Prediction.winProbability p = 1 # 2.
Proof.
  intro Hlen. split.
  - intros k mf H.
    apply (importance_undersampled trades m0 (k, mf) Hlen H).
  - eexists. split.
    + unfold predict. cbn [trained train negb]. reflexivity.
    + cbn [Prediction.winProbability].
      set (top := topFeatures (train trades m0) x).
      assert (Hz : sum (map WeightedScore.score top) == 0).
      { apply sum_scores_zero. intros f Hf.
        destruct (In_topFeatures _ _ _ Hf) as [[k mf] [He ->]].
        pose proof (importance_undersampled trades m0 (k, mf) Hlen He) as Hi.
        cbn [snd] in Hi. unfold scoreFeature.
        destruct (findBin _ _) as [w n]. cbn [WeightedScore.score].
        rewrite Hi. ring. }
      assert (E : Qlt_bool 0 (sum (map WeightedScore.score top)) = false).
      { unfold Qlt_bool. apply negb_false_iff, Qle_bool_iff. lra. }
      rewrite E. reflexivity.
Qed.

Lemma undersampled_model_predicts_half_witness :
  exists p,
    predict (train Examples.winners TradingMLModel.new)
      (Examples.trade 0 Outcome.LOSS) = Ok p
    /\ Prediction.winProbability p = 1 # 2.
Proof.
  apply (undersampled_model_predicts_half Examples.winners
           TradingMLModel.new (Examples.trade 0 Outcome.LOSS)).
  simpl. lia.
Defined.

(** No number lies in the empty range from 0 to 0 of a categorical
    bin. *)
Lemma inRange_empty (x : num) : inRange x (Fin 0) (Fin 0) = false.
Proof.
  unfold inRange, ge. destruct x as [q | | |]; cbn [le lt]; try reflexivity.
  unfold Qlt_bool. destruct (Qle_bool 0 q); reflexivity.
Qed.

Lemma findBin_categorical_number (k : TradeFeatures.key)
    (trades : list TradeFeatures.t) (n : num)
    (values : list TradeFeatures.value) :
  findBin (TradeFeatures.VNum n) (map (categoricalBin k trades) values)
  = (1 # 2, 0%nat).
Proof.
  induction values as [| v values IH]; cbn [map findBin]; [reflexivity |].
  unfold binMatches at 1. cbn [categoricalBin FeatureBin.min FeatureBin.max].
  rewrite inRange_empty. exact IH.
Qed.

(** X25: [days_since_loss] is binned as a categorical feature, but its
    value is a number, and [predict] tests a number against the range
    of a bin, which for a categorical bin is the empty range from 0 to
    0.  So no record ever matches a bin of this feature: the lookup
    gives the default win rate 0.5 with a count of 0, and the feature
    scores 0 whatever its importance. *)
Theorem days_since_loss_never_matches
    (trades : list TradeFeatures.t) (m0 : TradingMLModel.t)
    (mf : ModelFeature.t) (x : TradeFeatures.t) :
  In (TradeFeatures.k_days_since_loss, mf) (features (train trades m0)) ->
  findBin (TradeFeatures.get TradeFeatures.k_days_since_loss x)
          (ModelFeature.bins mf)
  = (1 # 2, 0%nat)
  /\ WeightedScore.winRate
       (scoreFeature x (TradeFeatures.k_days_since_loss, mf)) = 1 # 2
  /\ WeightedScore.score
       (scoreFeature x (TradeFeatures.k_days_since_loss, mf)) == 0.
Proof.
  intro H. destruct (In_train_entry trades m0 _ mf H) as [_ [[Hk _] | [_ E]]].
  - exfalso. unfold numericFeatures in Hk. cbn [In] in Hk.
    repeat (destruct Hk as [Hk | Hk]; [discriminate |]). exact Hk.
  - assert (Hf : findBin (TradeFeatures.get TradeFeatures.k_days_since_loss x)
                   (ModelFeature.bins mf) = (1 # 2, 0%nat)).
    { rewrite E. cbn [TradeFeatures.get].
      apply findBin_categorical_number. }
    split; [exact Hf |]. unfold scoreFeature. rewrite Hf.
    cbn [WeightedScore.winRate WeightedScore.score].
    split; [reflexivity |].
    assert (Hs : Qmin (Qnat 0 / Qnat minSampleSize) 1 == 0)
      by (vm_compute; reflexivity).
    rewrite Hs. ring.
Qed.

Lemma days_since_loss_never_matches_witness :
  findBin (TradeFeatures.get TradeFeatures.k_days_since_loss
             (Examples.trade 0 Outcome.WIN))
    [FeatureBin.mk (Fin 0) (Fin 0) 4 4 (Qnat 4 / Qnat 4)
       (Some (TradeFeatures.VNum (Fin 0)))]
  = (1 # 2, 0%nat).
Proof.
  apply (days_since_loss_never_matches Examples.winners TradingMLModel.new
           (ModelFeature.mk TradeFeatures.k_days_since_loss
              [FeatureBin.mk (Fin 0) (Fin 0) 4 4 (Qnat 4 / Qnat 4)
                 (Some (TradeFeatures.VNum (Fin 0)))] 0)).
  rewrite train_entries. apply in_or_app. right. do 14 right. left.
  reflexivity.
Defined.

(** Strict equality of a value that is not a number is equality. *)
Lemma value_eq_notNumber (u v : TradeFeatures.value) :
  Notions.notNumber v ->
  TradeFeatures.value_eq u v = true <-> u = v.
Proof.
  intro Hv. destruct u as [a | a | a], v as [b | b | b];
    cbn [Notions.notNumber TradeFeatures.value_eq] in *;
    try contradiction;
    try (split; [discriminate | discriminate]).
  - rewrite Bool.eqb_true_iff. split; [intros -> | intros [= ->]]; reflexivity.
  - rewrite String.eqb_eq. split; [intros -> | intros [= ->]]; reflexivity.
Qed.

(** The set of the values holds every value that is not a number. *)
Lemma uniqueFrom_complete (v : TradeFeatures.value)
    (values seen : list TradeFeatures.value) :
  Notions.notNumber v ->
  In v values -> ~ In v seen -> In v (uniqueFrom seen values).
Proof.
  intro Hv. revert seen.
  induction values as [| u values IH]; intros seen Hin Hseen;
    [destruct Hin |].
  cbn [uniqueFrom].
  destruct (existsb (TradeFeatures.value_same u) seen) eqn:E.
  - destruct Hin as [-> | Hin]; [| apply IH; assumption].
    exfalso. apply existsb_exists in E. destruct E as [s [Hs E]].
    destruct s as [a | a | a], v as [b | b | b];
      cbn [Notions.notNumber TradeFeatures.value_same
           TradeFeatures.value_eq] in *;
      try contradiction; try discriminate.
    + apply Bool.eqb_prop in E. subst a. exact (Hseen Hs).
    + apply (proj1 (String.eqb_eq _ _)) in E. subst a. exact (Hseen Hs).
  - destruct Hin as [-> | Hin]; [left; reflexivity |].
    destruct (TradeFeatures.value_eq u v) eqn:Euv.
    + apply (value_eq_notNumber u v Hv) in Euv. left. exact Euv.
    + right. apply IH; [exact Hin |].
      intros [-> | Hs]; [| exact (Hseen Hs)].
      assert (Hvv : TradeFeatures.value_eq v v = true)
        by (apply (value_eq_notNumber v v Hv); reflexivity).
      rewrite Hvv in Euv. discriminate.
Qed.

(** The first bin that matches a value that is not a number is the bin
    of that value. *)
Lemma findBin_categorical (k : TradeFeatures.key)
    (trades : list TradeFeatures.t) (v : TradeFeatures.value)
    (values : list TradeFeatures.value) :
  Notions.notNumber v ->
  In v values ->
  (0 < FeatureBin.count (categoricalBin k trades v))%nat ->
  findBin v (map (categoricalBin k trades) values)
  = (FeatureBin.winRate (categoricalBin k trades v),
     FeatureBin.count (categoricalBin k trades v)).
Proof.
  intros Hv Hin Hcount.
  induction values as [| u values IH]; [destruct Hin |].
  cbn [map findBin].
  assert (Hm : binMatches v (categoricalBin k trades u)
               = (0 <? FeatureBin.count (categoricalBin k trades u))%nat
                 && TradeFeatures.value_eq u v).
  { destruct v; cbn [Notions.notNumber] in Hv; [contradiction | |];
      reflexivity. }
  rewrite Hm. destruct (TradeFeatures.value_eq u v) eqn:Euv.
  - apply (value_eq_notNumber u v Hv) in Euv. subst u.
    apply Nat.ltb_lt in Hcount. rewrite Hcount. reflexivity.
  - rewrite Bool.andb_false_r. apply IH.
    destruct Hin as [-> | Hin]; [| exact Hin].
    assert (Hvv : TradeFeatures.value_eq v v = true)
      by (apply (value_eq_notNumber v v Hv); reflexivity).
    rewrite Hvv in Euv. discriminate.
Qed.

(** X26: the categorical lookup finds what training stored.  For a
    categorical feature whose value is not a number (all but
    [days_since_loss]), a record whose value occurs in the training set
    is scored with the figures of the training records that share the
    value: their number, which is at least 1, and the share of wins
    among them. *)
Theorem categorical_lookup_finds_training_value
    (trades : list TradeFeatures.t) (m0 : TradingMLModel.t)
    (k : TradeFeatures.key) (mf : ModelFeature.t) (x y : TradeFeatures.t) :
  In (k, mf) (features (train trades m0)) ->
  Notions.notNumber (TradeFeatures.get k x) ->
  In y trades ->
  TradeFeatures.get k y = TradeFeatures.get k x ->
  let same :=
    filter (fun z => TradeFeatures.value_eq (TradeFeatures.get k z)
                       (TradeFeatures.get k x))
           trades in
  (1 <= length same)%nat
  /\ findBin (TradeFeatures.get k x) (ModelFeature.bins mf)
     = (rate (length (filter isWin same)) (length same), length same).
Proof.
  intros He Hv Hy Hyx same.
  assert (Hvv : TradeFeatures.value_eq (TradeFeatures.get k x)
                  (TradeFeatures.get k x) = true)
    by (apply (value_eq_notNumber _ _ Hv); reflexivity).
  assert (Hsame : (1 <= length same)%nat).
  { assert (Hin : In y same).
    { apply filter_In. split; [exact Hy |]. rewrite Hyx. exact Hvv. }
    destruct same; [destruct Hin | cbn [length]; lia]. }
  split; [exact Hsame |].
  destruct (In_train_entry trades m0 k mf He) as [_ [[Hk E] | [Hk E]]].
  - exfalso. unfold numericFeatures in Hk. cbn [In] in Hk.
    repeat (destruct Hk as [Hk | Hk];
            [subst k; cbn [TradeFeatures.get Notions.notNumber] in Hv;
             contradiction |]).
    exact Hk.
  - rewrite E.
    apply (findBin_categorical k trades (TradeFeatures.get k x)).
    + exact Hv.
    + apply uniqueFrom_complete; [exact Hv | | intros []].
      rewrite <- Hyx. apply in_map. exact Hy.
    + exact Hsame.
Qed.

Lemma categorical_lookup_finds_training_value_witness :
  (1 <= 4)%nat
  /\ findBin (TradeFeatures.get TradeFeatures.k_session
                (Examples.trade (1 # 2) Outcome.WIN))
       [FeatureBin.mk (Fin 0) (Fin 0) 4 4 (Qnat 4 / Qnat 4)
          (Some (TradeFeatures.VStr "asian"))]
     = (rate 4 4, 4%nat).
Proof.
  assert (He : In (TradeFeatures.k_session,
                   ModelFeature.mk TradeFeatures.k_session
                     [FeatureBin.mk (Fin 0) (Fin 0) 4 4 (Qnat 4 / Qnat 4)
                        (Some (TradeFeatures.VStr "asian"))] 0)
                  (features (train Examples.winners TradingMLModel.new))).
  { rewrite train_entries. apply in_or_app. right. do 13 right. left.
    reflexivity. }
  exact (categorical_lookup_finds_training_value Examples.winners
           TradingMLModel.new TradeFeatures.k_session _
           (Examples.trade (1 # 2) Outcome.WIN)
           (Examples.trade (1 # 2) Outcome.WIN)
           He I (or_introl eq_refl) eq_refl).
Defined.







(* ------------------------------------------------------------------ *)
(** ** The simulated trade *)

(** The scan ends on the stop, on the target, or on the price it
    started with, the last only when no candle touches a level. *)
Lemma scanExit_cases (long : bool) (stopLoss tp2 exitPrice : num)
    (scanned : list Candle.t) :
  scanExit long stopLoss tp2 exitPrice scanned = stopLoss
  \/ scanExit long stopLoss tp2 exitPrice scanned = tp2
  \/ (scanExit long stopLoss tp2 exitPrice scanned = exitPrice
      /\ forall c, In c scanned -> touches long stopLoss tp2 c = false).
Proof.
  induction scanned as [| c rest IH].
  - right. right. split; [reflexivity | intros c []].
  - destruct (touches long stopLoss tp2 c) eqn:E.
    + unfold touches in E. cbn [scanExit].
      destruct (long && le (Fin (Candle.low c)) stopLoss);
        [left; reflexivity |].
      destruct (negb long && ge (Fin (Candle.high c)) stopLoss);
        [left; reflexivity |].
      destruct (long && ge (Fin (Candle.high c)) tp2);
        [right; left; reflexivity |].
      destruct (negb long && le (Fin (Candle.low c)) tp2);
        [right; left; reflexivity | discriminate].
    + rewrite (scanExit_step long stopLoss tp2 exitPrice c rest E).
      destruct IH as [H | [H | [H Hq]]];
        [left; exact H | right; left; exact H |].
      right. right. split; [exact H |].
      intros c' [<- | Hc']; [exact E | apply Hq; exact Hc'].
Qed.

(** The fields of the trade for a finite stop and exit price. *)
Lemma tradeOf_fields (entryPrice : Q) (direction : Direction.t) (s x : Q) :
  ~ entryPrice == 0 ->
  tradeOf entryPrice direction (Fin s) (Fin x)
  = BacktestTrade.mk
      (if Qlt_bool 0
            (1000 * ((if BacktestLearnLoop.isLong direction
                      then x + - entryPrice
                      else entryPrice + - x) / entryPrice))
       then Outcome.WIN else Outcome.LOSS)
      (Fin (1000 * ((if BacktestLearnLoop.isLong direction
                     then x + - entryPrice
                     else entryPrice + - x) / entryPrice)))
      (Fin ((if BacktestLearnLoop.isLong direction
             then x + - entryPrice
             else entryPrice + - x) / entryPrice * 100))
      (if Qeq_bool x s then "SL" else "TP")
      (Fin 0).
Proof.
  intro He. unfold tradeOf.
  destruct direction; cbn [BacktestLearnLoop.isLong sub opp add];
    rewrite div_Fin by exact He; reflexivity.
Qed.

(** Stop and target of a trade with a finite range [a]: the stop two
    ranges against the trade, the target six ranges with it. *)
Lemma stop_and_target (entryPrice a : Q) (direction : Direction.t) :
  0 < a ->
  exists s t,
    stopLossOf entryPrice direction (Fin a) = Fin s
    /\ tp2Of entryPrice direction (Fin s) = Fin t
    /\ (if BacktestLearnLoop.isLong direction
        then s == entryPrice - 2 * a /\ t == entryPrice + 6 * a
        else s == entryPrice + 2 * a /\ t == entryPrice - 6 * a).
Proof.
  intro Ha. unfold stopLossOf, tp2Of.
  destruct direction; cbn [BacktestLearnLoop.isLong sub opp add mul abs];
    do 2 eexists;
    (split; [reflexivity |]); (split; [reflexivity |]).
  - assert (E : Qabs (entryPrice + - (entryPrice + - (a * 2))) == 2 * a).
    { rewrite Qabs_pos; [ring | lra]. }
    rewrite E. split; ring.
  - assert (E : Qabs (entryPrice + - (entryPrice + a * 2)) == 2 * a).
    { rewrite Qabs_neg; [ring | lra]. }
    rewrite E. split; ring.
Qed.

(** X28: the three ways a simulated trade ends.  With a finite
    positive range [a] (the ATR, or the range of the entry candle) and
    a positive entry price, the simulation returns a trade, which exits
    - at the stop: a loss of [2000 * a / entryPrice], labelled SL;
    - at the target: a win of [6000 * a / entryPrice], labelled TP;
    - or, when no scanned candle touches either level, at the close of
      the entry candle. *)
Theorem simulated_trade_outcomes
    (candles : list Candle.t) (startIndex : nat) (entryPrice : Q)
    (direction : Direction.t) (analysis : SMCAnalysis.t)
    (c0 : Candle.t) (a : Q) :
  nth_error candles startIndex = Some c0 ->
  atrOf c0 analysis = Fin a ->
  0 < a ->
  0 < entryPrice ->
  exists exitPrice trade,
    exitPriceOf candles startIndex entryPrice direction analysis
    = Ok exitPrice
    /\ simulateTrade candles startIndex entryPrice direction analysis
       = Ok trade
    /\ ((exitPrice = stopLossOf entryPrice direction (Fin a)
         /\ BacktestTrade.outcome trade = Outcome.LOSS
         /\ BacktestTrade.exit_reason trade = "SL"%string
         /\ exists q, BacktestTrade.pnl trade = Fin q
                      /\ q == - (2000 * a / entryPrice))
        \/ (exitPrice
            = tp2Of entryPrice direction
                (stopLossOf entryPrice direction (Fin a))
            /\ BacktestTrade.outcome trade = Outcome.WIN
            /\ BacktestTrade.exit_reason trade = "TP"%string
            /\ exists q, BacktestTrade.pnl trade = Fin q
                         /\ q == 6000 * a / entryPrice)
        \/ (exitPrice = Fin (Candle.close c0)
            /\ forall c,
                 In c (scannedCandles candles startIndex) ->
                 touches (BacktestLearnLoop.isLong direction)
                   (stopLossOf entryPrice direction (Fin a))
                   (tp2Of entryPrice direction
                      (stopLossOf entryPrice direction (Fin a)))
                   c = false)).
Proof.
  intros Hc0 Hatr Ha He.
  assert (He0 : ~ entryPrice == 0) by lra.
  assert (Hr : 0 < a / entryPrice) by (apply Qlt_shift_div_l; lra).
  unfold simulateTrade, exitPriceOf. rewrite Hc0, Hatr.
  do 2 eexists. split; [reflexivity |]. split; [reflexivity |].
  destruct (stop_and_target entryPrice a direction Ha)
    as [s [t [Hs [Ht Hst]]]].
  rewrite Hs, Ht.
  destruct (scanExit_cases (BacktestLearnLoop.isLong direction) (Fin s) (Fin t)
              (Fin (Candle.close c0)) (scannedCandles candles startIndex))
    as [H | [H | [H Hq]]]; rewrite H.
  - left. split; [reflexivity |].
    rewrite (tradeOf_fields entryPrice direction s s He0).
    cbn [BacktestTrade.outcome BacktestTrade.exit_reason BacktestTrade.pnl].
    assert (Eq : 1000 * ((if BacktestLearnLoop.isLong direction
                          then s + - entryPrice
                          else entryPrice + - s) / entryPrice)
                 == - (2000 * a / entryPrice)).
    { destruct direction; cbn [BacktestLearnLoop.isLong] in *;
        destruct Hst as [E _];
        rewrite E; field; exact He0. }
    split; [| split].
    + assert (Hneg : Qlt_bool 0
                (1000 * ((if BacktestLearnLoop.isLong direction
                          then s + - entryPrice
                          else entryPrice + - s) / entryPrice)) = false).
      { unfold Qlt_bool. apply negb_false_iff, Qle_bool_iff.
        rewrite Eq.
        assert (E2 : 2000 * a / entryPrice == 2000 * (a / entryPrice))
          by (field; exact He0).
        rewrite E2. lra. }
      rewrite Hneg. reflexivity.
    + assert (Hss : Qeq_bool s s = true)
        by (apply Qeq_bool_iff; reflexivity).
      rewrite Hss. reflexivity.
    + eexists. split; [reflexivity | exact Eq].
  - right. left. split; [reflexivity |].
    rewrite (tradeOf_fields entryPrice direction s t He0).
    cbn [BacktestTrade.outcome BacktestTrade.exit_reason BacktestTrade.pnl].
    assert (Eq : 1000 * ((if BacktestLearnLoop.isLong direction
                          then t + - entryPrice
                          else entryPrice + - t) / entryPrice)
                 == 6000 * a / entryPrice).
    { destruct direction; cbn [BacktestLearnLoop.isLong] in *;
        destruct Hst as [_ E];
        rewrite E; field; exact He0. }
    split; [| split].
    + assert (Hpos : Qlt_bool 0
                (1000 * ((if BacktestLearnLoop.isLong direction
                          then t + - entryPrice
                          else entryPrice + - t) / entryPrice)) = true).
      { apply Qlt_bool_iff. rewrite Eq.
        assert (E2 : 6000 * a / entryPrice == 6000 * (a / entryPrice))
          by (field; exact He0).
        rewrite E2. lra. }
      rewrite Hpos. reflexivity.
    + assert (Hts : Qeq_bool t s = false).
      { apply Qeq_bool_false.
        destruct direction; cbn [BacktestLearnLoop.isLong] in *;
          destruct Hst as [E1 E2];
          rewrite E1, E2; lra. }
      rewrite Hts. reflexivity.
    + eexists. split; [reflexivity | exact Eq].
  - right. right. split; [reflexivity | exact Hq].
Qed.

Lemma simulated_trade_outcomes_witness :
  exists exitPrice trade,
    exitPriceOf Examples.quietCandles 0 100 Direction.long
      Examples.quietAnalysis = Ok exitPrice
    /\ simulateTrade Examples.quietCandles 0 100 Direction.long
         Examples.quietAnalysis = Ok trade
    /\ ((exitPrice = stopLossOf 100 Direction.long (Fin 10)
         /\ BacktestTrade.outcome trade = Outcome.LOSS
         /\ BacktestTrade.exit_reason trade = "SL"%string
         /\ exists q, BacktestTrade.pnl trade = Fin q
                      /\ q == - (2000 * 10 / 100))
        \/ (exitPrice
            = tp2Of 100 Direction.long (stopLossOf 100 Direction.long (Fin 10))
            /\ BacktestTrade.outcome trade = Outcome.WIN
            /\ BacktestTrade.exit_reason trade = "TP"%string
            /\ exists q, BacktestTrade.pnl trade = Fin q
                         /\ q == 6000 * 10 / 100)
        \/ (exitPrice = Fin (Candle.close (Candle.mk 0 100 101 99 100 1))
            /\ forall c,
                 In c (scannedCandles Examples.quietCandles 0) ->
                 touches (BacktestLearnLoop.isLong Direction.long)
                   (stopLossOf 100 Direction.long (Fin 10))
                   (tp2Of 100 Direction.long
                      (stopLossOf 100 Direction.long (Fin 10)))
                   c = false)).
Proof.
  apply (simulated_trade_outcomes Examples.quietCandles 0 100
           Direction.long Examples.quietAnalysis
           (Candle.mk 0 100 101 99 100 1) 10).
  - reflexivity.
  - reflexivity.
  - lra.
  - lra.
Defined.

(* ------------------------------------------------------------------ *)
(** ** Evaluation and the learning loop *)

(** On a trained model [predict] answers, and the record is
    misclassified when the predicted win differs from the actual one. *)
Lemma misclassified_trained (m : TradingMLModel.t)
    (trade : TradeFeatures.t) :
  trained m = true ->
  exists p,
    predict m trade = Ok p
    /\ Notions.misclassified m trade
       = negb (Bool.eqb (Qle_bool (1 # 2) (Prediction.winProbability p))
                        (isWin trade)).
Proof.
  intro Hm. unfold Notions.misclassified, predict. rewrite Hm. cbn [negb].
  eexists. split; reflexivity.
Qed.

(** The loop of [evaluateModel] on a trained model: the records that
    are misclassified are appended in order, the others are counted. *)
Lemma evaluateLoop_filter (m : TradingMLModel.t)
    (trades : list TradeFeatures.t) :
  trained m = true ->
  forall correct errors,
    evaluateLoop m trades correct errors
    = Ok ((correct
           + (length trades
              - length (filter (Notions.misclassified m) trades)))%nat,
          errors ++ filter (Notions.misclassified m) trades).
Proof.
  intro Hm. induction trades as [| trade rest IH]; intros correct errors.
  - cbn [evaluateLoop filter length]. rewrite app_nil_r, Nat.add_0_r.
    reflexivity.
  - destruct (misclassified_trained m trade Hm) as [p [Hp Hmis]].
    cbn [evaluateLoop filter]. rewrite Hp, Hmis.
    pose proof (filter_length_le (Notions.misclassified m) rest) as Hle.
    destruct (Bool.eqb (Qle_bool (1 # 2) (Prediction.winProbability p))
                (isWin trade)); cbn [negb]; rewrite IH;
      f_equal; f_equal;
      first [ cbn [length]; lia
            | rewrite <- app_assoc; reflexivity ].
Qed.

(** X29: what [evaluateModel] returns for a trained model.  The errors
    are the records, in their order, whose predicted outcome (a win
    when the win probability is at least 0.5) differs from the actual
    one; the accuracy is the share of the other records, a number
    between 0 and 1.  On an empty set nothing is predicted and the
    accuracy is [0 / 0], not a number. *)
Theorem evaluation_accuracy_and_errors
    (model : TradingMLModel.t) (trades : list TradeFeatures.t) :
  trained model = true ->
  exists accuracy,
    evaluateModel model trades
    = Ok (accuracy, filter (Notions.misclassified model) trades)
    /\ match trades with
       | [] => accuracy = NaN
       | _ :: _ =>
           exists q,
             accuracy = Fin q
             /\ q == Qnat (length trades
                           - length (filter (Notions.misclassified model)
                                       trades))
                     / Qnat (length trades)
             /\ 0 <= q <= 1
       end.
Proof.
  intro Hm. unfold evaluateModel.
  rewrite (evaluateLoop_filter model trades Hm). cbn [app Nat.add].
  eexists. split; [reflexivity |].
  destruct trades as [| trade rest]; [reflexivity |].
  set (trades := trade :: rest).
  assert (Hn : 0 < Qnat (length trades))
    by (apply Qnat_pos; cbn [trades length]; lia).
  set (c := (length trades
             - length (filter (Notions.misclassified model) trades))%nat).
  assert (Hc : Qnat c <= Qnat (length trades))
    by (apply Qnat_le; unfold c; lia).
  pose proof (Qnat_nonneg c) as Hc0.
  rewrite div_Fin by lra.
  eexists. split; [reflexivity |]. split; [reflexivity |].
  split; [apply Qle_shift_div_l | apply Qle_shift_div_r]; lra.
Qed.

Lemma evaluation_accuracy_and_errors_witness :
  exists accuracy,
    evaluateModel (train Examples.winners TradingMLModel.new)
      Examples.winners
    = Ok (accuracy,
          filter (Notions.misclassified
                    (train Examples.winners TradingMLModel.new))
                 Examples.winners)
    /\ exists q,
         accuracy = Fin q
         /\ q == Qnat (length Examples.winners
                       - length
                           (filter
                              (Notions.misclassified
                                 (train Examples.winners TradingMLModel.new))
                              Examples.winners))
                 / Qnat (length Examples.winners)
         /\ 0 <= q <= 1.
Proof.
  apply (evaluation_accuracy_and_errors
           (train Examples.winners TradingMLModel.new) Examples.winners).
  reflexivity.
Defined.

Lemma length_concat_repeat {A : Type} (l : list A) (n : nat) :
  length (concat (repeat l n)) = (n * length l)%nat.
Proof.
  induction n as [| n IH]; [reflexivity |].
  cbn [repeat concat]. rewrite length_app, IH. cbn [Nat.mul]. reflexivity.
Qed.

Section LoopShape.

Variable config : CONFIG.t.
Variable shuffle : nat -> list TradeFeatures.t -> list TradeFeatures.t.

(** The record of an iteration: its number, the size of the pool, and
    the number of the misclassified test records. *)
Lemma evaluateIteration_record (i : nat) (st : state) :
  exists model' record errors,
    evaluateIteration config shuffle i st = Ok (model', record, errors)
    /\ LoopIteration.iteration record = i
    /\ LoopIteration.tradesExtracted record = length (trainingData st)
    /\ LoopIteration.predictionErrors record = length errors.
Proof.
  unfold evaluateIteration.
  set (model' := train (trainSet config shuffle i st) (model st)).
  destruct (evaluateModel_total model' (testSet config shuffle i st)
              eq_refl) as [a1 [e1 ->]].
  destruct (evaluateModel_total model' (trainSet config shuffle i st)
              eq_refl) as [a2 [e2 ->]].
  do 3 eexists. split; [reflexivity |]. repeat split.
Qed.

(** The shape of the run of the loop from iteration [i] on. *)
Lemma iterate_shape (remaining i : nat) (st : state) :
  (i + remaining = S (CONFIG.maxIterations config))%nat ->
  exists st' added,
    iterate config shuffle remaining i st = Ok st'
    /\ iterations st' = iterations st ++ added
    /\ map LoopIteration.iteration added = seq i (length added)
    /\ (Nat.min 1 remaining <= length added <= remaining)%nat
    /\ (i = 1%nat -> (Nat.min 2 remaining <= length added)%nat)
    /\ (exists extra, trainingData st' = trainingData st ++ extra)
    /\ (forall r, nth_error added 0 = Some r ->
          LoopIteration.tradesExtracted r = length (trainingData st))
    /\ (forall j r r',
          nth_error added j = Some r ->
          nth_error added (S j) = Some r' ->
          LoopIteration.tradesExtracted r'
          = (LoopIteration.tradesExtracted r
             + (CONFIG.errorEmphasisMultiplier config - 1)
               * LoopIteration.predictionErrors r)%nat).
Proof.
  revert i st. induction remaining as [| remaining IH]; intros i st Hi.
  - exists st, []. split; [reflexivity |].
    split; [rewrite app_nil_r; reflexivity |].
    split; [reflexivity |]. split; [cbn [length]; lia |].
    split; [intros _; cbn [length]; lia |].
    split; [exists []; rewrite app_nil_r; reflexivity |].
    split; [intros r H; discriminate | intros [| j] r r' H; discriminate].
  - destruct (evaluateIteration_record i st)
      as [model' [record [errors [He [Hnum [Hsize Herr]]]]]].
    cbn [iterate]. rewrite He.
    destruct (converged config i (LoopIteration.improvementFromLast record))
      eqn:Hc.
    + eexists. exists [record]. split; [reflexivity |].
      split; [reflexivity |].
      split; [cbn [map length seq]; rewrite Hnum; reflexivity |].
      split; [cbn [length]; lia |].
      split.
      { intros ->. unfold converged in Hc. cbn [Nat.ltb Nat.leb andb] in Hc.
        discriminate. }
      split; [exists []; cbn [trainingData]; rewrite app_nil_r; reflexivity |].
      split.
      { intros r H. injection H as <-. exact Hsize. }
      intros [| j] r r' H H'; [discriminate |].
      destruct j; discriminate.
    + set (pool := if (i <? CONFIG.maxIterations config)%nat
                   then emphasize config (trainingData st) errors
                   else trainingData st).
      set (st1 := mkState model' (iterations st ++ [record])
                    (LoopIteration.testAccuracy record) pool).
      destruct (IH (S i) st1 ltac:(lia))
        as [st' [added [Hrun [Hits [Hnums [Hlen [_ [Hpool
              [Hfirst Hchain]]]]]]]]].
      exists st', (record :: added). split; [exact Hrun |].
      split.
      { rewrite Hits. cbn [st1 iterations]. rewrite <- app_assoc.
        reflexivity. }
      split.
      { cbn [map length seq]. rewrite Hnum, Hnums. reflexivity. }
      split; [cbn [length]; lia |].
      split; [intros _; cbn [length]; lia |].
      split.
      { destruct Hpool as [extra Hextra]. cbn [st1 trainingData] in Hextra.
        unfold pool, emphasize in Hextra.
        destruct (i <? CONFIG.maxIterations config)%nat.
        - eexists. rewrite Hextra, <- app_assoc. reflexivity.
        - exists extra. exact Hextra. }
      split.
      { intros r H. injection H as <-. exact Hsize. }
      intros [| j] r r' H H'.
      * injection H as <-. cbn [nth_error] in H'.
        rewrite (Hfirst r' H'). cbn [st1 trainingData].
        assert (Hlt : (i <? CONFIG.maxIterations config)%nat = true).
        { apply Nat.ltb_lt.
          destruct added as [| r0 added0]; [discriminate |].
          cbn [length] in Hlen. lia. }
        unfold pool. rewrite Hlt. unfold emphasize.
        rewrite length_app, length_concat_repeat, Hsize, Herr. reflexivity.
      * cbn [nth_error] in H, H'. exact (Hchain j r r' H H').
Qed.

End LoopShape.

(** X30: the shape of a run of the learning loop.  The loop never
    throws.  Its records are numbered 1, 2, ... without a gap; there
    are at most [maxIterations] of them, and at least two when
    [maxIterations] allows it, since the first iteration cannot meet
    the convergence test.  Each record takes down the size of the
    pool, which starts with the extracted trades and grows between two
    iterations by the misclassified test records, [multiplier - 1]
    times; the final pool begins with the extracted trades.  [run]
    does not start the loop below 200 extracted trades. *)
Theorem learning_loop_shape
    (config : CONFIG.t)
    (shuffle : nat -> list TradeFeatures.t -> list TradeFeatures.t)
    (allTrades : list TradeFeatures.t) :
  exists st,
    learn config shuffle allTrades = Ok st
    /\ run config shuffle allTrades
       = (if (length allTrades <? 200)%nat then Ok NotEnoughTrades
          else Ok (Completed st))
    /\ map LoopIteration.iteration (iterations st)
       = seq 1 (length (iterations st))
    /\ (Nat.min 2 (CONFIG.maxIterations config)
        <= length (iterations st) <= CONFIG.maxIterations config)%nat
    /\ (exists extra, trainingData st = allTrades ++ extra)
    /\ (forall r, nth_error (iterations st) 0 = Some r ->
          LoopIteration.tradesExtracted r = length allTrades)
    /\ (forall j r r',
          nth_error (iterations st) j = Some r ->
          nth_error (iterations st) (S j) = Some r' ->
          LoopIteration.tradesExtracted r'
          = (LoopIteration.tradesExtracted r
             + (CONFIG.errorEmphasisMultiplier config - 1)
               * LoopIteration.predictionErrors r)%nat).
Proof.
  unfold run, learn.
  destruct (iterate_shape config shuffle (CONFIG.maxIterations config) 1
              (mkState TradingMLModel.new [] (Fin 0) allTrades) eq_refl)
    as [st [added [Hrun [Hits [Hnums [Hlen [Hmin [Hpool [Hfirst Hchain]]]]]]]]].
  cbn [iterations trainingData app] in *. subst added.
  exists st. rewrite Hrun.
  split; [reflexivity |]. split; [reflexivity |].
  split; [exact Hnums |].
  split; [specialize (Hmin eq_refl); lia |].
  split; [exact Hpool |]. split; [exact Hfirst | exact Hchain].
Qed.

(* ------------------------------------------------------------------ *)
(** ** Instances *)

(** No candle, no ATR. *)
Lemma analysis_atr_null_or_positive_witness :
  SMCAnalysis.atr (analyze []) = None.
Proof.
  apply (proj1 (proj2 (proj2 (analysis_atr_null_or_positive [])))).
  simpl. lia.
Defined.

(** Trend up and break of structure down: the bias is bullish. *)
Lemma bias_prefers_bullish_witness :
  UnifiedScore.bias
    (calculateConfluence Examples.splitAnalysis 100 Examples.weights)
  = bullish.
Proof.
  pose proof (bias_prefers_bullish Examples.splitAnalysis 100
                Examples.weights) as H.
  cbv zeta in H. destruct H as [[_ H] _]. apply H. left. reflexivity.
Defined.

(** The entry of the session feature carries its name. *)
Lemma train_replaces_the_model_witness :
  ModelFeature.name
    (ModelFeature.mk TradeFeatures.k_session
       [FeatureBin.mk (Fin 0) (Fin 0) 4 4 (Qnat 4 / Qnat 4)
          (Some (TradeFeatures.VStr "asian"))] 0)
  = TradeFeatures.k_session.
Proof.
  apply (proj2 (proj2 (proj2 (proj2
           (train_replaces_the_model Examples.winners TradingMLModel.new))))).
  rewrite train_entries. apply in_or_app. right. do 13 right. left.
  reflexivity.
Defined.

(** The default loop on four winners, the order kept: at least two and
    at most ten iterations. *)
Lemma learning_loop_shape_witness :
  exists st,
    learn CONFIG.default Examples.keepOrder Examples.winners = Ok st
    /\ (2 <= length (iterations st) <= 10)%nat.
Proof.
  destruct (learning_loop_shape CONFIG.default Examples.keepOrder
              Examples.winners) as [st [H1 [_ [_ [H4 _]]]]].
  exists st. split; [exact H1 | exact H4].
Defined.
